(** * tools/deploy.py: the model-export pipeline driver

    A shallow embedding of [tools/deploy.py].  The driver sequences worker
    processes; every worker runs one collaborator function
    ([torch2onnx], [extract_model], [onnx2tensorrt], [inference_model]) that
    lives outside the file.  The embedding keeps

    - Python values of the configuration as a tree ([pyval]),
    - the shared [mp.Value('d', ...)] cells as IEEE doubles ([spec_float]),
    - the driver as a state-and-exception monad over a chronological trace
      of the externally visible actions (logging calls, directory creation,
      shared-value allocation, worker runs),
    - the collaborators as an oracle [world] that says what a worker writes
      into the shared cells.

    Conventions: the interpreter runs in its default mode (assert statements
    are executed); [mmcv.Config.fromfile] has already produced the
    configuration dictionary, whose values are [None], booleans, integers,
    strings, lists and dictionaries; directory creation, process spawning
    and the import of [onnx2tensorrt] themselves do not fail; every worker
    terminates, so that [join] returns. *)

From Stdlib Require Import ZArith List String Ascii Bool Lia.
From Stdlib Require Import Floats.SpecFloat.
Import ListNotations.

Set Warnings "-register-all".

Local Open Scope string_scope.
Local Open Scope list_scope.
Local Open Scope Z_scope.

(* ================================================================= *)
(** ** Python values *)

(** Values a configuration file can hold (and the plain data the driver
    hands to workers).  A dictionary keeps its insertion order. *)
Inductive pyval : Type :=
| PNone
| PBool (b : bool)
| PInt (z : Z)
| PStr (s : string)
| PList (l : list pyval)
| PDict (d : list (string * pyval)).

(** Exceptions the driver can raise.  [exit()] is the [site] builtin: it
    raises [SystemExit] with the code it was given. *)
Inductive exn : Type :=
| KeyError (key : string)
| IndexError
| TypeError
| AttributeError
| AssertionError
| ReferenceError
| SystemExit (code : option Z).

Inductive result (A : Type) : Type :=
| Ret (a : A)
| Raise (e : exn).
Arguments Ret {A} a.
Arguments Raise {A} e.

(** [bool(v)] *)
Definition truthy (v : pyval) : bool :=
  match v with
  | PNone => false
  | PBool b => b
  | PInt z => negb (z =? 0)
  | PStr s => negb (s =? "")%string
  | PList l => match l with [] => false | _ => true end
  | PDict d => match d with [] => false | _ => true end
  end.

(** [v == s] for a string literal [s] *)
Definition eq_str (v : pyval) (s : string) : bool :=
  match v with
  | PStr s' => (s' =? s)%string
  | _ => false
  end.

(** Dictionary lookup, first binding of the key. *)
Fixpoint lookup (k : string) (d : list (string * pyval)) : option pyval :=
  match d with
  | [] => None
  | (k', v) :: d' => if (k' =? k)%string then Some v else lookup k d'
  end.

(** [k in d], which is also [hasattr(cfg, k)] on an [mmcv.Config]. *)
Definition has_key (k : string) (d : list (string * pyval)) : bool :=
  match lookup k d with Some _ => true | None => false end.

(** [d.get(k, default)] on a dictionary *)
Definition dict_get (d : list (string * pyval)) (k : string) (default : pyval) : pyval :=
  match lookup k d with Some v => v | None => default end.

(** [v[k]] with a string key: dictionaries raise [KeyError] on a missing key
    ([mmcv.ConfigDict.__missing__]); lists and strings refuse a string index;
    the other values are not subscriptable. *)
Definition subscript (v : pyval) (k : string) : result pyval :=
  match v with
  | PDict d => match lookup k d with Some x => Ret x | None => Raise (KeyError k) end
  | _ => Raise TypeError
  end.

(** [v.get(k, default)]: only dictionaries have the method. *)
Definition method_get (v : pyval) (k : string) (default : pyval) : result pyval :=
  match v with
  | PDict d => Ret (dict_get d k default)
  | _ => Raise AttributeError
  end.

(** Python strings are sequences of code points; the embedding stores their
    UTF-8 bytes.  A byte [10xxxxxx] continues the code point before it. *)
Definition is_continuation (c : ascii) : bool :=
  let n := nat_of_ascii c in (128 <=? n)%nat && (n <? 192)%nat.

Definition continues (g : string) : bool :=
  match g with
  | String c _ => is_continuation c
  | EmptyString => false
  end.

Fixpoint code_points (s : string) : list string :=
  match s with
  | EmptyString => []
  | String c r =>
      match code_points r with
      | g :: gs => if continues g then String c g :: gs else String c "" :: g :: gs
      | [] => [String c ""]
      end
  end.

(** [iter(v)]: the items a [for] loop (or [zip]) sees. *)
Definition py_iter (v : pyval) : result (list pyval) :=
  match v with
  | PList l => Ret l
  | PDict d => Ret (map (fun kv => PStr (fst kv)) d)
  | PStr s => Ret (map PStr (code_points s))
  | _ => Raise TypeError
  end.

(** [len(v)] *)
Definition py_len (v : pyval) : result nat :=
  match v with
  | PList l => Ret (List.length l)
  | PDict d => Ret (List.length d)
  | PStr s => Ret (List.length (code_points s))
  | _ => Raise TypeError
  end.

(* ================================================================= *)
(** ** [os.path] on POSIX *)

Module osp.

Definition sep : ascii := "/"%char.
Definition extsep : ascii := "."%char.

Definition startswith_sep (s : string) : bool :=
  match s with
  | String c _ => Ascii.eqb c sep
  | EmptyString => false
  end.

Fixpoint endswith_sep (s : string) : bool :=
  match s with
  | EmptyString => false
  | String c EmptyString => Ascii.eqb c sep
  | String _ r => endswith_sep r
  end.

(** [posixpath.join(a, b)] on two strings. *)
Definition join (a b : string) : string :=
  if startswith_sep b then b
  else if (a =? "")%string || endswith_sep a then a ++ b
  else a ++ String sep b.

(** [s.rfind(c)]: index of the last [c], or [-1]. *)
Fixpoint rfind_from (c : ascii) (s : string) (i last : Z) : Z :=
  match s with
  | EmptyString => last
  | String a r => rfind_from c r (i + 1) (if Ascii.eqb a c then i else last)
  end.

Definition rfind (c : ascii) (s : string) : Z := rfind_from c s 0 (-1).

(** [s[i:]] and [s[:i]] for [0 <= i]. *)
Definition slice_from (i : Z) (s : string) : string :=
  substring (Z.to_nat i) (String.length s - Z.to_nat i) s.

Definition slice_to (i : Z) (s : string) : string :=
  substring 0 (Z.to_nat i) s.

(** [posixpath.split(p)]: [i = p.rfind('/') + 1; head, tail = p[:i], p[i:]];
    only the tail is used by the driver. *)
Definition split_tail (p : string) : string :=
  slice_from (rfind sep p + 1) p.

(** [genericpath._splitext(p, '/', None, '.')], first component: the last
    dot starts the extension unless only dots precede it in the file
    name. *)
Definition splitext_root (p : string) : string :=
  let sepIndex := rfind sep p in
  let dotIndex := rfind extsep p in
  if sepIndex <? dotIndex then
    let between :=
      substring (Z.to_nat (sepIndex + 1)) (Z.to_nat (dotIndex - (sepIndex + 1))) p in
    if existsb (fun ch => negb (Ascii.eqb ch extsep)) (list_ascii_of_string between)
    then slice_to dotIndex p
    else p
  else p.

End osp.

(* ================================================================= *)
(** ** Logging levels *)

(** The keys of [logging._nameToLevel], the choices of [--log-level]. *)
Inductive level_name : Type :=
| CRITICAL | FATAL | ERROR | WARN | WARNING | INFO | DEBUG | NOTSET.

Definition level_value (n : level_name) : Z :=
  match n with
  | CRITICAL => 50 | FATAL => 50
  | ERROR => 40
  | WARN => 30 | WARNING => 30
  | INFO => 20
  | DEBUG => 10
  | NOTSET => 0
  end.

(* ================================================================= *)
(** ** Processes, shared values and the trace *)

(** The collaborator functions imported from [mmdeploy.apis]. *)
Inductive collaborator : Type :=
| torch2onnx
| extract_model
| onnx2tensorrt
| inference_model.

(** An argument handed to a worker: plain data, or the handle of a shared
    value (the cell's index in shared memory). *)
Inductive arg : Type :=
| Obj (v : pyval)
| Shared (r : nat).

(** One call of a collaborator inside a worker process, together with the
    level of the worker's root logger at the moment of the call. *)
Record call : Type := mkCall {
  c_level : Z;
  c_target : collaborator;
  c_args : list arg;
  c_kwargs : list (string * arg)
}.

(** Externally visible actions of the driver, oldest first in a trace.
    [Log] is a call of [logging.info] / [logging.error] on the root logger
    (whether a handler prints it depends on the level); [Mkdir d] is
    [mmcv.mkdir_or_exist(osp.abspath(d))]; [NewValue r] is the allocation
    of the shared value [r]; [Run c seen] is a worker process that made the
    call [c], started while shared memory held [seen], and was joined. *)
Inductive event : Type :=
| Log (level : Z) (msg : string)
| Mkdir (dir : string)
| NewValue (r : nat)
| Run (c : call) (seen : list spec_float).

(** What the collaborators do to shared memory: given the history, the call
    and the cells at start, the value each cell holds when the worker has
    exited ([None]: the worker left the cell alone). *)
Definition world : Type :=
  list event -> call -> list spec_float -> nat -> option spec_float.

Record state : Type := mkState {
  cells : list spec_float;
  root_level : Z;
  trace : list event
}.

(** A fresh interpreter: no shared values, root logger at WARNING. *)
Definition initial_state : state := mkState [] (level_value WARNING) [].

Definition M (A : Type) : Type := state -> result A * state.

Definition ret {A} (a : A) : M A := fun s => (Ret a, s).

Definition raise {A} (e : exn) : M A := fun s => (Raise e, s).

Definition bind {A B} (m : M A) (f : A -> M B) : M B :=
  fun s => match m s with
           | (Ret a, s') => f a s'
           | (Raise e, s') => (Raise e, s')
           end.

Definition lift {A} (r : result A) : M A := fun s => (r, s).

Notation "x <- m ;; k" := (bind m (fun x => k))
  (at level 61, m at next level, right associativity).
Notation "m ;; k" := (bind m (fun _ => k))
  (at level 61, right associativity).

Definition emit (e : event) : M unit :=
  fun s => (Ret tt, mkState (cells s) (root_level s) (trace s ++ [e])).

(** [assert b] *)
Definition py_assert (b : bool) : M unit :=
  if b then ret tt else raise AssertionError.

(** [logging.info(msg)], [logging.error(msg)] *)
Definition logging_info (msg : string) : M unit := emit (Log (level_value INFO) msg).
Definition logging_error (msg : string) : M unit := emit (Log (level_value ERROR) msg).

(** [logging.getLogger().setLevel(l)] and [logging.getLogger().level] *)
Definition set_root_level (l : Z) : M unit :=
  fun s => (Ret tt, mkState (cells s) l (trace s)).

Definition get_root_level : M Z := fun s => (Ret (root_level s), s).

(** [mp.Value('d', 0, lock=False)]: a new cell holding [+0.0]. *)
Definition positive_zero : spec_float := S754_zero false.

Definition mp_Value : M nat :=
  fun s =>
    let r := List.length (cells s) in
    (Ret r, mkState (cells s ++ [positive_zero]) (root_level s) (trace s ++ [NewValue r])).

(** [ret_value.value].  The driver cannot build a handle outside shared
    memory; the second case only keeps the function total. *)
Definition read_value (r : nat) : M spec_float :=
  fun s => match nth_error (cells s) r with
           | Some v => (Ret v, s)
           | None => (Raise ReferenceError, s)
           end.

(** [x != 0] for the double [x]: false exactly on the two zeros. *)
Definition nonzero (v : spec_float) : bool := negb (SFeqb v positive_zero).

(** [exit()] *)
Definition py_exit {A} : M A := raise (SystemExit None).

(** Exit status of the interpreter for the outcome of [main]: [SystemExit]
    with no code is a clean exit, any other uncaught exception is status 1. *)
Definition exit_status {A} (r : result A) : Z :=
  match r with
  | Ret _ => 0
  | Raise (SystemExit None) => 0
  | Raise (SystemExit (Some n)) => n mod 256
  | Raise _ => 1
  end.

(** Cells after a worker has exited. *)
Fixpoint write_cells (w : nat -> option spec_float) (i : nat) (cs : list spec_float)
  : list spec_float :=
  match cs with
  | [] => []
  | c :: cs' => match w i with Some v => v | None => c end :: write_cells w (S i) cs'
  end.

(** The root logger of a freshly spawned interpreter. *)
Record worker : Type := mkWorker { w_level : Z }.

Definition fresh_worker : worker := mkWorker (level_value WARNING).

(* ================================================================= *)
(** ** The driver *)

(** Command-line arguments as [parse_args] returns them.  [--work-dir] has
    no default, so it may be [None]. *)
Record Args : Type := mkArgs {
  a_deploy_cfg : string;
  a_model_cfg : string;
  a_checkpoint : string;
  a_img : string;
  a_work_dir : option string;
  a_device : string;
  a_log_level : level_name;
  a_show : bool
}.

Section Driver.

(** The collaborators' effect on shared memory. *)
Variable W : world.

(** [str(v)] for a value that is not a string (a string formats as
    itself). *)
Variable str_other : pyval -> string.

Definition py_str (v : pyval) : string :=
  match v with
  | PStr s => s
  | _ => str_other v
  end.

(** [osp.join(work_dir, v)]: [os.fspath] rejects what is not a string. *)
Definition osp_join (a : string) (v : pyval) : M string :=
  match v with
  | PStr b => ret (osp.join a b)
  | _ => raise TypeError
  end.

(** [target_wrapper(target, log_level, *args, **kwargs)], run in the
    worker: set the root logger's level, then call the target. *)
Definition target_wrapper (target : collaborator) (log_level : Z)
    (args : list arg) (kwargs : list (string * arg)) (w : worker) : worker * call :=
  let w1 := mkWorker log_level in
  (w1, mkCall (w_level w1) target args kwargs).

(** [Process(target=wrap_func, args=args, kwargs=kwargs)], [start()],
    [join()]: the wrapped function runs in a fresh worker; when the worker
    has exited, shared memory holds what the collaborator left there. *)
Definition run_process
    (wrap_func : list arg -> list (string * arg) -> worker -> worker * call)
    (args : list arg) (kwargs : list (string * arg)) : M unit :=
  fun s =>
    let c := snd (wrap_func args kwargs fresh_worker) in
    (Ret tt,
     mkState (write_cells (W (trace s) c (cells s)) 0 (cells s))
             (root_level s)
             (trace s ++ [Run c (cells s)])).

Definition create_process (name : string) (target : collaborator)
    (args : list arg) (kwargs : list (string * arg)) (ret_value : option nat) : M unit :=
  logging_info (name ++ " start.") ;;
  log_level <- get_root_level ;;
  let wrap_func := target_wrapper target log_level in
  run_process wrap_func args kwargs ;;
  match ret_value with
  | Some r =>
      v <- read_value r ;;
      if nonzero v then
        logging_error (name ++ " failed.") ;;
        py_exit
      else
        logging_info (name ++ " success.")
  | None => ret tt
  end.

Section Main.

Variable args : Args.

(** The dictionary of the loaded [mmcv.Config]. *)
Variable deploy_cfg : list (string * pyval).

(** Lines 61-80: logger level, work directory, the shared flag.  (The
    start method [spawn] is what makes every worker a fresh interpreter,
    see [run_process].) *)
Definition setup : M (string * nat) :=
  set_root_level (level_value (a_log_level args)) ;;
  work_dir <- match a_work_dir args with
              | Some w => ret w
              | None => raise TypeError        (* osp.abspath(None) *)
              end ;;
  emit (Mkdir work_dir) ;;
  ret_value <- mp_Value ;;
  ret (work_dir, ret_value).

Section Stages.

Variable work_dir : string.
Variable ret_value : nat.

(** Lines 82-93: convert onnx. *)
Definition convert_onnx : M (list string) :=
  pytorch2onnx <- lift (subscript (PDict deploy_cfg) "pytorch2onnx") ;;
  onnx_save_file <- lift (subscript pytorch2onnx "save_file") ;;
  create_process "torch2onnx" torch2onnx
    [Obj (PStr (a_img args)); Obj (PStr work_dir); Obj onnx_save_file;
     Obj (PStr (a_deploy_cfg args)); Obj (PStr (a_model_cfg args));
     Obj (PStr (a_checkpoint args))]
    [("device", Obj (PStr (a_device args))); ("ret_value", Shared ret_value)]
    (Some ret_value) ;;
  onnx_file <- osp_join work_dir onnx_save_file ;;
  ret [onnx_file].

(** Lines 103-116: the body of the split loop, over the entries still
    to visit and the list accumulated so far. *)
Fixpoint split_loop (origin_onnx_file : string) (split_params : list pyval)
    (onnx_files : list string) : M (list string) :=
  match split_params with
  | [] => ret onnx_files
  | split_param :: rest =>
      save_file <- lift (subscript split_param "save_file") ;;
      save_path <- osp_join work_dir save_file ;;
      start <- lift (subscript split_param "start") ;;
      end_ <- lift (subscript split_param "end") ;;
      create_process
        ("split model " ++ py_str save_file ++ " with start: " ++ py_str start
           ++ ", end: " ++ py_str end_)
        extract_model
        [Obj (PStr origin_onnx_file); Obj start; Obj end_]
        [("save_file", Obj (PStr save_path)); ("ret_value", Shared ret_value)]
        (Some ret_value) ;;
      split_loop origin_onnx_file rest (onnx_files ++ [save_path])
  end.

(** Lines 95-116: split model. *)
Definition split_model (onnx_files : list string) : M (list string) :=
  let apply_marks := dict_get deploy_cfg "apply_marks" (PBool false) in
  if truthy apply_marks then
    py_assert (has_key "split_params" deploy_cfg) ;;
    let split_params := dict_get deploy_cfg "split_params" PNone in
    origin_onnx_file <- match onnx_files with
                        | f :: _ => ret f
                        | [] => raise IndexError
                        end ;;
    entries <- lift (py_iter split_params) ;;
    split_loop origin_onnx_file entries []
  else ret onnx_files.

(** Lines 129-142: the body of the backend loop; [model_id] counts the
    triples of [zip(range(...), model_params, onnx_files)]. *)
Fixpoint tensorrt_loop (model_id : Z) (pairs : list (pyval * string))
    (backend_files : list string) : M (list string) :=
  match pairs with
  | [] => ret backend_files
  | (model_param, onnx_path) :: rest =>
      let onnx_name := osp.splitext_root (osp.split_tail onnx_path) in
      save_file <- lift (method_get model_param "save_file"
                           (PStr (onnx_name ++ ".engine"))) ;;
      create_process ("onnx2tensorrt of " ++ onnx_path) onnx2tensorrt
        [Obj (PStr work_dir); Obj save_file; Obj (PInt model_id);
         Obj (PStr (a_deploy_cfg args)); Obj (PStr onnx_path)]
        [("device", Obj (PStr (a_device args))); ("ret_value", Shared ret_value)]
        (Some ret_value) ;;
      backend_file <- osp_join work_dir save_file ;;
      tensorrt_loop (model_id + 1) rest (backend_files ++ [backend_file])
  end.

(** [deploy_cfg.get('backend', 'default')] *)
Definition backend : pyval := dict_get deploy_cfg "backend" (PStr "default").

(** Lines 118-142: convert backend. *)
Definition convert_backend (onnx_files : list string) : M (list string) :=
  if eq_str backend "tensorrt" then
    py_assert (has_key "tensorrt_params" deploy_cfg) ;;
    tensorrt_params <- lift (subscript (PDict deploy_cfg) "tensorrt_params") ;;
    model_params <- lift (method_get tensorrt_params "model_params" (PList [])) ;;
    n <- lift (py_len model_params) ;;
    py_assert (n =? List.length onnx_files)%nat ;;
    items <- lift (py_iter model_params) ;;
    tensorrt_loop 0 (combine items onnx_files) []
  else ret onnx_files.

(** Lines 144-175: the two visualizations and the final log line. *)
Definition visualize (backend_files : list string) : M unit :=
  codebase <- lift (subscript (PDict deploy_cfg) "codebase") ;;
  create_process ("visualize " ++ py_str backend ++ " model") inference_model
    [Obj (PStr (a_model_cfg args)); Obj (PList (map PStr backend_files));
     Obj (PStr (a_img args))]
    [("codebase", Obj codebase); ("backend", Obj backend);
     ("device", Obj (PStr (a_device args)));
     ("output_file", Obj (PStr ("output_" ++ py_str backend ++ ".jpg")));
     ("show_result", Obj (PBool (a_show args))); ("ret_value", Shared ret_value)]
    (Some ret_value) ;;
  create_process "visualize pytorch model" inference_model
    [Obj (PStr (a_model_cfg args)); Obj (PList [PStr (a_checkpoint args)]);
     Obj (PStr (a_img args))]
    [("codebase", Obj codebase); ("backend", Obj (PStr "pytorch"));
     ("device", Obj (PStr (a_device args)));
     ("output_file", Obj (PStr "output_pytorch.jpg"));
     ("show_result", Obj (PBool (a_show args))); ("ret_value", Shared ret_value)]
    (Some ret_value) ;;
  logging_info "All process success.".

(** Lines 82-116: everything that produces the intermediate files. *)
Definition intermediate_files : M (list string) :=
  onnx_files <- convert_onnx ;;
  split_model onnx_files.

(** Lines 118-175. *)
Definition deploy (onnx_files : list string) : M unit :=
  backend_files <- convert_backend onnx_files ;;
  visualize backend_files.

End Stages.

Definition main : M unit :=
  p <- setup ;;
  let '(work_dir, ret_value) := p in
  onnx_files <- intermediate_files work_dir ret_value ;;
  deploy work_dir ret_value onnx_files.

End Main.

End Driver.

(* ================================================================= *)
(** ** Sample runs *)

Module Samples.

Definition args : Args :=
  mkArgs "deploy.py" "model.py" "model.pth" "demo.jpg" (Some "work") "cpu" INFO false.

(** Every worker leaves shared memory alone (the flag stays [+0.0]). *)
Definition quiet : world := fun _ _ _ _ => None.

(** Every worker leaves [-1.0] in cell 0, as a failing collaborator does. *)
Definition minus_one : spec_float := S754_finite true 4503599627370496 (-52).
Definition failing : world :=
  fun _ _ _ r => match r with O => Some minus_one | _ => None end.

(** The export worker ends with [ret_value.value = -0.0]; the others
    leave the flag alone. *)
Definition negative_zero : spec_float := S754_zero true.
Definition writes_negative_zero : world :=
  fun _ c _ r =>
    match c_target c, r with
    | torch2onnx, O => Some negative_zero
    | _, _ => None
    end.

(** [str] of values that are not strings is irrelevant to the samples. *)
Definition str_other : pyval -> string := fun _ => "?".

Definition cfg_default : list (string * pyval) :=
  [("codebase", PStr "mmdet");
   ("pytorch2onnx", PDict [("save_file", PStr "end2end.onnx")])].

Definition cfg_pytorch : list (string * pyval) :=
  ("backend", PStr "pytorch") :: cfg_default.

Definition cfg_marks_only : list (string * pyval) :=
  ("apply_marks", PBool true) :: cfg_default.

Definition split_entries : list pyval :=
  [PDict [("save_file", PStr "part0.onnx"); ("start", PStr "a:input"); ("end", PStr "b:output")];
   PDict [("save_file", PStr "part1.onnx"); ("start", PStr "b:output"); ("end", PStr "c:output")]].

Definition cfg_split : list (string * pyval) :=
  ("apply_marks", PBool true) :: ("split_params", PList split_entries) :: cfg_default.

Definition cfg_tensorrt : list (string * pyval) :=
  ("backend", PStr "tensorrt")
    :: ("tensorrt_params",
        PDict [("model_params", PList [PDict [("opt_shape", PInt 1)]])])
    :: cfg_default.

Definition cfg_tensorrt_mismatch : list (string * pyval) :=
  ("backend", PStr "tensorrt")
    :: ("tensorrt_params", PDict [("model_params", PList [])])
    :: cfg_default.

(** Runs that go wrong before or between the steps. *)
Definition args_without_work_dir : Args :=
  mkArgs "deploy.py" "model.py" "model.pth" "demo.jpg" None "cpu" INFO false.

Definition cfg_without_export : list (string * pyval) :=
  [("codebase", PStr "mmdet")].

Definition cfg_numeric_save_file : list (string * pyval) :=
  [("codebase", PStr "mmdet"); ("pytorch2onnx", PDict [("save_file", PInt 3)])].

Definition cfg_without_codebase : list (string * pyval) :=
  [("pytorch2onnx", PDict [("save_file", PStr "end2end.onnx")])].

Definition cfg_tensorrt_without_params : list (string * pyval) :=
  ("backend", PStr "tensorrt") :: cfg_default.

(** Split into two parts, each compiled for [tensorrt]; the second engine
    is named in the configuration. *)
Definition model_params : list pyval :=
  [PDict [("opt_shape", PInt 1)]; PDict [("save_file", PStr "tail.engine")]].

Definition cfg_full : list (string * pyval) :=
  ("backend", PStr "tensorrt")
    :: ("tensorrt_params", PDict [("model_params", PList model_params)])
    :: cfg_split.

(** A worker that ends with NaN in the flag. *)
Definition writes_nan : world :=
  fun _ _ _ r => match r with O => Some S754_nan | _ => None end.

(** Three split entries, the second without [start]. *)
Definition first_part : pyval :=
  PDict [("save_file", PStr "part0.onnx"); ("start", PStr "a:input"); ("end", PStr "b:output")].

Definition part_without_start : pyval :=
  PDict [("save_file", PStr "part1.onnx"); ("end", PStr "c:output")].

Definition last_part : pyval :=
  PDict [("save_file", PStr "part2.onnx"); ("start", PStr "c:output"); ("end", PStr "d:output")].

Definition cfg_split_unreadable : list (string * pyval) :=
  ("apply_marks", PBool true)
    :: ("split_params", PList ([first_part] ++ part_without_start :: [last_part]))
    :: cfg_default.

End Samples.

(* ================================================================= *)
(** ** Vocabulary of the statements *)

(** The collaborator calls of a trace, oldest first. *)
Definition calls_of (t : list event) : list call :=
  flat_map (fun e => match e with Run c _ => [c] | _ => [] end) t.

(** The calls of one collaborator. *)
Definition is_target (f : collaborator) (c : call) : bool :=
  match f, c_target c with
  | torch2onnx, torch2onnx => true
  | extract_model, extract_model => true
  | onnx2tensorrt, onnx2tensorrt => true
  | inference_model, inference_model => true
  | _, _ => false
  end.

Definition calls_to (f : collaborator) (t : list event) : list call :=
  filter (is_target f) (calls_of t).

(** How many shared values a trace allocates. *)
Definition allocations (t : list event) : nat :=
  List.length (filter (fun e => match e with NewValue _ => true | _ => false end) t).

(** A keyword argument of a call. *)
Fixpoint kwarg (k : string) (kw : list (string * arg)) : option arg :=
  match kw with
  | [] => None
  | (k', a) :: kw' => if (k' =? k)%string then Some a else kwarg k kw'
  end.

(** The driver's view of the flag between two steps: the root logger is at
    [L] and shared memory is the single cell of the flag, comparing equal to
    zero. *)
Definition flag_ok (L : Z) (s : state) : Prop :=
  root_level s = L /\ exists v, cells s = [v] /\ nonzero v = false.

(** The shape of a trace segment that ends in a failed step: the worker
    run, the error line, nothing after. *)
Definition failed_last (t : list event) : Prop :=
  exists t0 c seen name,
    t = t0 ++ [Run c seen; Log (level_value ERROR) (name ++ " failed.")].

(** [sound L P m]: started between two steps, [m] only appends events that
    satisfy [P]; when it returns the driver is again between two steps; when
    it leaves through [exit()] the code is [None], the flag is non-zero and
    the failed step is the last thing that happened. *)
Definition sound {A} (L : Z) (P : event -> Prop) (m : M A) : Prop :=
  forall s, flag_ok L s ->
    exists t,
      trace (snd (m s)) = trace s ++ t /\ Forall P t /\
      match fst (m s) with
      | Ret _ => flag_ok L (snd (m s))
      | Raise (SystemExit code) =>
          code = None /\ failed_last t /\
          exists v, cells (snd (m s)) = [v] /\ nonzero v = true
      | Raise _ => True
      end.

(** Exceptions of the pure helpers: never [SystemExit]. *)
Definition not_exit {A} (r : result A) : Prop :=
  match r with
  | Raise (SystemExit _) => False
  | _ => True
  end.

(** Events of a step launched at level [L] on a flag that compares equal to
    zero, for a collaborator in [Q].  Directory creation and allocation of
    shared values are not events of a step. *)
Definition step_event (L : Z) (Q : collaborator -> Prop) (e : event) : Prop :=
  match e with
  | Log _ _ => True
  | Run c seen =>
      c_level c = L /\ Q (c_target c) /\ exists v, seen = [v] /\ nonzero v = false
  | Mkdir _ => False
  | NewValue _ => False
  end.

(** The state [setup] leaves behind in a fresh interpreter. *)
Definition after_setup (args : Args) (work_dir : string) : state :=
  mkState [positive_zero] (level_value (a_log_level args))
    [Mkdir work_dir; NewValue 0].

(** The run of [main] up to line 116: the work directory, the flag and the
    intermediate files handed to the backend stage. *)
Definition front (W : world) (str_other : pyval -> string) (args : Args)
    (deploy_cfg : list (string * pyval)) : M (string * nat * list string) :=
  p <- setup args ;;
  let '(work_dir, ret_value) := p in
  onnx_files <- intermediate_files W str_other args deploy_cfg work_dir ret_value ;;
  ret (work_dir, ret_value, onnx_files).

(** The collaborator of each worker run with what it found in shared
    memory. *)
Definition launches (t : list event) : list (collaborator * list spec_float) :=
  flat_map (fun e => match e with Run c seen => [(c_target c, seen)] | _ => [] end) t.

(** [e[k]] of a dictionary entry, and the text of a string value, for
    stating what the stages were asked to do. *)
Definition field (k : string) (e : pyval) : pyval :=
  match e with
  | PDict d => dict_get d k PNone
  | _ => PNone
  end.

Definition str_of (v : pyval) : string :=
  match v with
  | PStr s => s
  | _ => ""
  end.

(** The configured name of the exported file. *)
Definition onnx_save_file (deploy_cfg : list (string * pyval)) : pyval :=
  field "save_file" (dict_get deploy_cfg "pytorch2onnx" PNone).

(** The call of the export step. *)
Definition export_call (args : Args) (deploy_cfg : list (string * pyval))
    (L : Z) (work_dir : string) (ret_value : nat) : call :=
  mkCall L torch2onnx
    [Obj (PStr (a_img args)); Obj (PStr work_dir); Obj (onnx_save_file deploy_cfg);
     Obj (PStr (a_deploy_cfg args)); Obj (PStr (a_model_cfg args));
     Obj (PStr (a_checkpoint args))]
    [("device", Obj (PStr (a_device args))); ("ret_value", Shared ret_value)].

(** The post-export intermediate file. *)
Definition exported_file (deploy_cfg : list (string * pyval)) (work_dir : string) : string :=
  osp.join work_dir (str_of (onnx_save_file deploy_cfg)).

(** A split entry the loop body can read: a dictionary with a string
    [save_file], a [start] and an [end]. *)
Definition split_entry_ok (e : pyval) : Prop :=
  exists save_file start end_,
    subscript e "save_file" = Ret (PStr save_file) /\
    subscript e "start" = Ret start /\
    subscript e "end" = Ret end_.

(** The output path of a split entry: its [save_file] joined under the
    work directory. *)
Definition split_path (work_dir : string) (e : pyval) : string :=
  osp.join work_dir (str_of (field "save_file" e)).

(** The call of the split step of an entry, on the file [origin]. *)
Definition split_call (L : Z) (work_dir : string) (ret_value : nat) (origin : string)
    (e : pyval) : call :=
  mkCall L extract_model
    [Obj (PStr origin); Obj (field "start" e); Obj (field "end" e)]
    [("save_file", Obj (PStr (split_path work_dir e))); ("ret_value", Shared ret_value)].

(** The engine file derived from an intermediate file: its base name
    without extension, with [.engine] appended. *)
Definition engine_name (onnx_path : string) : string :=
  osp.splitext_root (osp.split_tail onnx_path) ++ ".engine".

(** [model_param.get('save_file', onnx_name + '.engine')] *)
Definition compile_save_file (model_param : pyval) (onnx_path : string) : pyval :=
  match model_param with
  | PDict d => dict_get d "save_file" (PStr (engine_name onnx_path))
  | _ => PNone
  end.

(** Positions [i, i+1, ...] attached to a list, as [zip(range(...), ...)]
    does from 0. *)
Fixpoint number_from {A} (i : Z) (l : list A) : list (Z * A) :=
  match l with
  | [] => []
  | x :: l' => (i, x) :: number_from (i + 1) l'
  end.

(** The call of the compile step for the pair at position [model_id]. *)
Definition compile_call (args : Args) (L : Z) (work_dir : string) (ret_value : nat)
    (job : Z * (pyval * string)) : call :=
  mkCall L onnx2tensorrt
    [Obj (PStr work_dir); Obj (compile_save_file (fst (snd job)) (snd (snd job)));
     Obj (PInt (fst job)); Obj (PStr (a_deploy_cfg args)); Obj (PStr (snd (snd job)))]
    [("device", Obj (PStr (a_device args))); ("ret_value", Shared ret_value)].

(** The backend file of a pair. *)
Definition backend_path (work_dir : string) (p : pyval * string) : string :=
  osp.join work_dir (str_of (compile_save_file (fst p) (snd p))).

(** A pair the loop body can process: the parameters are a dictionary and
    the output file name is a string. *)
Definition compile_entry_ok (p : pyval * string) : Prop :=
  exists d name, fst p = PDict d /\ compile_save_file (fst p) (snd p) = PStr name.

(** The call that visualizes the backend model on [backend_files]. *)
Definition backend_visualization (str_other : pyval -> string) (args : Args)
    (deploy_cfg : list (string * pyval)) (L : Z) (ret_value : nat)
    (backend_files : list string) : call :=
  mkCall L inference_model
    [Obj (PStr (a_model_cfg args)); Obj (PList (map PStr backend_files));
     Obj (PStr (a_img args))]
    [("codebase", Obj (dict_get deploy_cfg "codebase" PNone));
     ("backend", Obj (backend deploy_cfg));
     ("device", Obj (PStr (a_device args)));
     ("output_file",
      Obj (PStr ("output_" ++ py_str str_other (backend deploy_cfg) ++ ".jpg")));
     ("show_result", Obj (PBool (a_show args))); ("ret_value", Shared ret_value)].

(** The call that visualizes the original checkpoint. *)
Definition reference_visualization (args : Args) (deploy_cfg : list (string * pyval))
    (L : Z) (ret_value : nat) : call :=
  mkCall L inference_model
    [Obj (PStr (a_model_cfg args)); Obj (PList [PStr (a_checkpoint args)]);
     Obj (PStr (a_img args))]
    [("codebase", Obj (dict_get deploy_cfg "codebase" PNone));
     ("backend", Obj (PStr "pytorch"));
     ("device", Obj (PStr (a_device args)));
     ("output_file", Obj (PStr "output_pytorch.jpg"));
     ("show_result", Obj (PBool (a_show args))); ("ret_value", Shared ret_value)].

(** The [output_file] keyword of a call, when it is a string. *)
Definition output_file (c : call) : option string :=
  match kwarg "output_file" (c_kwargs c) with
  | Some (Obj (PStr f)) => Some f
  | _ => None
  end.

(** [grows m]: [m] only appends to the trace. *)
Definition grows {A} (m : M A) : Prop :=
  forall s, exists t, trace (snd (m s)) = trace s ++ t.

(** No worker ever leaves a non-zero value in shared memory. *)
Definition obedient (W : world) : Prop :=
  forall history c cs r v, W history c cs r = Some v -> nonzero v = false.

(** [c in s] *)
Fixpoint has_char (c : ascii) (s : string) : bool :=
  match s with
  | EmptyString => false
  | String a r => Ascii.eqb a c || has_char c r
  end.

(** Some character of [s] is not a dot. *)
Definition has_stem (s : string) : bool :=
  existsb (fun ch => negb (Ascii.eqb ch osp.extsep)) (list_ascii_of_string s).

(** Shared memory when the worker of the step [name], launched from [s],
    has exited. *)
Definition cells_after (W : world) (name : string) (target : collaborator)
    (args : list arg) (kwargs : list (string * arg)) (s : state) : list spec_float :=
  write_cells
    (W (trace s ++ [Log (level_value INFO) (name ++ " start.")])
       (mkCall (root_level s) target args kwargs) (cells s))
    0 (cells s).

(** The last line of a completed run. *)
Definition success_line : event := Log (level_value INFO) "All process success.".

(** [adds_at_most n m]: whatever its outcome, [m] makes at most [n]
    collaborator calls. *)
Definition adds_at_most {A} (n : nat) (m : M A) : Prop :=
  forall s, exists l,
    calls_of (trace (snd (m s))) = calls_of (trace s) ++ l /\ (List.length l <= n)%nat.

(** [agree m1 m2]: started at the same logger level, two returning runs of
    [m1] and [m2] return the same value, at the same level, after the same
    collaborator calls. *)
Definition agree {A} (m1 m2 : M A) : Prop :=
  forall s1 s2 a1 a2 s1' s2',
    root_level s1 = root_level s2 ->
    m1 s1 = (Ret a1, s1') ->
    m2 s2 = (Ret a2, s2') ->
    a1 = a2 /\ root_level s1' = root_level s2' /\
    exists l,
      calls_of (trace s1') = calls_of (trace s1) ++ l /\
      calls_of (trace s2') = calls_of (trace s2) ++ l.

(** [unfinished m]: [m] appends events, none of them the success line. *)
Definition unfinished {A} (m : M A) : Prop :=
  forall s, exists t,
    trace (snd (m s)) = trace s ++ t /\ Forall (fun e => e <> success_line) t.

(** [finishing m]: [m] appends events other than the success line, and
    then the success line exactly when it returns. *)
Definition finishing {A} (m : M A) : Prop :=
  forall s, exists t,
    Forall (fun e => e <> success_line) t /\
    match fst (m s) with
    | Ret _ => trace (snd (m s)) = trace s ++ t ++ [success_line]
    | Raise _ => trace (snd (m s)) = trace s ++ t
    end.

(** The exception the split loop raises when it reads an entry it cannot
    use, in the order of lines 104-107; [None] for a readable entry. *)
Definition split_entry_error (e : pyval) : option exn :=
  match subscript e "save_file" with
  | Raise x => Some x
  | Ret (PStr _) =>
      match subscript e "start" with
      | Raise x => Some x
      | Ret _ =>
          match subscript e "end" with
          | Raise x => Some x
          | Ret _ => None
          end
      end
  | Ret _ => Some TypeError
  end.

(** A worker run that got the flag [r] as its [ret_value] keyword. *)
Definition passes_flag (r : nat) (e : event) : Prop :=
  match e with
  | Run c _ => kwarg "ret_value" (c_kwargs c) = Some (Shared r)
  | _ => True
  end.

(* ================================================================= *)
(** ** The monad *)

Lemma bind_Ret {A B} (m : M A) (f : A -> M B) s a s1 :
  m s = (Ret a, s1) -> bind m f s = f a s1.
Proof. intros H. unfold bind. rewrite H. reflexivity. Qed.

Lemma bind_Raise {A B} (m : M A) (f : A -> M B) s e s1 :
  m s = (Raise e, s1) -> bind m f s = (Raise e, s1).
Proof. intros H. unfold bind. rewrite H. reflexivity. Qed.

Lemma bind_Ret_inv {A B} (m : M A) (f : A -> M B) s b s2 :
  bind m f s = (Ret b, s2) ->
  exists a s1, m s = (Ret a, s1) /\ f a s1 = (Ret b, s2).
Proof.
  unfold bind. destruct (m s) as [[a | e] s1]; intros H.
  - exists a, s1. split; [reflexivity | exact H].
  - discriminate H.
Qed.

Lemma lift_Ret_inv {A} (r : result A) s a s1 :
  lift r s = (Ret a, s1) -> r = Ret a /\ s1 = s.
Proof. unfold lift. intros H. inversion H. split; reflexivity. Qed.

Lemma py_assert_Ret_inv b s u s1 :
  py_assert b s = (Ret u, s1) -> b = true /\ s1 = s.
Proof.
  unfold py_assert. destruct b; unfold ret, raise; intros H; inversion H.
  split; reflexivity.
Qed.

Lemma subscript_not_exit v k : not_exit (subscript v k).
Proof. destruct v; simpl; try exact I. destruct (lookup k d); exact I. Qed.

Lemma method_get_not_exit v k d : not_exit (method_get v k d).
Proof. destruct v; exact I. Qed.

Lemma py_iter_not_exit v : not_exit (py_iter v).
Proof. destruct v; exact I. Qed.

Lemma py_len_not_exit v : not_exit (py_len v).
Proof. destruct v; exact I. Qed.

Create HintDb deploy.

#[local] Hint Resolve subscript_not_exit method_get_not_exit py_iter_not_exit
  py_len_not_exit : deploy.

(* ================================================================= *)
(** ** Rules for [sound] *)

Section Rules.

Variable W : world.
Variable L : Z.
Variable P : event -> Prop.

Lemma sound_ret {A} (a : A) : sound L P (ret a).
Proof.
  intros s Hs. exists []. simpl. rewrite app_nil_r. auto.
Qed.

Lemma sound_lift {A} (r : result A) : not_exit r -> sound L P (lift r).
Proof.
  intros Hr s Hs. exists []. simpl. rewrite app_nil_r.
  repeat split; auto.
  destruct r as [a | e]; [exact Hs |].
  destruct e; try exact I. contradiction.
Qed.

Lemma sound_raise {A} (e : exn) : not_exit (@Raise A e) -> sound L P (@raise A e).
Proof. intros He. exact (sound_lift (Raise e) He). Qed.

Lemma sound_assert b : sound L P (py_assert b).
Proof.
  destruct b; [apply sound_ret | apply sound_raise; exact I].
Qed.

Lemma sound_bind {A B} (m : M A) (f : A -> M B) :
  sound L P m -> (forall a, sound L P (f a)) -> sound L P (bind m f).
Proof.
  intros Hm Hf s Hs.
  destruct (Hm s Hs) as [t1 [Ht1 [HP1 Hr1]]].
  unfold bind. destruct (m s) as [[a | e] s1]; simpl in *.
  - destruct (Hf a s1 Hr1) as [t2 [Ht2 [HP2 Hr2]]].
    exists (t1 ++ t2). rewrite Ht2, Ht1, app_assoc.
    split; [reflexivity |]. split; [apply Forall_app; auto |].
    destruct (fst (f a s1)) as [b | e]; [exact Hr2 |].
    destruct e; try exact I.
    destruct Hr2 as [Hc [[t0 [c [seen [name Ht]]]] Hv]].
    split; [exact Hc |]. split; [| exact Hv].
    exists (t1 ++ t0), c, seen, name. rewrite Ht, app_assoc. reflexivity.
  - exists t1. auto.
Qed.

Lemma sound_osp_join a v : sound L P (osp_join a v).
Proof.
  destruct v; simpl; try (apply sound_raise; exact I). apply sound_ret.
Qed.

(** What [create_process] does with a flag, in one equation. *)
Lemma create_process_flag name target args kwargs r s :
  let c := mkCall (root_level s) target args kwargs in
  let started := trace s ++ [Log (level_value INFO) (name ++ " start.")] in
  let cs := write_cells (W started c (cells s)) 0 (cells s) in
  create_process W name target args kwargs (Some r) s =
    match nth_error cs r with
    | Some v =>
        if nonzero v then
          (Raise (SystemExit None),
           mkState cs (root_level s)
             ((started ++ [Run c (cells s)])
                ++ [Log (level_value ERROR) (name ++ " failed.")]))
        else
          (Ret tt,
           mkState cs (root_level s)
             ((started ++ [Run c (cells s)])
                ++ [Log (level_value INFO) (name ++ " success.")]))
    | None =>
        (Raise ReferenceError,
         mkState cs (root_level s) (started ++ [Run c (cells s)]))
    end.
Proof.
  cbv zeta. unfold create_process, bind, logging_info, emit, get_root_level,
    run_process, target_wrapper, read_value; simpl.
  destruct (nth_error _ r) as [v |]; [| reflexivity].
  destruct (nonzero v); reflexivity.
Qed.

(** What it does without one. *)
Lemma create_process_no_flag name target args kwargs s :
  let c := mkCall (root_level s) target args kwargs in
  let started := trace s ++ [Log (level_value INFO) (name ++ " start.")] in
  create_process W name target args kwargs None s =
    (Ret tt,
     mkState (write_cells (W started c (cells s)) 0 (cells s)) (root_level s)
       (started ++ [Run c (cells s)])).
Proof. reflexivity. Qed.

Lemma sound_create_process name target args kwargs :
  (forall l msg, P (Log l msg)) ->
  (forall v, nonzero v = false -> P (Run (mkCall L target args kwargs) [v])) ->
  sound L P (create_process W name target args kwargs (Some 0%nat)).
Proof.
  intros Hlog Hrun s [Hl [v [Hc Hv]]].
  rewrite create_process_flag. rewrite Hc. simpl.
  set (v' := match W _ _ _ 0%nat with Some x => x | None => v end).
  destruct (nonzero v') eqn:Hz; simpl.
  - eexists. split; [rewrite <- !app_assoc; reflexivity |].
    split.
    + repeat constructor; auto. rewrite Hl. apply Hrun, Hv.
    + split; [reflexivity |]. split.
      * eexists [_], _, _, name. reflexivity.
      * exists v'. auto.
  - eexists. split; [rewrite <- !app_assoc; reflexivity |].
    split.
    + repeat constructor; auto. rewrite Hl. apply Hrun, Hv.
    + split; [exact Hl |]. exists v'. auto.
Qed.

End Rules.

Lemma sound_weaken {A} L (P Q : event -> Prop) (m : M A) :
  (forall e, P e -> Q e) -> sound L P m -> sound L Q m.
Proof.
  intros HPQ Hm s Hs. destruct (Hm s Hs) as [t [Ht [HP Hr]]].
  exists t. repeat split; auto. eapply Forall_impl; eauto.
Qed.

(* ================================================================= *)
(** ** Every stage is sound *)

Lemma step_event_weaken L (Q Q' : collaborator -> Prop) e :
  (forall f, Q f -> Q' f) -> step_event L Q e -> step_event L Q' e.
Proof.
  intros HQ. destruct e; simpl; auto.
  intros [Hl [Hq Hv]]. auto.
Qed.

Ltac sound_run :=
  apply sound_create_process;
  [ intros ? ?; exact I
  | intros v Hv; simpl; repeat split; eauto ].

Ltac sound_step :=
  first
    [ apply sound_ret
    | apply sound_assert
    | apply sound_osp_join
    | apply sound_lift; solve [auto with deploy]
    | apply sound_raise; exact I
    | sound_run
    | apply sound_bind; [| intros ?] ].

Section Stages_sound.

Variable W : world.
Variable str_other : pyval -> string.
Variable args : Args.
Variable deploy_cfg : list (string * pyval).
Variable work_dir : string.
Variable L : Z.

Lemma convert_onnx_sound :
  sound L (step_event L (fun f => f = torch2onnx))
    (convert_onnx W args deploy_cfg work_dir 0).
Proof. unfold convert_onnx. repeat sound_step. Qed.

Lemma split_loop_sound origin entries acc :
  sound L (step_event L (fun f => f = extract_model))
    (split_loop W str_other work_dir 0 origin entries acc).
Proof.
  revert acc. induction entries as [| e entries IH]; intros acc; simpl.
  - apply sound_ret.
  - repeat sound_step. apply IH.
Qed.

Lemma split_model_sound onnx_files :
  sound L (step_event L (fun f => f = extract_model))
    (split_model W str_other deploy_cfg work_dir 0 onnx_files).
Proof.
  unfold split_model. destruct (truthy _); [| apply sound_ret].
  repeat sound_step.
  - destruct onnx_files; sound_step.
  - apply split_loop_sound.
Qed.

Lemma tensorrt_loop_sound model_id pairs acc :
  sound L (step_event L (fun f => f = onnx2tensorrt))
    (tensorrt_loop W args work_dir 0 model_id pairs acc).
Proof.
  revert model_id acc.
  induction pairs as [| [model_param onnx_path] pairs IH]; intros model_id acc; simpl.
  - apply sound_ret.
  - repeat sound_step. apply IH.
Qed.

Lemma convert_backend_sound onnx_files :
  sound L (step_event L (fun f => f = onnx2tensorrt))
    (convert_backend W args deploy_cfg work_dir 0 onnx_files).
Proof.
  unfold convert_backend. destruct (eq_str _ _); [| apply sound_ret].
  repeat sound_step. apply tensorrt_loop_sound.
Qed.

Lemma visualize_sound backend_files :
  sound L (step_event L (fun f => f = inference_model))
    (visualize W str_other args deploy_cfg 0 backend_files).
Proof.
  unfold visualize. repeat sound_step.
  intros s Hs. exists [Log (level_value INFO) "All process success."].
  simpl. repeat split; try apply Hs. repeat constructor.
Qed.

Lemma intermediate_files_sound :
  sound L (step_event L (fun f => f = torch2onnx \/ f = extract_model))
    (intermediate_files W str_other args deploy_cfg work_dir 0).
Proof.
  unfold intermediate_files. apply sound_bind.
  - eapply sound_weaken; [| apply convert_onnx_sound].
    intros e. apply step_event_weaken. auto.
  - intros files. eapply sound_weaken; [| apply split_model_sound].
    intros e. apply step_event_weaken. auto.
Qed.

Lemma deploy_sound onnx_files :
  sound L (step_event L (fun f => f = onnx2tensorrt \/ f = inference_model))
    (deploy W str_other args deploy_cfg work_dir 0 onnx_files).
Proof.
  unfold deploy. apply sound_bind.
  - eapply sound_weaken; [| apply convert_backend_sound].
    intros e. apply step_event_weaken. auto.
  - intros files. eapply sound_weaken; [| apply visualize_sound].
    intros e. apply step_event_weaken. auto.
Qed.

End Stages_sound.

(* ================================================================= *)
(** ** The whole run *)

Section Whole_run.

Variable W : world.
Variable str_other : pyval -> string.
Variable args : Args.
Variable deploy_cfg : list (string * pyval).

Let L : Z := level_value (a_log_level args).

Lemma setup_fresh work_dir :
  a_work_dir args = Some work_dir ->
  setup args initial_state = (Ret (work_dir, 0%nat), after_setup args work_dir).
Proof.
  intros H. unfold setup, bind, set_root_level, emit, mp_Value, ret. simpl.
  rewrite H. reflexivity.
Qed.

Lemma main_without_work_dir :
  a_work_dir args = None ->
  main W str_other args deploy_cfg initial_state = (Raise TypeError, mkState [] L []).
Proof.
  intros H. unfold main, setup, bind, set_root_level, raise. simpl.
  rewrite H. reflexivity.
Qed.

Lemma flag_ok_after_setup work_dir : flag_ok L (after_setup args work_dir).
Proof. split; [reflexivity |]. exists positive_zero. split; reflexivity. Qed.

Lemma main_fresh work_dir :
  a_work_dir args = Some work_dir ->
  main W str_other args deploy_cfg initial_state =
    bind (intermediate_files W str_other args deploy_cfg work_dir 0)
         (deploy W str_other args deploy_cfg work_dir 0)
         (after_setup args work_dir).
Proof.
  intros H. unfold main. erewrite bind_Ret by (apply setup_fresh; exact H).
  reflexivity.
Qed.

Lemma front_fresh work_dir :
  a_work_dir args = Some work_dir ->
  front W str_other args deploy_cfg initial_state =
    bind (intermediate_files W str_other args deploy_cfg work_dir 0)
         (fun onnx_files => ret (work_dir, 0%nat, onnx_files))
         (after_setup args work_dir).
Proof.
  intros H. unfold front. erewrite bind_Ret by (apply setup_fresh; exact H).
  reflexivity.
Qed.

(** A run that passes line 116 continues with the backend stage. *)
Lemma main_after_front work_dir ret_value onnx_files s1 :
  front W str_other args deploy_cfg initial_state
    = (Ret (work_dir, ret_value, onnx_files), s1) ->
  a_work_dir args = Some work_dir /\ ret_value = 0%nat /\
  intermediate_files W str_other args deploy_cfg work_dir 0 (after_setup args work_dir)
    = (Ret onnx_files, s1) /\
  main W str_other args deploy_cfg initial_state
    = deploy W str_other args deploy_cfg work_dir 0 onnx_files s1.
Proof.
  intros H. destruct (a_work_dir args) as [wd |] eqn:Hwd.
  - rewrite (front_fresh wd Hwd) in H.
    apply bind_Ret_inv in H. destruct H as [files [s' [Hf Hr]]].
    unfold ret in Hr. inversion Hr; subst.
    repeat split; auto.
    rewrite (main_fresh work_dir Hwd). apply bind_Ret. exact Hf.
  - unfold front, setup, bind, set_root_level, raise in H. simpl in H.
    rewrite Hwd in H. discriminate H.
Qed.

(** The whole run, once the work directory is known: after directory
    creation and the single allocation of the flag, only steps. *)
Lemma main_sound work_dir :
  a_work_dir args = Some work_dir ->
  exists t,
    trace (snd (main W str_other args deploy_cfg initial_state))
      = [Mkdir work_dir; NewValue 0] ++ t /\
    Forall (step_event L (fun _ => True)) t /\
    match fst (main W str_other args deploy_cfg initial_state) with
    | Raise (SystemExit code) =>
        code = None /\ failed_last t /\
        exists v, cells (snd (main W str_other args deploy_cfg initial_state)) = [v]
                  /\ nonzero v = true
    | _ => True
    end.
Proof.
  intros Hwd. rewrite (main_fresh work_dir Hwd).
  assert (Hs : sound L (step_event L (fun _ => True))
                 (bind (intermediate_files W str_other args deploy_cfg work_dir 0)
                       (deploy W str_other args deploy_cfg work_dir 0))).
  { apply sound_bind.
    - eapply sound_weaken; [| apply intermediate_files_sound].
      intros e. apply step_event_weaken. auto.
    - intros files. eapply sound_weaken; [| apply deploy_sound].
      intros e. apply step_event_weaken. auto. }
  destruct (Hs _ (flag_ok_after_setup work_dir)) as [t [Ht [HP Hr]]].
  exists t. split; [exact Ht |]. split; [exact HP |].
  destruct (fst _) as [u | e]; [exact I |]. destruct e; auto.
Qed.

End Whole_run.

(** Every worker run of [main]: launched at the level of [--log-level], on
    a flag that compares equal to zero. *)
Lemma main_runs W str_other args deploy_cfg c seen :
  In (Run c seen) (trace (snd (main W str_other args deploy_cfg initial_state))) ->
  c_level c = level_value (a_log_level args) /\
  exists v, seen = [v] /\ nonzero v = false.
Proof.
  destruct (a_work_dir args) as [wd |] eqn:Hwd.
  - destruct (main_sound W str_other args deploy_cfg wd Hwd) as [t [Ht [HP _]]].
    rewrite Ht. simpl. intros [H | [H | H]]; try discriminate H.
    rewrite Forall_forall in HP. specialize (HP _ H). simpl in HP.
    destruct HP as [Hl [_ Hv]]. split; assumption.
  - rewrite main_without_work_dir by exact Hwd. simpl. intros [].
Qed.

(* ================================================================= *)
(** ** Failed steps *)

(** A step whose flag is non-zero after the worker: the error line, then
    [exit()] with no code; nothing else happens in [create_process]. *)
Lemma failed_step_exits W name target args kwargs r s v :
  let c := mkCall (root_level s) target args kwargs in
  let started := trace s ++ [Log (level_value INFO) (name ++ " start.")] in
  nth_error (write_cells (W started c (cells s)) 0 (cells s)) r = Some v ->
  nonzero v = true ->
  fst (create_process W name target args kwargs (Some r) s) = Raise (SystemExit None) /\
  trace (snd (create_process W name target args kwargs (Some r) s))
    = trace s ++ [Log (level_value INFO) (name ++ " start."); Run c (cells s);
                  Log (level_value ERROR) (name ++ " failed.")].
Proof.
  intros c started Hn Hv. rewrite create_process_flag.
  fold c. fold started. rewrite Hn, Hv. simpl.
  unfold started. rewrite <- !app_assoc. split; reflexivity.
Qed.

(** A run of [main] that ends in [SystemExit]: the code is [None] (exit
    status 0), the flag is non-zero, and the trace ends with the failed
    step, so no collaborator ran after it. *)
Lemma main_exit_is_last_step W str_other args deploy_cfg code :
  fst (main W str_other args deploy_cfg initial_state) = Raise (SystemExit code) ->
  code = None /\
  failed_last (trace (snd (main W str_other args deploy_cfg initial_state))) /\
  exists v, cells (snd (main W str_other args deploy_cfg initial_state)) = [v]
            /\ nonzero v = true.
Proof.
  intros H. destruct (a_work_dir args) as [wd |] eqn:Hwd.
  - destruct (main_sound W str_other args deploy_cfg wd Hwd) as [t [Ht [_ Hr]]].
    rewrite H in Hr. destruct Hr as [Hc [[t0 [c [seen [name Hl]]]] Hv]].
    split; [exact Hc |]. split; [| exact Hv].
    exists ([Mkdir wd; NewValue 0] ++ t0), c, seen, name.
    rewrite Ht, Hl, app_assoc. reflexivity.
  - rewrite main_without_work_dir in H by exact Hwd. discriminate H.
Qed.

Lemma steps_do_not_allocate L Q t :
  Forall (step_event L Q) t -> allocations t = 0%nat.
Proof.
  unfold allocations. induction 1 as [| e t He _ IH]; [reflexivity |].
  destruct e; simpl in *; try exact IH. contradiction.
Qed.

(* ================================================================= *)
(** ** Steps that return *)

Lemma calls_of_app t1 t2 : calls_of (t1 ++ t2) = calls_of t1 ++ calls_of t2.
Proof. unfold calls_of. apply flat_map_app. Qed.

Lemma calls_to_app f t1 t2 : calls_to f (t1 ++ t2) = calls_to f t1 ++ calls_to f t2.
Proof. unfold calls_to. rewrite calls_of_app. apply filter_app. Qed.

(** A step that returns has logged start and success around one worker
    run and has left the logger alone. *)
Lemma create_process_Ret_inv W name target args kwargs r s u s1 :
  create_process W name target args kwargs (Some r) s = (Ret u, s1) ->
  root_level s1 = root_level s /\
  trace s1 = trace s ++ [Log (level_value INFO) (name ++ " start.");
                         Run (mkCall (root_level s) target args kwargs) (cells s);
                         Log (level_value INFO) (name ++ " success.")] /\
  exists v, nth_error (cells s1) r = Some v /\ nonzero v = false.
Proof.
  rewrite create_process_flag.
  destruct (nth_error _ r) as [v |] eqn:Hn; [| discriminate].
  destruct (nonzero v) eqn:Hv; [discriminate |].
  intros H. inversion H; subst; clear H. simpl.
  split; [reflexivity |]. split; [rewrite <- !app_assoc; reflexivity |].
  exists v. split; assumption.
Qed.

Lemma create_process_Ret_calls W name target args kwargs r s u s1 :
  create_process W name target args kwargs (Some r) s = (Ret u, s1) ->
  root_level s1 = root_level s /\
  calls_of (trace s1)
    = calls_of (trace s) ++ [mkCall (root_level s) target args kwargs].
Proof.
  intros H. apply create_process_Ret_inv in H. destruct H as [Hl [Ht _]].
  split; [exact Hl |]. rewrite Ht, calls_of_app. reflexivity.
Qed.

Lemma osp_join_Ret_inv a v s p s1 :
  osp_join a v s = (Ret p, s1) -> exists b, v = PStr b /\ p = osp.join a b /\ s1 = s.
Proof.
  destruct v; simpl; unfold raise, ret; intros H; inversion H.
  eexists. repeat split.
Qed.

Lemma subscript_Ret_inv v k x :
  subscript v k = Ret x -> exists d, v = PDict d /\ lookup k d = Some x.
Proof.
  destruct v; simpl; try discriminate.
  destruct (lookup k d) eqn:E; [| discriminate].
  intros H. inversion H; subst. eauto.
Qed.

(** Inversion of a returning computation, one binding at a time. *)
Ltac invert_run H :=
  let a := fresh "a" in
  let s := fresh "s" in
  let H1 := fresh "Hstep" in
  apply bind_Ret_inv in H; destruct H as [a [s [H1 H]]].

Ltac invert_lift H :=
  let E := fresh "E" in
  apply lift_Ret_inv in H; destruct H as [E H]; subst.

(* ================================================================= *)
(** ** Export and split *)

Lemma subscript_field e k x : subscript e k = Ret x -> field k e = x.
Proof.
  intros H. apply subscript_Ret_inv in H. destruct H as [d [-> Hd]].
  unfold field, dict_get. rewrite Hd. reflexivity.
Qed.

Section Front.

Variable W : world.
Variable str_other : pyval -> string.
Variable args : Args.
Variable deploy_cfg : list (string * pyval).
Variable work_dir : string.
Variable ret_value : nat.

Lemma convert_onnx_Ret s onnx_files s1 :
  convert_onnx W args deploy_cfg work_dir ret_value s = (Ret onnx_files, s1) ->
  (exists name, onnx_save_file deploy_cfg = PStr name) /\
  onnx_files = [exported_file deploy_cfg work_dir] /\
  root_level s1 = root_level s /\
  calls_of (trace s1)
    = calls_of (trace s) ++ [export_call args deploy_cfg (root_level s) work_dir ret_value].
Proof.
  unfold convert_onnx. intros H.
  invert_run H. invert_lift Hstep.
  invert_run H. invert_lift Hstep.
  invert_run H. invert_run H.
  apply osp_join_Ret_inv in Hstep0. destruct Hstep0 as [b [-> [-> ->]]].
  unfold ret in H. inversion H; subst; clear H.
  apply create_process_Ret_calls in Hstep. destruct Hstep as [Hl Hc].
  assert (Hf : onnx_save_file deploy_cfg = PStr b).
  { unfold onnx_save_file. apply subscript_field.
    apply subscript_Ret_inv in E. destruct E as [d [Hd Hk]].
    inversion Hd; subst d. unfold dict_get. rewrite Hk. exact E0. }
  split; [eauto |]. split; [| split; [exact Hl |]].
  - unfold exported_file. rewrite Hf. reflexivity.
  - rewrite Hc. unfold export_call. rewrite Hf. reflexivity.
Qed.

Lemma split_loop_Ret origin entries : forall acc s onnx_files s1,
  split_loop W str_other work_dir ret_value origin entries acc s = (Ret onnx_files, s1) ->
  Forall split_entry_ok entries /\
  onnx_files = acc ++ map (split_path work_dir) entries /\
  root_level s1 = root_level s /\
  calls_of (trace s1)
    = calls_of (trace s)
        ++ map (split_call (root_level s) work_dir ret_value origin) entries.
Proof.
  induction entries as [| e entries IH]; intros acc s files s1 H; simpl in H.
  - unfold ret in H. inversion H; subst. simpl. rewrite !app_nil_r. auto.
  - invert_run H. invert_lift Hstep.
    invert_run H. apply osp_join_Ret_inv in Hstep. destruct Hstep as [b [-> [-> ->]]].
    invert_run H. invert_lift Hstep.
    invert_run H. invert_lift Hstep.
    invert_run H.
    apply create_process_Ret_calls in Hstep. destruct Hstep as [Hl Hc].
    apply IH in H. destruct H as [Hok [Hfiles [Hl' Hc']]].
    assert (Hp : split_path work_dir e = osp.join work_dir b).
    { unfold split_path. rewrite (subscript_field _ _ _ E). reflexivity. }
    split; [| split; [| split]].
    + constructor; [| exact Hok]. unfold split_entry_ok. eauto 6.
    + rewrite Hfiles, <- app_assoc. simpl. rewrite Hp. reflexivity.
    + congruence.
    + rewrite Hc', Hc, Hl, <- app_assoc. simpl.
      unfold split_call at 2. rewrite Hp.
      rewrite (subscript_field _ _ _ E0), (subscript_field _ _ _ E1). reflexivity.
Qed.

Lemma intermediate_files_split_Ret entries s onnx_files s1 :
  truthy (dict_get deploy_cfg "apply_marks" (PBool false)) = true ->
  lookup "split_params" deploy_cfg = Some (PList entries) ->
  intermediate_files W str_other args deploy_cfg work_dir ret_value s
    = (Ret onnx_files, s1) ->
  (exists name, onnx_save_file deploy_cfg = PStr name) /\
  Forall split_entry_ok entries /\
  onnx_files = map (split_path work_dir) entries /\
  root_level s1 = root_level s /\
  calls_of (trace s1)
    = calls_of (trace s)
        ++ export_call args deploy_cfg (root_level s) work_dir ret_value
        :: map (split_call (root_level s) work_dir ret_value
                  (exported_file deploy_cfg work_dir)) entries.
Proof.
  intros Hm Hp H. unfold intermediate_files in H.
  invert_run H. apply convert_onnx_Ret in Hstep.
  destruct Hstep as [Hname [-> [Hl Hc]]].
  unfold split_model in H. rewrite Hm in H.
  unfold has_key, dict_get in H. rewrite Hp in H. simpl in H.
  invert_run H. invert_run H. unfold ret in Hstep, Hstep0.
  inversion Hstep; inversion Hstep0; subst; clear Hstep Hstep0.
  invert_run H. invert_lift Hstep. inversion E; subst; clear E.
  apply split_loop_Ret in H. destruct H as [Hok [Hf [Hl' Hc']]].
  split; [exact Hname |]. split; [exact Hok |]. split; [exact Hf |].
  split; [congruence |].
  rewrite Hc', Hc, Hl, <- app_assoc. reflexivity.
Qed.

End Front.

Lemma calls_to_split_calls L work_dir ret_value origin entries :
  filter (is_target extract_model) (map (split_call L work_dir ret_value origin) entries)
    = map (split_call L work_dir ret_value origin) entries.
Proof.
  induction entries as [| e entries IH]; [reflexivity |].
  simpl. rewrite IH. reflexivity.
Qed.

(** The calls of a segment of steps: collaborators of [Q] only. *)
Lemma step_calls L Q t :
  Forall (step_event L Q) t -> Forall (fun c => Q (c_target c)) (calls_of t).
Proof.
  induction 1 as [| e t He _ IH]; [constructor |].
  destruct e; simpl in *; try exact IH.
  constructor; [apply He | exact IH].
Qed.

Lemma is_target_true f c : is_target f c = true <-> c_target c = f.
Proof.
  unfold is_target. destruct f, (c_target c); split; intros H;
    try reflexivity; discriminate H.
Qed.

Lemma no_calls_to f l :
  Forall (fun c => c_target c <> f) l -> filter (is_target f) l = [].
Proof.
  induction 1 as [| c l Hc _ IH]; [reflexivity |].
  simpl. destruct (is_target f c) eqn:E; [| exact IH].
  apply is_target_true in E. contradiction.
Qed.

(** With [apply_marks] true and no [split_params], the split stage stops at
    its assertion, in the state it was entered. *)
Lemma split_model_without_params W str_other deploy_cfg work_dir ret_value onnx_files s :
  truthy (dict_get deploy_cfg "apply_marks" (PBool false)) = true ->
  has_key "split_params" deploy_cfg = false ->
  split_model W str_other deploy_cfg work_dir ret_value onnx_files s
    = (Raise AssertionError, s).
Proof.
  intros Hm Hk. unfold split_model. rewrite Hm, Hk. reflexivity.
Qed.

(* ================================================================= *)
(** ** Backend conversion *)

Section Backend.

Variable W : world.
Variable args : Args.
Variable deploy_cfg : list (string * pyval).
Variable work_dir : string.
Variable ret_value : nat.

Lemma tensorrt_loop_Ret pairs : forall model_id acc s backend_files s1,
  tensorrt_loop W args work_dir ret_value model_id pairs acc s = (Ret backend_files, s1) ->
  Forall compile_entry_ok pairs /\
  backend_files = acc ++ map (backend_path work_dir) pairs /\
  root_level s1 = root_level s /\
  calls_of (trace s1)
    = calls_of (trace s)
        ++ map (compile_call args (root_level s) work_dir ret_value)
             (number_from model_id pairs).
Proof.
  induction pairs as [| [mp path] pairs IH]; intros model_id acc s files s1 H; simpl in H.
  - unfold ret in H. inversion H; subst. simpl. rewrite !app_nil_r. auto.
  - invert_run H. invert_lift Hstep.
    invert_run H. invert_run H.
    apply osp_join_Ret_inv in Hstep0. destruct Hstep0 as [b [-> [-> ->]]].
    apply create_process_Ret_calls in Hstep. destruct Hstep as [Hl Hc].
    apply IH in H. destruct H as [Hok [Hfiles [Hl' Hc']]].
    assert (Hs : exists d, mp = PDict d /\ compile_save_file mp path = PStr b).
    { destruct mp; simpl in E; try discriminate E.
      inversion E. eexists. split; reflexivity. }
    destruct Hs as [d [Hd Hs]].
    split; [| split; [| split]].
    + constructor; [| exact Hok]. exists d, b. auto.
    + rewrite Hfiles, <- app_assoc. simpl. unfold backend_path at 2. simpl.
      rewrite Hs. reflexivity.
    + congruence.
    + rewrite Hc', Hc, Hl, <- app_assoc. simpl.
      unfold compile_call at 2. simpl. rewrite Hs. reflexivity.
Qed.

(** The backend stage for the [tensorrt] backend with a list of model
    parameters: the length check, then the loop over the zipped lists. *)
Lemma convert_backend_tensorrt tensorrt_params model_params onnx_files s :
  eq_str (backend deploy_cfg) "tensorrt" = true ->
  lookup "tensorrt_params" deploy_cfg = Some (PDict tensorrt_params) ->
  dict_get tensorrt_params "model_params" (PList []) = PList model_params ->
  convert_backend W args deploy_cfg work_dir ret_value onnx_files s
    = if (List.length model_params =? List.length onnx_files)%nat
      then tensorrt_loop W args work_dir ret_value 0
             (combine model_params onnx_files) [] s
      else (Raise AssertionError, s).
Proof.
  intros Hb Ht Hm. unfold convert_backend. rewrite Hb.
  unfold has_key, bind, lift, py_assert. simpl. rewrite Ht. simpl. rewrite Hm. simpl.
  destruct (_ =? _)%nat; reflexivity.
Qed.

(** Any other backend: the intermediate files, unchanged, and no event. *)
Lemma convert_backend_other onnx_files s :
  eq_str (backend deploy_cfg) "tensorrt" = false ->
  convert_backend W args deploy_cfg work_dir ret_value onnx_files s = (Ret onnx_files, s).
Proof. intros Hb. unfold convert_backend. rewrite Hb. reflexivity. Qed.

End Backend.

(** A run that passes line 116 has called only the export and split
    collaborators and stands between two steps. *)
Lemma front_Ret W str_other args deploy_cfg work_dir ret_value onnx_files s1 :
  front W str_other args deploy_cfg initial_state
    = (Ret (work_dir, ret_value, onnx_files), s1) ->
  flag_ok (level_value (a_log_level args)) s1 /\
  exists t,
    trace s1 = [Mkdir work_dir; NewValue 0] ++ t /\
    Forall (step_event (level_value (a_log_level args))
              (fun f => f = torch2onnx \/ f = extract_model)) t.
Proof.
  intros H. apply main_after_front in H. destruct H as [Hwd [-> [H _]]].
  destruct (intermediate_files_sound W str_other args deploy_cfg work_dir
              (level_value (a_log_level args)) _ (flag_ok_after_setup args work_dir))
    as [t [Ht [HP Hr]]].
  rewrite H in Ht, Hr. simpl in Ht, Hr. split; [exact Hr |].
  exists t. split; assumption.
Qed.

Lemma front_no_calls_to W str_other args deploy_cfg work_dir ret_value onnx_files s1 f :
  front W str_other args deploy_cfg initial_state
    = (Ret (work_dir, ret_value, onnx_files), s1) ->
  f <> torch2onnx -> f <> extract_model ->
  calls_to f (trace s1) = [].
Proof.
  intros H H1 H2. apply front_Ret in H. destruct H as [_ [t [Ht HP]]].
  unfold calls_to. rewrite Ht, calls_of_app. simpl.
  apply no_calls_to. apply step_calls in HP.
  eapply Forall_impl; [| exact HP]. simpl. intros c [Hc | Hc]; congruence.
Qed.

Lemma calls_to_compile_calls args L work_dir ret_value jobs :
  filter (is_target onnx2tensorrt) (map (compile_call args L work_dir ret_value) jobs)
    = map (compile_call args L work_dir ret_value) jobs.
Proof.
  induction jobs as [| j jobs IH]; [reflexivity |].
  simpl. rewrite IH. reflexivity.
Qed.

Lemma length_number_from {A} (l : list A) : forall i,
  List.length (number_from i l) = List.length l.
Proof. induction l as [| x l IH]; intros i; simpl; [| rewrite IH]; reflexivity. Qed.

Lemma nth_error_number_from {A} (l : list A) : forall i n x,
  nth_error l n = Some x ->
  nth_error (number_from i l) n = Some (i + Z.of_nat n, x).
Proof.
  induction l as [| y l IH]; intros i n x H; destruct n as [| n]; try discriminate H.
  - simpl in *. inversion H. rewrite Z.add_0_r. reflexivity.
  - simpl in H. cbn [number_from nth_error]. rewrite (IH (i + 1) n x H).
    f_equal. f_equal. lia.
Qed.

Lemma nth_error_combine {A B} (l : list A) : forall (l' : list B) n x y,
  nth_error l n = Some x -> nth_error l' n = Some y ->
  nth_error (combine l l') n = Some (x, y).
Proof.
  induction l as [| a l IH]; intros l' n x y H H'; destruct n; destruct l';
    try discriminate; simpl in *.
  - inversion H; inversion H'; reflexivity.
  - apply IH; assumption.
Qed.

(** The backend stage after a run that passed line 116, for the [tensorrt]
    backend with a list of model parameters, when it returns. *)
Lemma convert_backend_after_front W str_other args deploy_cfg tensorrt_params
    model_params work_dir ret_value onnx_files s1 backend_files s2 :
  eq_str (backend deploy_cfg) "tensorrt" = true ->
  lookup "tensorrt_params" deploy_cfg = Some (PDict tensorrt_params) ->
  dict_get tensorrt_params "model_params" (PList []) = PList model_params ->
  front W str_other args deploy_cfg initial_state
    = (Ret (work_dir, ret_value, onnx_files), s1) ->
  convert_backend W args deploy_cfg work_dir ret_value onnx_files s1
    = (Ret backend_files, s2) ->
  List.length model_params = List.length onnx_files /\
  Forall compile_entry_ok (combine model_params onnx_files) /\
  calls_to onnx2tensorrt (trace s2)
    = map (compile_call args (level_value (a_log_level args)) work_dir ret_value)
        (number_from 0 (combine model_params onnx_files)) /\
  backend_files = map (backend_path work_dir) (combine model_params onnx_files).
Proof.
  intros Hb Ht Hm Hf H.
  rewrite (convert_backend_tensorrt _ _ _ _ _ _ _ _ _ Hb Ht Hm) in H.
  destruct (_ =? _)%nat eqn:Hlen; [| discriminate H].
  apply Nat.eqb_eq in Hlen. split; [exact Hlen |].
  apply tensorrt_loop_Ret in H. destruct H as [Hok [Hfiles [_ Hc]]].
  split; [exact Hok |]. split; [| exact Hfiles].
  pose proof (front_no_calls_to _ _ _ _ _ _ _ _ onnx2tensorrt Hf) as Hnone.
  unfold calls_to in *. rewrite Hc, filter_app, Hnone by discriminate.
  destruct (front_Ret _ _ _ _ _ _ _ _ Hf) as [[Hl _] _]. rewrite Hl.
  apply calls_to_compile_calls.
Qed.

(* ================================================================= *)
(** ** Visualization *)

Lemma grows_bind {A B} (m : M A) (f : A -> M B) :
  grows m -> (forall a, grows (f a)) -> grows (bind m f).
Proof.
  intros Hm Hf s. destruct (Hm s) as [t1 Ht1]. unfold bind.
  destruct (m s) as [[a | e] s1]; simpl in *.
  - destruct (Hf a s1) as [t2 Ht2]. exists (t1 ++ t2).
    rewrite Ht2, Ht1, app_assoc. reflexivity.
  - exists t1. exact Ht1.
Qed.

Lemma grows_emit e : grows (emit e).
Proof. intros s. exists [e]. reflexivity. Qed.

(** Every launch starts with the start line and the worker run. *)
Lemma create_process_starts W name target args kwargs ret_value s :
  exists rest,
    trace (snd (create_process W name target args kwargs ret_value s))
      = trace s ++ Log (level_value INFO) (name ++ " start.")
          :: Run (mkCall (root_level s) target args kwargs) (cells s) :: rest
    /\ calls_of rest = [].
Proof.
  destruct ret_value as [r |].
  - rewrite create_process_flag.
    destruct (nth_error _ r) as [v |]; [destruct (nonzero v) |]; simpl;
      eexists; rewrite <- ?app_assoc; simpl; split; reflexivity.
  - rewrite create_process_no_flag. simpl.
    exists []. rewrite <- app_assoc. split; reflexivity.
Qed.

Lemma grows_create_process W name target args kwargs ret_value :
  grows (create_process W name target args kwargs ret_value).
Proof.
  intros s. destruct (create_process_starts W name target args kwargs ret_value s)
    as [rest [H _]].
  eexists. exact H.
Qed.

Lemma grows_lift {A} (r : result A) : grows (lift r).
Proof. intros s. exists []. simpl. rewrite app_nil_r. reflexivity. Qed.

Lemma grows_osp_join a v : grows (osp_join a v).
Proof. destruct v; simpl; exact (grows_lift _). Qed.

Lemma grows_tensorrt_loop W args work_dir ret_value pairs : forall model_id acc,
  grows (tensorrt_loop W args work_dir ret_value model_id pairs acc).
Proof.
  induction pairs as [| [mp path] pairs IH]; intros model_id acc; simpl.
  - exact (grows_lift (Ret acc)).
  - apply grows_bind; [apply grows_lift | intros save_file].
    apply grows_bind; [apply grows_create_process | intros _].
    apply grows_bind; [apply grows_osp_join | intros backend_file]. apply IH.
Qed.

(** Entering the loop body with parameters that name no [save_file]
    launches the compile step under the derived engine name. *)
Lemma tensorrt_loop_starts W args work_dir ret_value model_id d onnx_path pairs acc s :
  lookup "save_file" d = None ->
  exists rest,
    trace (snd (tensorrt_loop W args work_dir ret_value model_id
                  ((PDict d, onnx_path) :: pairs) acc s))
      = trace s
          ++ Log (level_value INFO) (("onnx2tensorrt of " ++ onnx_path) ++ " start.")
          :: Run (mkCall (root_level s) onnx2tensorrt
                    [Obj (PStr work_dir); Obj (PStr (engine_name onnx_path));
                     Obj (PInt model_id); Obj (PStr (a_deploy_cfg args));
                     Obj (PStr onnx_path)]
                    [("device", Obj (PStr (a_device args)));
                     ("ret_value", Shared ret_value)]) (cells s)
          :: rest.
Proof.
  intros Hd. cbn [tensorrt_loop]. unfold bind at 1. unfold lift, method_get, dict_get.
  rewrite Hd. fold (engine_name onnx_path).
  match goal with
  | |- context [bind (create_process W ?n ?t ?a ?k ?r) ?f] =>
      destruct (create_process_starts W n t a k r s) as [rest1 [H1 _]];
      assert (Hrest : forall u, grows (f u))
  end.
  { intros _. apply grows_bind; [apply grows_osp_join | intros ?].
    apply grows_tensorrt_loop. }
  unfold bind at 1.
  match type of H1 with
  | context [create_process W ?n ?t ?a ?k ?r s] =>
      destruct (create_process W n t a k r s) as [[u | e] s1]
  end; cbn [snd] in H1.
  - destruct (Hrest u s1) as [t2 Ht2]. rewrite Ht2, H1.
    exists (rest1 ++ t2). rewrite <- app_assoc. reflexivity.
  - cbn [snd]. rewrite H1. exists rest1. reflexivity.
Qed.

(** Whatever its outcome, a launch adds exactly its own call and leaves
    the driver's logger alone. *)
Lemma create_process_calls W name target args kwargs ret_value s :
  root_level (snd (create_process W name target args kwargs ret_value s)) = root_level s /\
  calls_of (trace (snd (create_process W name target args kwargs ret_value s)))
    = calls_of (trace s) ++ [mkCall (root_level s) target args kwargs].
Proof.
  split.
  - destruct ret_value as [r |]; [| reflexivity].
    rewrite create_process_flag.
    destruct (nth_error _ r) as [v |]; [destruct (nonzero v) |]; reflexivity.
  - destruct (create_process_starts W name target args kwargs ret_value s)
      as [rest [Ht Hr]].
    rewrite Ht, calls_of_app. simpl. rewrite Hr. reflexivity.
Qed.

(** In every run of the split loop the calls made are those of the first
    [k] entries, in order, for some [k]. *)
Lemma split_loop_calls_prefix W str_other work_dir ret_value origin entries :
  forall acc s,
  exists k,
    (k <= List.length entries)%nat /\
    calls_of (trace (snd (split_loop W str_other work_dir ret_value origin entries acc s)))
      = calls_of (trace s)
          ++ map (split_call (root_level s) work_dir ret_value origin) (firstn k entries).
Proof.
  induction entries as [| e entries IH]; intros acc s.
  - exists 0%nat. simpl. rewrite app_nil_r. auto.
  - assert (Hstop : exists k, (k <= List.length (e :: entries))%nat /\
              calls_of (trace s)
                = calls_of (trace s)
                    ++ map (split_call (root_level s) work_dir ret_value origin)
                         (firstn k (e :: entries))).
    { exists 0%nat. simpl. rewrite app_nil_r. split; [lia | reflexivity]. }
    cbn [split_loop]. unfold bind at 1. unfold lift.
    destruct (subscript e "save_file") as [save_file |] eqn:E1; [| exact Hstop].
    unfold bind at 1. destruct save_file as [| ? | ? | b | ? | ?]; try exact Hstop.
    cbn [osp_join ret].
    unfold bind at 1. destruct (subscript e "start") as [start |] eqn:E2; [| exact Hstop].
    unfold bind at 1. destruct (subscript e "end") as [end_ |] eqn:E3; [| exact Hstop].
    assert (Hcall : split_call (root_level s) work_dir ret_value origin e
                    = mkCall (root_level s) extract_model
                        [Obj (PStr origin); Obj start; Obj end_]
                        [("save_file", Obj (PStr (osp.join work_dir b)));
                         ("ret_value", Shared ret_value)]).
    { unfold split_call, split_path.
      rewrite (subscript_field _ _ _ E1), (subscript_field _ _ _ E2),
        (subscript_field _ _ _ E3). reflexivity. }
    unfold bind at 1.
    match goal with
    | |- context [create_process W ?n ?t ?a ?k ?r s] =>
        destruct (create_process_calls W n t a k r s) as [Hl Hc];
        destruct (create_process W n t a k r s) as [[u | ex] s']
    end; cbn [fst snd] in *.
    + destruct (IH (acc ++ [osp.join work_dir b]) s') as [k [Hk Hcalls]].
      exists (S k). split; [simpl; lia |].
      rewrite Hcalls, Hc, Hl, <- app_assoc. cbn [firstn map app].
      rewrite Hcall. reflexivity.
    + exists 1%nat. split; [simpl; lia |].
      rewrite Hc. cbn [firstn map]. rewrite Hcall. reflexivity.
Qed.

(** The same for the compile loop. *)
Lemma tensorrt_loop_calls_prefix W args work_dir ret_value pairs :
  forall model_id acc s,
  exists k,
    (k <= List.length pairs)%nat /\
    calls_of (trace (snd (tensorrt_loop W args work_dir ret_value model_id pairs acc s)))
      = calls_of (trace s)
          ++ map (compile_call args (root_level s) work_dir ret_value)
               (firstn k (number_from model_id pairs)).
Proof.
  induction pairs as [| [mp path] pairs IH]; intros model_id acc s.
  - exists 0%nat. simpl. rewrite app_nil_r. auto.
  - assert (Hstop : exists k, (k <= List.length ((mp, path) :: pairs))%nat /\
              calls_of (trace s)
                = calls_of (trace s)
                    ++ map (compile_call args (root_level s) work_dir ret_value)
                         (firstn k (number_from model_id ((mp, path) :: pairs)))).
    { exists 0%nat. simpl. rewrite app_nil_r. split; [lia | reflexivity]. }
    cbn [tensorrt_loop]. unfold bind at 1. unfold lift.
    destruct mp as [| ? | ? | ? | ? | d]; try exact Hstop. cbn [method_get].
    assert (Hcall : forall L,
              compile_call args L work_dir ret_value (model_id, (PDict d, path))
              = mkCall L onnx2tensorrt
                  [Obj (PStr work_dir);
                   Obj (dict_get d "save_file"
                          (PStr (osp.splitext_root (osp.split_tail path) ++ ".engine")));
                   Obj (PInt model_id); Obj (PStr (a_deploy_cfg args));
                   Obj (PStr path)]
                  [("device", Obj (PStr (a_device args)));
                   ("ret_value", Shared ret_value)])
      by reflexivity.
    unfold bind at 1.
    match goal with
    | |- context [create_process W ?n ?t ?a ?k ?r s] =>
        destruct (create_process_calls W n t a k r s) as [Hl Hc];
        destruct (create_process W n t a k r s) as [[u | ex] s']
    end; cbn [fst snd] in *.
    + unfold bind at 1.
      destruct (dict_get d "save_file"
                  (PStr (osp.splitext_root (osp.split_tail path) ++ ".engine")))
        as [| ? | ? | b | ? | ?] eqn:Es; cbn [osp_join raise ret].
      4:{ destruct (IH (model_id + 1) (acc ++ [osp.join work_dir b]) s')
            as [k [Hk Hcalls]].
          exists (S k). split; [simpl; lia |].
          rewrite Hcalls, Hc, Hl, <- app_assoc. cbn [number_from firstn map app].
          rewrite Hcall. reflexivity. }
      all: exists 1%nat; (split; [simpl; lia |]); cbn [snd]; rewrite Hc;
        cbn [number_from firstn map]; rewrite Hcall; reflexivity.
    + exists 1%nat. split; [simpl; lia |]. cbn [snd]. rewrite Hc.
      cbn [number_from firstn map]. rewrite Hcall. reflexivity.
Qed.

Lemma split_model_calls_prefix W str_other deploy_cfg work_dir ret_value entries
    onnx_files s :
  truthy (dict_get deploy_cfg "apply_marks" (PBool false)) = true ->
  lookup "split_params" deploy_cfg = Some (PList entries) ->
  exists k,
    (k <= List.length entries)%nat /\
    calls_of (trace (snd (split_model W str_other deploy_cfg work_dir ret_value
                            onnx_files s)))
      = calls_of (trace s)
          ++ map (split_call (root_level s) work_dir ret_value (hd "" onnx_files))
               (firstn k entries).
Proof.
  intros Hm Hp. unfold split_model. rewrite Hm. unfold has_key, dict_get. rewrite Hp.
  unfold py_assert, py_iter, lift. unfold bind at 1. unfold ret at 1.
  destruct onnx_files as [| f files].
  - exists 0%nat. simpl. rewrite app_nil_r. split; [lia | reflexivity].
  - unfold bind at 1. unfold ret at 1. unfold bind at 1.
    apply split_loop_calls_prefix.
Qed.

Lemma convert_backend_calls_prefix W args deploy_cfg tensorrt_params model_params
    work_dir ret_value onnx_files s :
  eq_str (backend deploy_cfg) "tensorrt" = true ->
  lookup "tensorrt_params" deploy_cfg = Some (PDict tensorrt_params) ->
  dict_get tensorrt_params "model_params" (PList []) = PList model_params ->
  exists k,
    (k <= List.length onnx_files)%nat /\
    calls_of (trace (snd (convert_backend W args deploy_cfg work_dir ret_value
                            onnx_files s)))
      = calls_of (trace s)
          ++ map (compile_call args (root_level s) work_dir ret_value)
               (firstn k (number_from 0 (combine model_params onnx_files))).
Proof.
  intros Hb Ht Hm.
  rewrite (convert_backend_tensorrt _ _ _ _ _ _ _ _ _ Hb Ht Hm).
  destruct (_ =? _)%nat.
  - destruct (tensorrt_loop_calls_prefix W args work_dir ret_value
                (combine model_params onnx_files) 0 [] s) as [k [Hk Hc]].
    exists k. split; [| exact Hc].
    rewrite length_combine in Hk. lia.
  - exists 0%nat. simpl. rewrite app_nil_r. split; [lia | reflexivity].
Qed.

Section Visualize.

Variable W : world.
Variable str_other : pyval -> string.
Variable args : Args.
Variable deploy_cfg : list (string * pyval).
Variable ret_value : nat.

(** With a [codebase] entry the stage starts by launching the backend
    visualization on the files it was given. *)
Lemma visualize_starts codebase backend_files s :
  lookup "codebase" deploy_cfg = Some codebase ->
  exists rest,
    trace (snd (visualize W str_other args deploy_cfg ret_value backend_files s))
      = trace s
          ++ Log (level_value INFO)
               (("visualize " ++ py_str str_other (backend deploy_cfg) ++ " model")
                  ++ " start.")
          :: Run (backend_visualization str_other args deploy_cfg (root_level s)
                    ret_value backend_files) (cells s)
          :: rest.
Proof.
  intros Hc. unfold visualize. unfold bind at 1. unfold lift, subscript. rewrite Hc.
  match goal with
  | |- context [bind (create_process W ?n ?t ?a ?k ?r) ?f] =>
      destruct (create_process_starts W n t a k r s) as [rest1 [H1 _]];
      assert (Hrest : forall u, grows (f u))
  end.
  { intros _. apply grows_bind; [apply grows_create_process | intros _; apply grows_emit]. }
  unfold bind at 1.
  match type of H1 with
  | context [create_process W ?n ?t ?a ?k ?r s] =>
      destruct (create_process W n t a k r s) as [[u | e] s1]
  end; cbn [snd] in H1.
  - destruct (Hrest u s1) as [t2 Ht2]. rewrite Ht2, H1.
    exists (rest1 ++ t2). unfold backend_visualization, dict_get. rewrite Hc.
    rewrite <- app_assoc. reflexivity.
  - cbn [snd]. rewrite H1. exists rest1.
    unfold backend_visualization, dict_get. rewrite Hc. reflexivity.
Qed.

(** A returning stage has made the two visualization calls, in this
    order, and has logged overall success last. *)
Lemma visualize_Ret backend_files s u s1 :
  visualize W str_other args deploy_cfg ret_value backend_files s = (Ret u, s1) ->
  has_key "codebase" deploy_cfg = true /\
  calls_of (trace s1)
    = calls_of (trace s)
        ++ [backend_visualization str_other args deploy_cfg (root_level s) ret_value
              backend_files;
            reference_visualization args deploy_cfg (root_level s) ret_value] /\
  last (trace s1) (Mkdir "") = Log (level_value INFO) "All process success.".
Proof.
  unfold visualize. intros H.
  invert_run H. invert_lift Hstep.
  apply subscript_Ret_inv in E. destruct E as [d [Hd Hk]]. inversion Hd; subst d.
  invert_run H. apply create_process_Ret_calls in Hstep. destruct Hstep as [Hl Hc].
  invert_run H. apply create_process_Ret_calls in Hstep. destruct Hstep as [Hl' Hc'].
  unfold logging_info, emit in H. inversion H; subst; clear H. simpl.
  split; [unfold has_key; rewrite Hk; reflexivity |]. split.
  - rewrite calls_of_app, Hc', Hc, Hl. cbn [calls_of flat_map app].
    rewrite app_nil_r, <- app_assoc.
    unfold backend_visualization, reference_visualization, dict_get. rewrite Hk.
    reflexivity.
  - apply last_last.
Qed.

End Visualize.

(** The whole run for a backend that is not [tensorrt]: after the setup,
    only steps of the export, split and inference collaborators. *)
Lemma main_sound_other_backend W str_other args deploy_cfg work_dir :
  eq_str (backend deploy_cfg) "tensorrt" = false ->
  a_work_dir args = Some work_dir ->
  exists t,
    trace (snd (main W str_other args deploy_cfg initial_state))
      = [Mkdir work_dir; NewValue 0] ++ t /\
    Forall (step_event (level_value (a_log_level args))
              (fun f => f <> onnx2tensorrt)) t.
Proof.
  intros Hb Hwd. rewrite (main_fresh W str_other args deploy_cfg work_dir Hwd).
  assert (Hs : sound (level_value (a_log_level args))
                 (step_event (level_value (a_log_level args))
                    (fun f => f <> onnx2tensorrt))
                 (bind (intermediate_files W str_other args deploy_cfg work_dir 0)
                       (deploy W str_other args deploy_cfg work_dir 0))).
  { apply sound_bind.
    - eapply sound_weaken; [| apply intermediate_files_sound].
      intros e. apply step_event_weaken. intros f [-> | ->]; discriminate.
    - intros files s Hs. unfold deploy.
      erewrite bind_Ret by (apply convert_backend_other; exact Hb).
      revert s Hs. eapply sound_weaken; [| apply visualize_sound].
      intros e. apply step_event_weaken. intros f ->. discriminate. }
  destruct (Hs _ (flag_ok_after_setup args work_dir)) as [t [Ht [HP _]]].
  exists t. split; assumption.
Qed.

(* ================================================================= *)
(** ** The two output files *)

Lemma list_ascii_of_append a b :
  list_ascii_of_string (a ++ b)%string
    = list_ascii_of_string a ++ list_ascii_of_string b.
Proof. induction a as [| c a IH]; simpl; [| rewrite IH]; reflexivity. Qed.

Lemma append_cancel_r a b c : (a ++ c)%string = (b ++ c)%string -> a = b.
Proof.
  intros H. apply (f_equal list_ascii_of_string) in H.
  rewrite !list_ascii_of_append in H. apply app_inv_tail in H.
  apply (f_equal string_of_list_ascii) in H.
  rewrite !string_of_list_ascii_of_string in H. exact H.
Qed.

(** The backend's output file is [output_pytorch.jpg] only for the backend
    text ["pytorch"]. *)
Lemma output_file_pytorch b :
  ("output_" ++ b ++ ".jpg")%string = "output_pytorch.jpg" -> b = "pytorch".
Proof.
  intros H. simpl in H. inversion H as [H'].
  apply (append_cancel_r b "pytorch" ".jpg"). exact H'.
Qed.

(* ================================================================= *)
(** ** Runs in which every worker succeeds *)

Section Obedient.

Variable W : world.
Hypothesis W_obedient : obedient W.
Variable str_other : pyval -> string.
Variable args : Args.
Variable deploy_cfg : list (string * pyval).
Variable work_dir : string.
Variable L : Z.

Lemma create_process_obedient name target cargs kwargs s :
  flag_ok L s ->
  exists s1,
    create_process W name target cargs kwargs (Some 0%nat) s = (Ret tt, s1) /\
    flag_ok L s1.
Proof.
  intros [Hl [v [Hc Hv]]]. rewrite create_process_flag. rewrite Hc. simpl.
  match goal with
  | |- context [W ?h ?c ?cs 0%nat] => destruct (W h c cs 0%nat) as [v' |] eqn:Hw
  end.
  - rewrite (W_obedient _ _ _ _ _ Hw). eexists. split; [reflexivity |].
    split; [exact Hl |]. exists v'. split; [reflexivity |].
    exact (W_obedient _ _ _ _ _ Hw).
  - rewrite Hv. eexists. split; [reflexivity |].
    split; [exact Hl |]. exists v. auto.
Qed.

Lemma split_loop_obedient origin entries : forall acc s,
  Forall split_entry_ok entries ->
  flag_ok L s ->
  exists s1,
    split_loop W str_other work_dir 0 origin entries acc s
      = (Ret (acc ++ map (split_path work_dir) entries), s1) /\
    flag_ok L s1.
Proof.
  induction entries as [| e entries IH]; intros acc s Hok Hs; simpl.
  - exists s. rewrite app_nil_r. auto.
  - inversion Hok as [| e' l' [save_file [start [end_ [H1 [H2 H3]]]]] Hok']; subst.
    unfold bind at 1. unfold lift. rewrite H1.
    unfold bind at 1. simpl. unfold bind at 1. rewrite H2.
    unfold bind at 1. rewrite H3.
    match goal with
    | |- context [create_process W ?n ?t ?a ?k (Some 0%nat)] =>
        destruct (create_process_obedient n t a k s Hs) as [s0 [Hrun Hs0]]
    end.
    erewrite bind_Ret by exact Hrun.
    destruct (IH (acc ++ [osp.join work_dir save_file]) s0 Hok' Hs0) as [s1 [Hloop Hs1]].
    exists s1. rewrite Hloop. split; [| exact Hs1].
    rewrite <- app_assoc. simpl. unfold split_path at 2.
    rewrite (subscript_field _ _ _ H1). reflexivity.
Qed.

Lemma tensorrt_loop_obedient pairs : forall model_id acc s,
  Forall compile_entry_ok pairs ->
  flag_ok L s ->
  exists s1,
    tensorrt_loop W args work_dir 0 model_id pairs acc s
      = (Ret (acc ++ map (backend_path work_dir) pairs), s1) /\
    flag_ok L s1.
Proof.
  induction pairs as [| [mp path] pairs IH]; intros model_id acc s Hok Hs; simpl.
  - exists s. rewrite app_nil_r. auto.
  - inversion Hok as [| p' l' [d [name [Hd Hname]]] Hok']; subst.
    simpl in Hd, Hname. subst mp.
    unfold bind at 1. unfold lift, method_get.
    change (dict_get d "save_file"
              (PStr (osp.splitext_root (osp.split_tail path) ++ ".engine")))
      with (compile_save_file (PDict d) path).
    rewrite Hname.
    match goal with
    | |- context [create_process W ?n ?t ?a ?k (Some 0%nat)] =>
        destruct (create_process_obedient n t a k s Hs) as [s0 [Hrun Hs0]]
    end.
    erewrite bind_Ret by exact Hrun.
    unfold bind at 1. unfold osp_join, ret.
    destruct (IH (model_id + 1) (acc ++ [osp.join work_dir name]) s0 Hok' Hs0)
      as [s1 [Hloop Hs1]].
    exists s1. rewrite Hloop. split; [| exact Hs1].
    rewrite <- app_assoc. cbn [app map]. unfold backend_path. cbn [fst snd].
    rewrite Hname. reflexivity.
Qed.

End Obedient.

Lemma convert_onnx_obedient W args deploy_cfg work_dir pytorch2onnx name L s :
  obedient W ->
  lookup "pytorch2onnx" deploy_cfg = Some pytorch2onnx ->
  subscript pytorch2onnx "save_file" = Ret (PStr name) ->
  flag_ok L s ->
  exists s1,
    convert_onnx W args deploy_cfg work_dir 0 s = (Ret [osp.join work_dir name], s1) /\
    flag_ok L s1.
Proof.
  intros HW Hp Hn Hs. unfold convert_onnx.
  erewrite bind_Ret by (unfold lift, subscript; rewrite Hp; reflexivity).
  erewrite bind_Ret by (unfold lift; rewrite Hn; reflexivity).
  match goal with
  | |- context [create_process W ?n ?t ?a ?k (Some 0%nat)] =>
      destruct (create_process_obedient W HW L n t a k s Hs) as [s0 [Hrun Hs0]]
  end.
  erewrite bind_Ret by exact Hrun.
  exists s0. split; [reflexivity | exact Hs0].
Qed.

Lemma front_obedient W str_other args deploy_cfg work_dir pytorch2onnx name entries :
  obedient W ->
  a_work_dir args = Some work_dir ->
  lookup "pytorch2onnx" deploy_cfg = Some pytorch2onnx ->
  subscript pytorch2onnx "save_file" = Ret (PStr name) ->
  truthy (dict_get deploy_cfg "apply_marks" (PBool false)) = true ->
  lookup "split_params" deploy_cfg = Some (PList entries) ->
  Forall split_entry_ok entries ->
  exists s1,
    front W str_other args deploy_cfg initial_state
      = (Ret (work_dir, 0%nat, map (split_path work_dir) entries), s1).
Proof.
  intros HW Hwd Hp Hn Hm Hs Hok.
  rewrite (front_fresh W str_other args deploy_cfg work_dir Hwd).
  destruct (convert_onnx_obedient W args deploy_cfg work_dir pytorch2onnx name
              (level_value (a_log_level args)) _ HW Hp Hn
              (flag_ok_after_setup args work_dir)) as [s0 [Hexp Hs0]].
  destruct (split_loop_obedient W HW str_other work_dir (level_value (a_log_level args))
              (osp.join work_dir name) entries [] s0 Hok Hs0) as [s1 [Hloop _]].
  exists s1. unfold intermediate_files.
  erewrite bind_Ret; [reflexivity |].
  erewrite bind_Ret by exact Hexp.
  unfold split_model. rewrite Hm. unfold has_key, dict_get. rewrite Hs.
  unfold py_assert, bind, ret, lift, py_iter. exact Hloop.
Qed.

Lemma convert_backend_obedient W args deploy_cfg tensorrt_params model_params
    work_dir onnx_files L s :
  obedient W ->
  eq_str (backend deploy_cfg) "tensorrt" = true ->
  lookup "tensorrt_params" deploy_cfg = Some (PDict tensorrt_params) ->
  dict_get tensorrt_params "model_params" (PList []) = PList model_params ->
  List.length model_params = List.length onnx_files ->
  Forall compile_entry_ok (combine model_params onnx_files) ->
  flag_ok L s ->
  exists s1,
    convert_backend W args deploy_cfg work_dir 0 onnx_files s
      = (Ret (map (backend_path work_dir) (combine model_params onnx_files)), s1).
Proof.
  intros HW Hb Ht Hm Hlen Hok Hs.
  rewrite (convert_backend_tensorrt _ _ _ _ _ _ _ _ _ Hb Ht Hm).
  apply Nat.eqb_eq in Hlen. rewrite Hlen.
  destruct (tensorrt_loop_obedient W HW args work_dir L _ 0 [] s Hok Hs) as [s1 [H _]].
  exists s1. exact H.
Qed.

(* ================================================================= *)
(** ** Base names and extensions *)

Lemma rfind_from_absent c s : forall i last,
  has_char c s = false -> osp.rfind_from c s i last = last.
Proof.
  induction s as [| a r IH]; intros i last H; simpl in *; [reflexivity |].
  apply orb_false_iff in H. destruct H as [Ha Hr]. rewrite Ha. apply IH. exact Hr.
Qed.

Lemma rfind_from_last c a b : forall i last,
  has_char c b = false ->
  osp.rfind_from c (a ++ String c b) i last = i + Z.of_nat (String.length a).
Proof.
  induction a as [| x a IH]; intros i last H.
  - simpl. rewrite Ascii.eqb_refl. rewrite rfind_from_absent by exact H. lia.
  - cbn [append osp.rfind_from String.length]. rewrite IH by exact H. lia.
Qed.

Lemma has_char_append c a b :
  has_char c (a ++ b) = has_char c a || has_char c b.
Proof.
  induction a as [| x a IH]; simpl; [reflexivity |].
  rewrite IH. apply orb_assoc.
Qed.

Lemma length_append a b :
  String.length (a ++ b) = (String.length a + String.length b)%nat.
Proof. induction a as [| x a IH]; simpl; [| rewrite IH]; reflexivity. Qed.

Lemma substring_whole s : substring 0 (String.length s) s = s.
Proof. induction s as [| x s IH]; simpl; [| rewrite IH]; reflexivity. Qed.

Lemma substring_prefix a b : substring 0 (String.length a) (a ++ b) = a.
Proof.
  induction a as [| x a IH]; simpl.
  - destruct b; reflexivity.
  - rewrite IH. reflexivity.
Qed.

Lemma substring_skip a b n :
  substring (String.length a) n (a ++ b) = substring 0 n b.
Proof. induction a as [| x a IH]; simpl; [reflexivity | exact IH]. Qed.

Lemma substring_skip_sep a c b n :
  substring (S (String.length a)) n (a ++ String c b) = substring 0 n b.
Proof. induction a as [| x a IH]; simpl; [reflexivity | exact IH]. Qed.

Lemma endswith_sep_inv s :
  osp.endswith_sep s = true -> exists a, s = (a ++ String osp.sep "")%string.
Proof.
  induction s as [| x s IH]; simpl; [discriminate |].
  destruct s as [| y s'].
  - intros H. apply Ascii.eqb_eq in H. subst x. exists "". reflexivity.
  - intros H. destruct (IH H) as [a Ha]. exists (String x a). simpl. rewrite Ha.
    reflexivity.
Qed.

Lemma append_assoc a b c : ((a ++ b) ++ c)%string = (a ++ b ++ c)%string.
Proof. induction a as [| x a IH]; simpl; [| rewrite IH]; reflexivity. Qed.

(** The tail of a path whose last component holds no separator. *)
Lemma split_tail_of_name dir name :
  has_char osp.sep name = false ->
  dir = "" \/ osp.endswith_sep dir = true ->
  osp.split_tail (dir ++ name) = name.
Proof.
  intros Hn [-> | Hd]; unfold osp.split_tail, osp.slice_from, osp.rfind.
  - simpl. rewrite rfind_from_absent by exact Hn. simpl.
    rewrite Nat.sub_0_r. apply substring_whole.
  - destruct (endswith_sep_inv _ Hd) as [a ->].
    assert (Hp : ((a ++ String osp.sep "") ++ name)%string
                 = (a ++ String osp.sep name)%string)
      by (rewrite append_assoc; reflexivity).
    rewrite Hp, rfind_from_last by exact Hn.
    replace (Z.to_nat (0 + Z.of_nat (String.length a) + 1))
      with (S (String.length a)) by lia.
    rewrite substring_skip_sep, length_append. simpl String.length.
    replace (String.length a + S (String.length name) - S (String.length a))%nat
      with (String.length name) by lia.
    apply substring_whole.
Qed.

(** The root of a file name [stem.ext] whose stem is not made of dots. *)
Lemma splitext_root_of_name stem ext :
  has_char osp.sep stem = false ->
  has_char osp.sep ext = false ->
  has_char osp.extsep ext = false ->
  has_stem stem = true ->
  osp.splitext_root (stem ++ String osp.extsep ext) = stem.
Proof.
  intros Hs He Hd Hstem. unfold osp.splitext_root, osp.rfind.
  rewrite (rfind_from_absent osp.sep).
  2:{ rewrite has_char_append. simpl. rewrite Hs, He. reflexivity. }
  rewrite rfind_from_last by exact Hd.
  replace (-1 <? 0 + Z.of_nat (String.length stem)) with true
    by (symmetry; apply Z.ltb_lt; lia).
  replace (Z.to_nat (-1 + 1)) with 0%nat by reflexivity.
  replace (Z.to_nat (0 + Z.of_nat (String.length stem) - (-1 + 1)))
    with (String.length stem) by lia.
  rewrite substring_prefix. fold (has_stem stem). rewrite Hstem.
  unfold osp.slice_to.
  replace (Z.to_nat (0 + Z.of_nat (String.length stem))) with (String.length stem) by lia.
  apply substring_prefix.
Qed.

(** The engine name of [stem.ext] stored under any directory. *)
Lemma engine_name_of_joined dir stem ext :
  has_char osp.sep stem = false ->
  has_char osp.sep ext = false ->
  has_char osp.extsep ext = false ->
  has_stem stem = true ->
  engine_name (osp.join dir (stem ++ String osp.extsep ext)) = (stem ++ ".engine")%string.
Proof.
  intros Hs He Hd Hstem. unfold engine_name.
  assert (Hn : has_char osp.sep (stem ++ String osp.extsep ext) = false).
  { rewrite has_char_append. simpl. rewrite Hs, He. reflexivity. }
  assert (Ht : osp.split_tail (osp.join dir (stem ++ String osp.extsep ext))
               = (stem ++ String osp.extsep ext)%string).
  { unfold osp.join.
    assert (Hstart : osp.startswith_sep (stem ++ String osp.extsep ext) = false).
    { destruct stem as [| x stem']; [reflexivity |].
      simpl in Hs. apply orb_false_iff in Hs. destruct Hs as [Hx _].
      simpl. exact Hx. }
    rewrite Hstart.
    destruct ((dir =? "")%string || osp.endswith_sep dir) eqn:E.
    - apply split_tail_of_name; [exact Hn |].
      apply orb_true_iff in E. destruct E as [E | E]; [left | right; exact E].
      apply String.eqb_eq. exact E.
    - change (dir ++ String osp.sep (stem ++ String osp.extsep ext))%string
        with (dir ++ (String osp.sep "" ++ (stem ++ String osp.extsep ext)))%string.
      rewrite <- append_assoc. apply split_tail_of_name; [exact Hn |].
      right. clear. induction dir as [| x d IH]; [reflexivity |].
      simpl. destruct (d ++ String osp.sep "")%string eqn:E; [| exact IH].
      destruct d; discriminate E. }
  rewrite Ht, splitext_root_of_name by assumption. reflexivity.
Qed.

(* ================================================================= *)
(** ** The process runner *)

(** C1.  The run in which the export worker leaves [-1.0] in the flag: the
    driver logs the error and stops right after the failed step (the export
    is the only collaborator call and the error line is the last event),
    but [exit()] carries no code, so the exit status of the interpreter is
    0. *)
Theorem failed_export_exits_with_status_zero :
  fst (main Samples.failing Samples.str_other Samples.args Samples.cfg_default
         initial_state) = Raise (SystemExit None) /\
  exit_status (fst (main Samples.failing Samples.str_other Samples.args
                      Samples.cfg_default initial_state)) = 0 /\
  calls_of (trace (snd (main Samples.failing Samples.str_other Samples.args
                          Samples.cfg_default initial_state)))
    = [mkCall 20 torch2onnx
         [Obj (PStr "demo.jpg"); Obj (PStr "work"); Obj (PStr "end2end.onnx");
          Obj (PStr "deploy.py"); Obj (PStr "model.py"); Obj (PStr "model.pth")]
         [("device", Obj (PStr "cpu")); ("ret_value", Shared 0)]] /\
  last (trace (snd (main Samples.failing Samples.str_other Samples.args
                      Samples.cfg_default initial_state))) (Mkdir "")
    = Log (level_value ERROR) "torch2onnx failed.".
Proof. vm_compute. repeat split. Qed.

(** C9.  A step launched through [create_process] runs its target in the
    worker only after the worker's root logger has been set to the level the
    driver's root logger had when the step was launched: [target_wrapper]
    sets the level whatever the worker's own level was, the run recorded by
    [create_process] carries the driver's level, and in a run of [main] that
    level is the one given by [--log-level]. *)
Theorem worker_runs_at_driver_level :
  forall (W : world),
    (forall target l args kwargs w,
        w_level (fst (target_wrapper target l args kwargs w)) = l /\
        c_level (snd (target_wrapper target l args kwargs w)) = l) /\
    (forall name target args kwargs ret_value s,
        exists rest,
          trace (snd (create_process W name target args kwargs ret_value s))
            = trace s ++ Log (level_value INFO) (name ++ " start.")
                :: Run (mkCall (root_level s) target args kwargs) (cells s) :: rest
          /\ calls_of rest = []) /\
    (forall str_other args deploy_cfg c seen,
        In (Run c seen) (trace (snd (main W str_other args deploy_cfg initial_state))) ->
        c_level c = level_value (a_log_level args)).
Proof.
  intros W. split; [| split].
  - intros. split; reflexivity.
  - intros. apply create_process_starts.
  - intros so args cfg c seen H. apply (main_runs _ _ _ _ _ _ H).
Qed.

(** C10.  Called without a result flag, [create_process] logs the start,
    runs the worker and returns: whatever the worker did to shared memory
    there is no outcome line, no exit, and the driver goes on. *)
Theorem no_flag_no_check :
  forall (W : world) name target args kwargs s,
    fst (create_process W name target args kwargs None s) = Ret tt /\
    trace (snd (create_process W name target args kwargs None s))
      = trace s ++ [Log (level_value INFO) (name ++ " start.");
                    Run (mkCall (root_level s) target args kwargs) (cells s)] /\
    root_level (snd (create_process W name target args kwargs None s)) = root_level s.
Proof.
  intros. rewrite create_process_no_flag. simpl.
  rewrite <- app_assoc. repeat split.
Qed.

(* ================================================================= *)
(** ** The shared flag *)

(** C2, as stated, fails.  The export worker ends with
    [ret_value.value = -0.0]; [-0.0 != 0] is false, so the run goes on, and
    both visualization workers find [-0.0] in the flag: the value an earlier
    step wrote, not the [+0.0] of a new or reset flag.  The flag is
    allocated once in the whole run. *)
Lemma flag_written_by_export_reaches_inference :
  fst (main Samples.writes_negative_zero Samples.str_other Samples.args
         Samples.cfg_default initial_state) = Ret tt /\
  launches (trace (snd (main Samples.writes_negative_zero Samples.str_other
                          Samples.args Samples.cfg_default initial_state)))
    = [(torch2onnx, [positive_zero]);
       (inference_model, [Samples.negative_zero]);
       (inference_model, [Samples.negative_zero])] /\
  allocations (trace (snd (main Samples.writes_negative_zero Samples.str_other
                             Samples.args Samples.cfg_default initial_state))) = 1%nat /\
  Samples.negative_zero <> positive_zero.
Proof.
  split; [vm_compute; reflexivity |].
  split; [vm_compute; reflexivity |].
  split; [vm_compute; reflexivity |].
  discriminate.
Qed.

(** C2, amended.  The flag is allocated once, before the first step, and
    never again; the driver has no operation that writes it.  At the launch
    of every step shared memory is that one cell and it compares equal to
    zero, because a non-zero value ends the run at the step that left it. *)
Theorem flag_allocated_once_and_zero_at_launch :
  forall (W : world) str_other args deploy_cfg,
    (allocations (trace (snd (main W str_other args deploy_cfg initial_state))) <= 1)%nat /\
    (forall work_dir,
        a_work_dir args = Some work_dir ->
        exists t,
          trace (snd (main W str_other args deploy_cfg initial_state))
            = Mkdir work_dir :: NewValue 0 :: t /\
          allocations t = 0%nat) /\
    (forall c seen,
        In (Run c seen) (trace (snd (main W str_other args deploy_cfg initial_state))) ->
        exists v, seen = [v] /\ nonzero v = false).
Proof.
  intros W so args cfg.
  assert (Hwd : forall wd, a_work_dir args = Some wd ->
            exists t, trace (snd (main W so args cfg initial_state))
                        = Mkdir wd :: NewValue 0 :: t /\ allocations t = 0%nat).
  { intros wd Hwd.
    destruct (main_sound W so args cfg wd Hwd) as [t [Ht [HP _]]].
    exists t. split; [exact Ht |]. eapply steps_do_not_allocate; exact HP. }
  split; [| split].
  - destruct (a_work_dir args) as [wd |] eqn:E.
    + destruct (Hwd wd eq_refl) as [t [Ht Ha]]. rewrite Ht.
      change (allocations (Mkdir wd :: NewValue 0 :: t)) with (S (allocations t)).
      rewrite Ha. apply le_n.
    + rewrite main_without_work_dir by exact E. apply Nat.le_0_l.
  - exact Hwd.
  - intros c seen H. apply (main_runs _ _ _ _ _ _ H).
Qed.

(* ================================================================= *)
(** ** The split stage *)

(** C3.  With [apply_marks] true and a [split_params] list of N entries, a
    run that passes the split stage has called the split collaborator once
    per entry, in declaration order, each time on the exported file and
    with the entry's [start] and [end]; these N calls follow the single
    export call, and the intermediate files handed on are exactly the N
    output paths, each entry's [save_file] joined under the work directory,
    in declaration order.  Whatever happens, the split stage calls the
    collaborator for the first [k] entries only, in order, for some
    [k <= N].  The run does pass the stage when the work directory and the
    export file name are given, every entry is readable and no worker
    leaves a non-zero flag. *)
Theorem split_stage_invocations :
  forall (W : world) str_other args deploy_cfg entries,
    truthy (dict_get deploy_cfg "apply_marks" (PBool false)) = true ->
    lookup "split_params" deploy_cfg = Some (PList entries) ->
    (forall work_dir ret_value onnx_files s1,
        front W str_other args deploy_cfg initial_state
          = (Ret (work_dir, ret_value, onnx_files), s1) ->
        Forall split_entry_ok entries /\
        calls_to extract_model (trace s1)
          = map (split_call (level_value (a_log_level args)) work_dir ret_value
                   (exported_file deploy_cfg work_dir)) entries /\
        calls_of (trace s1)
          = export_call args deploy_cfg (level_value (a_log_level args)) work_dir ret_value
            :: map (split_call (level_value (a_log_level args)) work_dir ret_value
                      (exported_file deploy_cfg work_dir)) entries /\
        onnx_files = map (split_path work_dir) entries /\
        List.length onnx_files = List.length entries) /\
    (forall work_dir ret_value onnx_files s,
        exists k,
          (k <= List.length entries)%nat /\
          calls_of (trace (snd (split_model W str_other deploy_cfg work_dir ret_value
                                  onnx_files s)))
            = calls_of (trace s)
                ++ map (split_call (root_level s) work_dir ret_value (hd "" onnx_files))
                     (firstn k entries)) /\
    (forall work_dir pytorch2onnx name,
        obedient W ->
        a_work_dir args = Some work_dir ->
        lookup "pytorch2onnx" deploy_cfg = Some pytorch2onnx ->
        subscript pytorch2onnx "save_file" = Ret (PStr name) ->
        Forall split_entry_ok entries ->
        exists s1,
          front W str_other args deploy_cfg initial_state
            = (Ret (work_dir, 0%nat, map (split_path work_dir) entries), s1)).
Proof.
  intros W so args cfg entries Hm Hp. split.
  - intros wd rv files s1 H.
    apply main_after_front in H. destruct H as [Hwd [-> [H _]]].
    apply (intermediate_files_split_Ret _ _ _ _ _ _ entries) in H; try assumption.
    destruct H as [_ [Hok [Hf [_ Hc]]]]. simpl in Hc.
    split; [exact Hok |]. split; [| split; [exact Hc | split; [exact Hf |]]].
    + unfold calls_to. rewrite Hc. simpl. apply calls_to_split_calls.
    + rewrite Hf. apply length_map.
  - split; [intros; apply split_model_calls_prefix; assumption |].
    intros wd p name HW Hwd Hl Hn Hok.
    exact (front_obedient W so args cfg wd p name entries HW Hwd Hl Hn Hm Hp Hok).
Qed.

Lemma split_stage_invocations_witness :
  calls_to extract_model
    (trace (snd (front Samples.quiet Samples.str_other Samples.args Samples.cfg_split
                   initial_state)))
    = [mkCall 20 extract_model
         [Obj (PStr "work/end2end.onnx"); Obj (PStr "a:input"); Obj (PStr "b:output")]
         [("save_file", Obj (PStr "work/part0.onnx")); ("ret_value", Shared 0)];
       mkCall 20 extract_model
         [Obj (PStr "work/end2end.onnx"); Obj (PStr "b:output"); Obj (PStr "c:output")]
         [("save_file", Obj (PStr "work/part1.onnx")); ("ret_value", Shared 0)]].
Proof.
  refine (proj1 (proj2
    (proj1
       (split_stage_invocations Samples.quiet Samples.str_other Samples.args
          Samples.cfg_split Samples.split_entries eq_refl eq_refl)
       "work" 0%nat ["work/part0.onnx"; "work/part1.onnx"]
       (snd (front Samples.quiet Samples.str_other Samples.args Samples.cfg_split
               initial_state))
       _))).
  vm_compute. reflexivity.
Defined.

(** C6.  With [apply_marks] true and no [split_params] section the run
    never completes and never calls the split collaborator; the only
    collaborator it can have called is the export.  When the export step
    has returned, the run ends right there with the assertion error. *)
Theorem marks_without_split_params_fails :
  forall (W : world) str_other args deploy_cfg,
    truthy (dict_get deploy_cfg "apply_marks" (PBool false)) = true ->
    has_key "split_params" deploy_cfg = false ->
    (exists e, fst (main W str_other args deploy_cfg initial_state) = Raise e) /\
    calls_to extract_model
      (trace (snd (main W str_other args deploy_cfg initial_state))) = [] /\
    Forall (fun c => c_target c = torch2onnx)
      (calls_of (trace (snd (main W str_other args deploy_cfg initial_state)))) /\
    (forall work_dir onnx_files s1,
        a_work_dir args = Some work_dir ->
        convert_onnx W args deploy_cfg work_dir 0 (after_setup args work_dir)
          = (Ret onnx_files, s1) ->
        main W str_other args deploy_cfg initial_state = (Raise AssertionError, s1)).
Proof.
  intros W so args cfg Hm Hk.
  destruct (a_work_dir args) as [wd |] eqn:Hwd.
  - assert (Hmain : main W so args cfg initial_state
                    = match convert_onnx W args cfg wd 0 (after_setup args wd) with
                      | (Ret _, s1) => (Raise AssertionError, s1)
                      | (Raise e, s1) => (Raise e, s1)
                      end).
    { rewrite (main_fresh W so args cfg wd Hwd). unfold intermediate_files, bind.
      destruct (convert_onnx W args cfg wd 0 (after_setup args wd)) as [[files | e] s1];
        [rewrite (split_model_without_params _ _ _ _ _ _ _ Hm Hk) |]; reflexivity. }
    rewrite Hmain. clear Hmain.
    destruct (convert_onnx_sound W args cfg wd (level_value (a_log_level args))
                _ (flag_ok_after_setup args wd)) as [t [Ht [HP _]]].
    apply step_calls in HP.
    destruct (convert_onnx W args cfg wd 0 (after_setup args wd)) as [[files | e] s1] eqn:E.
    all: cbn [fst snd] in *.
    all: assert (Hcalls : Forall (fun c => c_target c = torch2onnx) (calls_of (trace s1)))
      by (rewrite Ht, calls_of_app; exact HP).
    all: assert (Hnone : calls_to extract_model (trace s1) = [])
      by (apply no_calls_to; eapply Forall_impl; [| exact Hcalls];
          intros c Hc; rewrite Hc; discriminate).
    + split; [eauto |]. split; [exact Hnone |]. split; [exact Hcalls |].
      intros wd' files' s' Hwd' E'. inversion Hwd'; subst wd'.
      rewrite E in E'. inversion E'; subst. reflexivity.
    + split; [eauto |]. split; [exact Hnone |]. split; [exact Hcalls |].
      intros wd' files' s' Hwd' E'. inversion Hwd'; subst wd'.
      rewrite E in E'. discriminate E'.
  - rewrite main_without_work_dir by exact Hwd. simpl.
    split; [eauto |]. split; [reflexivity |]. split; [constructor |].
    intros wd' ? ? Hwd'. discriminate Hwd'.
Qed.

Lemma marks_without_split_params_fails_witness :
  fst (main Samples.quiet Samples.str_other Samples.args Samples.cfg_marks_only
         initial_state) = Raise AssertionError /\
  calls_to extract_model
    (trace (snd (main Samples.quiet Samples.str_other Samples.args
                   Samples.cfg_marks_only initial_state))) = [].
Proof.
  destruct (marks_without_split_params_fails Samples.quiet Samples.str_other
              Samples.args Samples.cfg_marks_only eq_refl eq_refl)
    as [_ [Hnone [_ Hstop]]].
  split; [| exact Hnone].
  rewrite (Hstop "work" ["work/end2end.onnx"]
             (snd (convert_onnx Samples.quiet Samples.args Samples.cfg_marks_only
                     "work" 0 (after_setup Samples.args "work")))
             eq_refl eq_refl).
  reflexivity.
Defined.

(* ================================================================= *)
(** ** The backend stage *)

(** C4.  With the [tensorrt] backend and a list of model parameters, in a
    run that has produced its intermediate files: no compile call has been
    made so far; if the list's length differs from the number of
    intermediate files the run ends with the assertion error in that very
    state, before any compile call; if the lengths agree and the stage
    returns, the compile collaborator has been called exactly once per
    intermediate file, the call at position [i] getting the i-th file and
    the file name of the i-th parameters.  Whatever happens, the stage calls
    the collaborator for the first [k] pairs only, in order, for some [k] up
    to the number of files.  With equal lengths the stage does return when
    every entry is readable and no worker leaves a non-zero flag. *)
Theorem tensorrt_length_check :
  forall (W : world) str_other args deploy_cfg tensorrt_params model_params
         work_dir ret_value onnx_files s1,
    eq_str (backend deploy_cfg) "tensorrt" = true ->
    lookup "tensorrt_params" deploy_cfg = Some (PDict tensorrt_params) ->
    dict_get tensorrt_params "model_params" (PList []) = PList model_params ->
    front W str_other args deploy_cfg initial_state
      = (Ret (work_dir, ret_value, onnx_files), s1) ->
    calls_to onnx2tensorrt (trace s1) = [] /\
    (List.length model_params <> List.length onnx_files ->
     main W str_other args deploy_cfg initial_state = (Raise AssertionError, s1)) /\
    (exists k,
        (k <= List.length onnx_files)%nat /\
        calls_to onnx2tensorrt
          (trace (snd (convert_backend W args deploy_cfg work_dir ret_value
                         onnx_files s1)))
          = map (compile_call args (level_value (a_log_level args)) work_dir ret_value)
              (firstn k (number_from 0 (combine model_params onnx_files)))) /\
    (List.length model_params = List.length onnx_files ->
     (forall backend_files s2,
         convert_backend W args deploy_cfg work_dir ret_value onnx_files s1
           = (Ret backend_files, s2) ->
         calls_to onnx2tensorrt (trace s2)
           = map (compile_call args (level_value (a_log_level args)) work_dir ret_value)
               (number_from 0 (combine model_params onnx_files)) /\
         List.length (calls_to onnx2tensorrt (trace s2)) = List.length onnx_files /\
         backend_files = map (backend_path work_dir) (combine model_params onnx_files)) /\
     (obedient W ->
      Forall compile_entry_ok (combine model_params onnx_files) ->
      exists s2,
        convert_backend W args deploy_cfg work_dir ret_value onnx_files s1
          = (Ret (map (backend_path work_dir) (combine model_params onnx_files)), s2))).
Proof.
  intros W so args cfg tp mps wd rv files s1 Hb Ht Hm Hf.
  split; [apply (front_no_calls_to _ _ _ _ _ _ _ _ onnx2tensorrt Hf); discriminate |].
  split.
  - intros Hlen. destruct (main_after_front _ _ _ _ _ _ _ _ Hf) as [_ [-> [_ Hmain]]].
    rewrite Hmain. unfold deploy, bind.
    rewrite (convert_backend_tensorrt _ _ _ _ _ _ _ _ _ Hb Ht Hm).
    apply Nat.eqb_neq in Hlen. rewrite Hlen. reflexivity.
  - split.
    { destruct (convert_backend_calls_prefix W args cfg tp mps wd rv files s1 Hb Ht Hm)
        as [k [Hk Hc]].
      exists k. split; [exact Hk |].
      unfold calls_to. rewrite Hc, filter_app.
      pose proof (front_no_calls_to _ _ _ _ _ _ _ _ onnx2tensorrt Hf) as Hnone.
      unfold calls_to in Hnone. rewrite Hnone by discriminate.
      destruct (front_Ret _ _ _ _ _ _ _ _ Hf) as [[Hl _] _]. rewrite Hl.
      apply calls_to_compile_calls. }
    intros Hlen. split.
    + intros bfiles s2 H.
      destruct (convert_backend_after_front _ _ _ _ _ _ _ _ _ _ _ _ Hb Ht Hm Hf H)
        as [_ [_ [Hc Hfiles]]].
      split; [exact Hc |]. split; [| exact Hfiles].
      rewrite Hc, length_map, length_number_from, length_combine, Hlen.
      apply Nat.min_id.
    + intros HW Hok.
      destruct (main_after_front _ _ _ _ _ _ _ _ Hf) as [_ [-> _]].
      destruct (front_Ret _ _ _ _ _ _ _ _ Hf) as [Hs1 _].
      exact (convert_backend_obedient W args cfg tp mps wd files _ s1
               HW Hb Ht Hm Hlen Hok Hs1).
Qed.

Lemma tensorrt_length_check_witness :
  main Samples.quiet Samples.str_other Samples.args Samples.cfg_tensorrt_mismatch
    initial_state
  = (Raise AssertionError,
     snd (front Samples.quiet Samples.str_other Samples.args
            Samples.cfg_tensorrt_mismatch initial_state)) /\
  calls_to onnx2tensorrt
    (trace (snd (convert_backend Samples.quiet Samples.args Samples.cfg_tensorrt
                   "work" 0 ["work/end2end.onnx"]
                   (snd (front Samples.quiet Samples.str_other Samples.args
                           Samples.cfg_tensorrt initial_state)))))
  = [mkCall 20 onnx2tensorrt
       [Obj (PStr "work"); Obj (PStr "end2end.engine"); Obj (PInt 0);
        Obj (PStr "deploy.py"); Obj (PStr "work/end2end.onnx")]
       [("device", Obj (PStr "cpu")); ("ret_value", Shared 0)]].
Proof.
  split.
  - refine (proj1 (proj2
      (tensorrt_length_check Samples.quiet Samples.str_other Samples.args
         Samples.cfg_tensorrt_mismatch [("model_params", PList [])] []
         "work" 0%nat ["work/end2end.onnx"] _ eq_refl eq_refl eq_refl _)) _).
    + vm_compute. reflexivity.
    + discriminate.
  - refine (proj1 (proj1 (proj2 (proj2 (proj2
      (tensorrt_length_check Samples.quiet Samples.str_other Samples.args
         Samples.cfg_tensorrt
         [("model_params", PList [PDict [("opt_shape", PInt 1)]])]
         [PDict [("opt_shape", PInt 1)]]
         "work" 0%nat ["work/end2end.onnx"] _ eq_refl eq_refl eq_refl _))) eq_refl)
      ["work/end2end.engine"] _ _)).
    + vm_compute. reflexivity.
    + vm_compute. reflexivity.
Defined.

(** C5.  When the configured backend is not ['tensorrt'], no run calls the
    compile collaborator; in a run that has produced its intermediate files
    the backend stage returns that list unchanged without any event, the
    run continues as the visualization of that list, and (the [codebase]
    being configured) its next worker is the backend visualization with
    exactly the intermediate files as model files. *)
Theorem other_backend_keeps_intermediate_files :
  forall (W : world) str_other args deploy_cfg,
    eq_str (backend deploy_cfg) "tensorrt" = false ->
    calls_to onnx2tensorrt
      (trace (snd (main W str_other args deploy_cfg initial_state))) = [] /\
    (forall work_dir ret_value onnx_files s1,
        front W str_other args deploy_cfg initial_state
          = (Ret (work_dir, ret_value, onnx_files), s1) ->
        convert_backend W args deploy_cfg work_dir ret_value onnx_files s1
          = (Ret onnx_files, s1) /\
        main W str_other args deploy_cfg initial_state
          = visualize W str_other args deploy_cfg ret_value onnx_files s1 /\
        forall codebase,
          lookup "codebase" deploy_cfg = Some codebase ->
          exists rest,
            trace (snd (main W str_other args deploy_cfg initial_state))
              = trace s1
                  ++ Log (level_value INFO)
                       (("visualize " ++ py_str str_other (backend deploy_cfg) ++ " model")
                          ++ " start.")
                  :: Run (backend_visualization str_other args deploy_cfg
                            (level_value (a_log_level args)) ret_value onnx_files)
                         (cells s1)
                  :: rest).
Proof.
  intros W so args cfg Hb. split.
  - destruct (a_work_dir args) as [wd |] eqn:Hwd.
    + destruct (main_sound_other_backend W so args cfg wd Hb Hwd) as [t [Ht HP]].
      unfold calls_to. rewrite Ht, calls_of_app. simpl.
      apply no_calls_to. apply step_calls in HP. exact HP.
    + rewrite main_without_work_dir by exact Hwd. reflexivity.
  - intros wd rv files s1 Hf.
    pose proof (convert_backend_other W args cfg wd rv files s1 Hb) as Hcb.
    destruct (main_after_front _ _ _ _ _ _ _ _ Hf) as [_ [Hrv [_ Hmain]]]. subst rv.
    assert (Hv : main W so args cfg initial_state = visualize W so args cfg 0 files s1).
    { rewrite Hmain. unfold deploy. apply bind_Ret. exact Hcb. }
    split; [exact Hcb |]. split; [exact Hv |].
    intros codebase Hc. rewrite Hv.
    destruct (front_Ret _ _ _ _ _ _ _ _ Hf) as [[Hl _] _]. rewrite <- Hl.
    apply (visualize_starts W so args cfg 0 codebase files s1 Hc).
Qed.

Lemma other_backend_keeps_intermediate_files_witness :
  calls_to onnx2tensorrt
    (trace (snd (main Samples.quiet Samples.str_other Samples.args Samples.cfg_split
                   initial_state))) = [] /\
  convert_backend Samples.quiet Samples.args Samples.cfg_split "work" 0
    ["work/part0.onnx"; "work/part1.onnx"]
    (snd (front Samples.quiet Samples.str_other Samples.args Samples.cfg_split
            initial_state))
  = (Ret ["work/part0.onnx"; "work/part1.onnx"],
     snd (front Samples.quiet Samples.str_other Samples.args Samples.cfg_split
            initial_state)).
Proof.
  destruct (other_backend_keeps_intermediate_files Samples.quiet Samples.str_other
              Samples.args Samples.cfg_split eq_refl) as [Hnone Hrest].
  split; [exact Hnone |].
  refine (proj1 (Hrest "work" 0%nat ["work/part0.onnx"; "work/part1.onnx"] _ _)).
  vm_compute. reflexivity.
Defined.

(** C8.  In a returning backend stage, an entry of the model parameters
    that has no [save_file] gets the file name derived from its
    intermediate file: base name, extension stripped, [.engine] appended.
    That name is the second argument of the entry's compile call, and the
    backend file accumulated for the entry is the name joined under the
    work directory.  Whether or not the stage returns, the loop body
    entered with such an entry launches the compile step under the derived
    name.  For an intermediate file [stem.ext] stored under any directory
    the derived name is [stem.engine]. *)
Theorem engine_name_is_derived :
  forall (W : world) str_other args deploy_cfg tensorrt_params model_params
         work_dir ret_value onnx_files s1 backend_files s2,
    eq_str (backend deploy_cfg) "tensorrt" = true ->
    lookup "tensorrt_params" deploy_cfg = Some (PDict tensorrt_params) ->
    dict_get tensorrt_params "model_params" (PList []) = PList model_params ->
    front W str_other args deploy_cfg initial_state
      = (Ret (work_dir, ret_value, onnx_files), s1) ->
    convert_backend W args deploy_cfg work_dir ret_value onnx_files s1
      = (Ret backend_files, s2) ->
    (forall i d onnx_path,
        nth_error model_params i = Some (PDict d) ->
        lookup "save_file" d = None ->
        nth_error onnx_files i = Some onnx_path ->
        nth_error (calls_to onnx2tensorrt (trace s2)) i
          = Some (mkCall (level_value (a_log_level args)) onnx2tensorrt
                    [Obj (PStr work_dir);
                     Obj (PStr (osp.splitext_root (osp.split_tail onnx_path) ++ ".engine"));
                     Obj (PInt (Z.of_nat i)); Obj (PStr (a_deploy_cfg args));
                     Obj (PStr onnx_path)]
                    [("device", Obj (PStr (a_device args)));
                     ("ret_value", Shared ret_value)]) /\
        nth_error backend_files i
          = Some (osp.join work_dir
                    (osp.splitext_root (osp.split_tail onnx_path) ++ ".engine"))) /\
    (forall model_id d onnx_path pairs acc s,
        lookup "save_file" d = None ->
        exists rest,
          trace (snd (tensorrt_loop W args work_dir ret_value model_id
                        ((PDict d, onnx_path) :: pairs) acc s))
            = trace s
                ++ Log (level_value INFO)
                     (("onnx2tensorrt of " ++ onnx_path) ++ " start.")
                :: Run (mkCall (root_level s) onnx2tensorrt
                          [Obj (PStr work_dir);
                           Obj (PStr (osp.splitext_root (osp.split_tail onnx_path)
                                        ++ ".engine"));
                           Obj (PInt model_id); Obj (PStr (a_deploy_cfg args));
                           Obj (PStr onnx_path)]
                          [("device", Obj (PStr (a_device args)));
                           ("ret_value", Shared ret_value)]) (cells s)
                :: rest) /\
    (forall dir stem ext,
        has_char osp.sep stem = false ->
        has_char osp.sep ext = false ->
        has_char osp.extsep ext = false ->
        has_stem stem = true ->
        (osp.splitext_root (osp.split_tail (osp.join dir (stem ++ String osp.extsep ext)))
           ++ ".engine")%string
          = (stem ++ ".engine")%string).
Proof.
  intros W so args cfg tp mps wd rv files s1 bfiles s2 Hb Ht Hm Hf H.
  split; [| split; [intros; apply tensorrt_loop_starts; assumption
                   | intros dir stem ext; apply engine_name_of_joined]].
  intros i d path Hi Hd Hp.
  destruct (convert_backend_after_front _ _ _ _ _ _ _ _ _ _ _ _ Hb Ht Hm Hf H)
    as [_ [_ [Hc Hfiles]]].
  pose proof (nth_error_combine _ _ _ _ _ Hi Hp) as Hpair.
  assert (Hs : compile_save_file (PDict d) path = PStr (engine_name path)).
  { unfold compile_save_file, dict_get. rewrite Hd. reflexivity. }
  split.
  - rewrite Hc. erewrite map_nth_error
      by (apply nth_error_number_from; exact Hpair).
    unfold compile_call. cbn [fst snd]. rewrite Hs. reflexivity.
  - rewrite Hfiles. erewrite map_nth_error by exact Hpair.
    unfold backend_path. cbn [fst snd]. rewrite Hs. reflexivity.
Qed.

Lemma engine_name_is_derived_witness :
  fst (convert_backend Samples.quiet Samples.args Samples.cfg_tensorrt "work" 0
         ["work/end2end.onnx"]
         (snd (front Samples.quiet Samples.str_other Samples.args Samples.cfg_tensorrt
                 initial_state)))
    = Ret ["work/end2end.engine"] /\
  nth_error
    (calls_to onnx2tensorrt
       (trace (snd (convert_backend Samples.quiet Samples.args Samples.cfg_tensorrt
                      "work" 0 ["work/end2end.onnx"]
                      (snd (front Samples.quiet Samples.str_other Samples.args
                              Samples.cfg_tensorrt initial_state)))))) 0
    = Some (mkCall 20 onnx2tensorrt
              [Obj (PStr "work"); Obj (PStr "end2end.engine"); Obj (PInt 0);
               Obj (PStr "deploy.py"); Obj (PStr "work/end2end.onnx")]
              [("device", Obj (PStr "cpu")); ("ret_value", Shared 0)]).
Proof.
  split; [vm_compute; reflexivity |].
  refine (proj1
    (proj1
       (engine_name_is_derived Samples.quiet Samples.str_other Samples.args
          Samples.cfg_tensorrt
          [("model_params", PList [PDict [("opt_shape", PInt 1)]])]
          [PDict [("opt_shape", PInt 1)]]
          "work" 0%nat ["work/end2end.onnx"]
          (snd (front Samples.quiet Samples.str_other Samples.args Samples.cfg_tensorrt
                  initial_state))
          ["work/end2end.engine"]
          (snd (convert_backend Samples.quiet Samples.args Samples.cfg_tensorrt "work" 0
                  ["work/end2end.onnx"]
                  (snd (front Samples.quiet Samples.str_other Samples.args
                          Samples.cfg_tensorrt initial_state))))
          eq_refl eq_refl eq_refl _ _)
       0%nat [("opt_shape", PInt 1)] "work/end2end.onnx" eq_refl eq_refl eq_refl)).
  - vm_compute. reflexivity.
  - vm_compute. reflexivity.
Defined.

(* ================================================================= *)
(** ** The two visualizations *)

(** C7, as stated, fails.  With the backend configured as ['pytorch'] the
    run completes, makes its two visualization calls, and both write
    [output_pytorch.jpg]. *)
Lemma pytorch_backend_shares_output_file :
  fst (main Samples.quiet Samples.str_other Samples.args Samples.cfg_pytorch
         initial_state) = Ret tt /\
  map output_file
    (calls_to inference_model
       (trace (snd (main Samples.quiet Samples.str_other Samples.args
                      Samples.cfg_pytorch initial_state))))
    = [Some "output_pytorch.jpg"; Some "output_pytorch.jpg"].
Proof. split; vm_compute; reflexivity. Qed.

(** C7, amended.  A run that completes has made exactly two visualization
    calls: first the backend files (the result of the backend stage) with
    the configured backend and output file [output_<backend>.jpg], then the
    original checkpoint with backend ['pytorch'] and output file
    [output_pytorch.jpg].  The two file names differ whenever the configured
    backend does not read ['pytorch']. *)
Theorem two_visualizations_on_success :
  forall (W : world) str_other args deploy_cfg s,
    main W str_other args deploy_cfg initial_state = (Ret tt, s) ->
    exists work_dir onnx_files s1 backend_files s2,
      front W str_other args deploy_cfg initial_state
        = (Ret (work_dir, 0%nat, onnx_files), s1) /\
      convert_backend W args deploy_cfg work_dir 0 onnx_files s1
        = (Ret backend_files, s2) /\
      calls_to inference_model (trace s)
        = [backend_visualization str_other args deploy_cfg
             (level_value (a_log_level args)) 0 backend_files;
           reference_visualization args deploy_cfg (level_value (a_log_level args)) 0] /\
      map output_file (calls_to inference_model (trace s))
        = [Some ("output_" ++ py_str str_other (backend deploy_cfg) ++ ".jpg")%string;
           Some "output_pytorch.jpg"] /\
      (py_str str_other (backend deploy_cfg) <> "pytorch" ->
       ("output_" ++ py_str str_other (backend deploy_cfg) ++ ".jpg")%string
         <> "output_pytorch.jpg").
Proof.
  intros W so args cfg s H.
  destruct (a_work_dir args) as [wd |] eqn:Hwd;
    [| rewrite main_without_work_dir in H by exact Hwd; discriminate H].
  rewrite (main_fresh W so args cfg wd Hwd) in H.
  apply bind_Ret_inv in H. destruct H as [files [s1 [Hi Hd]]].
  assert (Hf : front W so args cfg initial_state = (Ret (wd, 0%nat, files), s1)).
  { rewrite (front_fresh W so args cfg wd Hwd). erewrite bind_Ret by exact Hi.
    reflexivity. }
  unfold deploy in Hd. apply bind_Ret_inv in Hd. destruct Hd as [bfiles [s2 [Hcb Hv]]].
  destruct (front_Ret _ _ _ _ _ _ _ _ Hf) as [Hok1 _].
  destruct (convert_backend_sound W args cfg wd (level_value (a_log_level args))
              files s1 Hok1) as [t [Ht [HP Hok2]]].
  rewrite Hcb in Ht, Hok2. cbn [fst snd] in Ht, Hok2.
  assert (Hnone : calls_to inference_model (trace s2) = []).
  { rewrite Ht, calls_to_app.
    rewrite (front_no_calls_to _ _ _ _ _ _ _ _ inference_model Hf) by discriminate.
    apply no_calls_to. apply step_calls in HP.
    eapply Forall_impl; [| exact HP]. simpl. intros c Hc. rewrite Hc. discriminate. }
  apply visualize_Ret in Hv. destruct Hv as [_ [Hc _]].
  destruct Hok2 as [Hl _]. rewrite Hl in Hc.
  assert (Hcalls : calls_to inference_model (trace s)
            = [backend_visualization so args cfg (level_value (a_log_level args)) 0 bfiles;
               reference_visualization args cfg (level_value (a_log_level args)) 0]).
  { unfold calls_to in *. rewrite Hc, filter_app, Hnone. reflexivity. }
  exists wd, files, s1, bfiles, s2.
  split; [exact Hf |]. split; [exact Hcb |]. split; [exact Hcalls |].
  split; [rewrite Hcalls; reflexivity |].
  intros Hne Heq. apply Hne. apply output_file_pytorch. exact Heq.
Qed.

Lemma two_visualizations_on_success_witness :
  exists work_dir onnx_files s1 backend_files s2,
    front Samples.quiet Samples.str_other Samples.args Samples.cfg_tensorrt initial_state
      = (Ret (work_dir, 0%nat, onnx_files), s1) /\
    convert_backend Samples.quiet Samples.args Samples.cfg_tensorrt work_dir 0
      onnx_files s1 = (Ret backend_files, s2) /\
    calls_to inference_model
      (trace (snd (main Samples.quiet Samples.str_other Samples.args
                     Samples.cfg_tensorrt initial_state)))
      = [backend_visualization Samples.str_other Samples.args Samples.cfg_tensorrt
           20 0 backend_files;
         reference_visualization Samples.args Samples.cfg_tensorrt 20 0] /\
    map output_file
      (calls_to inference_model
         (trace (snd (main Samples.quiet Samples.str_other Samples.args
                        Samples.cfg_tensorrt initial_state))))
      = [Some "output_tensorrt.jpg"; Some "output_pytorch.jpg"] /\
    ("tensorrt" <> "pytorch" -> "output_tensorrt.jpg" <> "output_pytorch.jpg").
Proof.
  refine (two_visualizations_on_success Samples.quiet Samples.str_other Samples.args
            Samples.cfg_tensorrt
            (snd (main Samples.quiet Samples.str_other Samples.args
                    Samples.cfg_tensorrt initial_state)) _).
  vm_compute. reflexivity.
Defined.

(* ================================================================= *)
(** ** Runs seen through their first half *)

(** [main] is [front] followed by the backend and visualization stages. *)
Lemma main_via_front W str_other args deploy_cfg :
  main W str_other args deploy_cfg initial_state
    = match front W str_other args deploy_cfg initial_state with
      | (Ret (work_dir, ret_value, onnx_files), s1) =>
          deploy W str_other args deploy_cfg work_dir ret_value onnx_files s1
      | (Raise e, s1) => (Raise e, s1)
      end.
Proof.
  unfold main, front, bind.
  destruct (setup args initial_state) as [[[wd rv] | e] s0]; [| reflexivity].
  destruct (intermediate_files W str_other args deploy_cfg wd rv s0)
    as [[files | e] s1]; reflexivity.
Qed.

(** The whole run, for any set [Q] of collaborators that covers both
    halves. *)
Lemma main_sound_gen W str_other args deploy_cfg work_dir (Q : collaborator -> Prop) :
  sound (level_value (a_log_level args)) (step_event (level_value (a_log_level args)) Q)
    (intermediate_files W str_other args deploy_cfg work_dir 0) ->
  (forall onnx_files,
      sound (level_value (a_log_level args))
        (step_event (level_value (a_log_level args)) Q)
        (deploy W str_other args deploy_cfg work_dir 0 onnx_files)) ->
  a_work_dir args = Some work_dir ->
  exists t,
    trace (snd (main W str_other args deploy_cfg initial_state))
      = [Mkdir work_dir; NewValue 0] ++ t /\
    Forall (step_event (level_value (a_log_level args)) Q) t.
Proof.
  intros H1 H2 Hwd. rewrite (main_fresh W str_other args deploy_cfg work_dir Hwd).
  destruct (sound_bind (level_value (a_log_level args)) _ _ _ H1 H2
              _ (flag_ok_after_setup args work_dir)) as [t [Ht [HP _]]].
  exists t. split; assumption.
Qed.

Lemma main_no_calls_to W str_other args deploy_cfg (Q : collaborator -> Prop) f :
  (forall work_dir,
      sound (level_value (a_log_level args))
        (step_event (level_value (a_log_level args)) Q)
        (intermediate_files W str_other args deploy_cfg work_dir 0)) ->
  (forall work_dir onnx_files,
      sound (level_value (a_log_level args))
        (step_event (level_value (a_log_level args)) Q)
        (deploy W str_other args deploy_cfg work_dir 0 onnx_files)) ->
  (forall g, Q g -> g <> f) ->
  calls_to f (trace (snd (main W str_other args deploy_cfg initial_state))) = [].
Proof.
  intros H1 H2 HQ. destruct (a_work_dir args) as [wd |] eqn:Hwd.
  - destruct (main_sound_gen W str_other args deploy_cfg wd Q (H1 wd) (H2 wd) Hwd)
      as [t [Ht HP]].
    unfold calls_to. rewrite Ht, calls_of_app. simpl.
    apply no_calls_to. apply step_calls in HP.
    eapply Forall_impl; [| exact HP]. intros c Hc. apply HQ. exact Hc.
  - rewrite main_without_work_dir by exact Hwd. reflexivity.
Qed.

(** A computation that leaves the state alone and does not call [exit()]
    is sound for every event predicate. *)
Lemma sound_stateless {A} L P (m : M A) :
  (forall s, exists r, m s = (r, s) /\ not_exit r) -> sound L P m.
Proof.
  intros H s Hs. destruct (H s) as [r [Hm Hr]]. rewrite Hm. simpl.
  exists []. rewrite app_nil_r. split; [reflexivity |]. split; [constructor |].
  destruct r as [a | e]; [exact Hs |]. destruct e; try exact I. contradiction.
Qed.

(* ================================================================= *)
(** ** Arguments and configuration that stop the run *)

(** X1.  Without [--work-dir] the run ends with [TypeError] at
    [osp.abspath(None)]: the logger level has been set, but no directory is
    created, no flag allocated and no worker launched. *)
Theorem missing_work_dir_fails_first :
  forall (W : world) str_other args deploy_cfg,
    a_work_dir args = None ->
    main W str_other args deploy_cfg initial_state
      = (Raise TypeError, mkState [] (level_value (a_log_level args)) []).
Proof. intros. apply main_without_work_dir. assumption. Qed.

Lemma missing_work_dir_fails_first_witness :
  main Samples.quiet Samples.str_other Samples.args_without_work_dir Samples.cfg_default
    initial_state
  = (Raise TypeError, mkState [] 20 []).
Proof.
  exact (missing_work_dir_fails_first Samples.quiet Samples.str_other
           Samples.args_without_work_dir Samples.cfg_default eq_refl).
Defined.

(** X2.  A configuration without [pytorch2onnx], or whose [pytorch2onnx]
    has no [save_file], ends the run with [KeyError] on that key right
    after the setup: the work directory and the flag exist, no worker has
    been launched. *)
Theorem missing_export_name_fails_before_any_step :
  forall (W : world) str_other args deploy_cfg work_dir,
    a_work_dir args = Some work_dir ->
    (lookup "pytorch2onnx" deploy_cfg = None ->
     main W str_other args deploy_cfg initial_state
       = (Raise (KeyError "pytorch2onnx"), after_setup args work_dir)) /\
    (forall d,
        lookup "pytorch2onnx" deploy_cfg = Some (PDict d) ->
        lookup "save_file" d = None ->
        main W str_other args deploy_cfg initial_state
          = (Raise (KeyError "save_file"), after_setup args work_dir)).
Proof.
  intros W so args cfg wd Hwd. rewrite (main_fresh W so args cfg wd Hwd).
  split.
  - intros H. unfold intermediate_files, convert_onnx, bind, lift, subscript.
    rewrite H. reflexivity.
  - intros d H Hd. unfold intermediate_files, convert_onnx, bind, lift, subscript.
    rewrite H, Hd. reflexivity.
Qed.

Lemma missing_export_name_fails_before_any_step_witness :
  main Samples.quiet Samples.str_other Samples.args Samples.cfg_without_export
    initial_state
  = (Raise (KeyError "pytorch2onnx"), after_setup Samples.args "work").
Proof.
  exact (proj1 (missing_export_name_fails_before_any_step Samples.quiet
                  Samples.str_other Samples.args Samples.cfg_without_export "work"
                  eq_refl) eq_refl).
Defined.

(** The export stage when the configured file name is not a string: the
    step runs, and only then does [osp.join] refuse the name. *)
Lemma convert_onnx_non_string W args deploy_cfg work_dir ret_value d v s :
  lookup "pytorch2onnx" deploy_cfg = Some (PDict d) ->
  lookup "save_file" d = Some v ->
  (forall b, v <> PStr b) ->
  convert_onnx W args deploy_cfg work_dir ret_value s
    = match create_process W "torch2onnx" torch2onnx
              (c_args (export_call args deploy_cfg (root_level s) work_dir ret_value))
              (c_kwargs (export_call args deploy_cfg (root_level s) work_dir ret_value))
              (Some ret_value) s with
      | (Ret _, s1) => (Raise TypeError, s1)
      | (Raise e, s1) => (Raise e, s1)
      end.
Proof.
  intros Hp Hd Hv. unfold convert_onnx.
  erewrite bind_Ret by (unfold lift, subscript; rewrite Hp; reflexivity).
  erewrite bind_Ret by (unfold lift, subscript; rewrite Hd; reflexivity).
  assert (Hname : onnx_save_file deploy_cfg = v).
  { unfold onnx_save_file, field, dict_get. rewrite Hp, Hd. reflexivity. }
  unfold export_call. cbn [c_args c_kwargs]. rewrite Hname.
  unfold bind at 1.
  destruct (create_process _ _ _ _ _ _ s) as [[u | e] s1]; [| reflexivity].
  destruct v; try reflexivity. exfalso. eapply Hv. reflexivity.
Qed.

(** X3.  When the configured export file name is not a string, the export
    worker is still launched, with that value as its third argument, and it
    is the only worker of the run: the run ends with [TypeError] at
    [osp.join] once the step has succeeded (always so when no worker leaves
    a non-zero flag), or at the step through [exit()]. *)
Theorem non_string_export_name_fails_after_export :
  forall (W : world) str_other args deploy_cfg work_dir d v,
    a_work_dir args = Some work_dir ->
    lookup "pytorch2onnx" deploy_cfg = Some (PDict d) ->
    lookup "save_file" d = Some v ->
    (forall b, v <> PStr b) ->
    calls_of (trace (snd (main W str_other args deploy_cfg initial_state)))
      = [export_call args deploy_cfg (level_value (a_log_level args)) work_dir 0] /\
    nth_error
      (c_args (export_call args deploy_cfg (level_value (a_log_level args)) work_dir 0)) 2
      = Some (Obj v) /\
    (fst (main W str_other args deploy_cfg initial_state) = Raise TypeError \/
     fst (main W str_other args deploy_cfg initial_state) = Raise (SystemExit None)) /\
    (obedient W ->
     fst (main W str_other args deploy_cfg initial_state) = Raise TypeError).
Proof.
  intros W so args cfg wd d v Hwd Hp Hd Hv.
  assert (Hmain : main W so args cfg initial_state
            = match create_process W "torch2onnx" torch2onnx
                      (c_args (export_call args cfg (level_value (a_log_level args)) wd 0))
                      (c_kwargs (export_call args cfg (level_value (a_log_level args)) wd 0))
                      (Some 0%nat) (after_setup args wd) with
              | (Ret _, s1) => (Raise TypeError, s1)
              | (Raise e, s1) => (Raise e, s1)
              end).
  { rewrite (main_fresh W so args cfg wd Hwd). unfold intermediate_files.
    unfold bind at 1. unfold bind at 1.
    rewrite (convert_onnx_non_string W args cfg wd 0 d v _ Hp Hd Hv).
    change (root_level (after_setup args wd)) with (level_value (a_log_level args)).
    destruct (create_process _ _ _ _ _ _ (after_setup args wd)) as [[u | e] s1];
      reflexivity. }
  rewrite Hmain. clear Hmain.
  match goal with
  | |- context [create_process W ?n ?t ?a ?k ?r ?s] =>
      destruct (create_process_calls W n t a k r s) as [_ Hc];
      pose proof (create_process_flag W n t a k 0 s) as Hflag;
      pose proof (fun HW => create_process_obedient W HW (level_value (a_log_level args))
                              n t a k s (flag_ok_after_setup args wd)) as Hob
  end.
  cbv zeta in Hflag. cbn [after_setup cells write_cells nth_error] in Hflag.
  assert (Hname : onnx_save_file cfg = v).
  { unfold onnx_save_file, field, dict_get. rewrite Hp, Hd. reflexivity. }
  split; [| split; [| split]].
  - destruct (create_process _ _ _ _ _ _ (after_setup args wd)) as [[u | e] s1];
      cbn [fst snd] in *; exact Hc.
  - unfold export_call. cbn [c_args nth_error]. rewrite Hname. reflexivity.
  - rewrite Hflag. destruct (nonzero _); [right | left]; reflexivity.
  - intros HW. destruct (Hob HW) as [s1 [Hrun _]]. rewrite Hrun. reflexivity.
Qed.

Lemma non_string_export_name_fails_after_export_witness :
  calls_of (trace (snd (main Samples.quiet Samples.str_other Samples.args
                          Samples.cfg_numeric_save_file initial_state)))
    = [mkCall 20 torch2onnx
         [Obj (PStr "demo.jpg"); Obj (PStr "work"); Obj (PInt 3);
          Obj (PStr "deploy.py"); Obj (PStr "model.py"); Obj (PStr "model.pth")]
         [("device", Obj (PStr "cpu")); ("ret_value", Shared 0)]].
Proof.
  refine (proj1 (non_string_export_name_fails_after_export Samples.quiet
                   Samples.str_other Samples.args Samples.cfg_numeric_save_file "work"
                   [("save_file", PInt 3)] (PInt 3) eq_refl eq_refl eq_refl _)).
  intros b. discriminate.
Defined.

(** Without [apply_marks] the split stage hands its input on, untouched. *)
Lemma split_model_without_marks W str_other deploy_cfg work_dir ret_value onnx_files s :
  truthy (dict_get deploy_cfg "apply_marks" (PBool false)) = false ->
  split_model W str_other deploy_cfg work_dir ret_value onnx_files s = (Ret onnx_files, s).
Proof. intros Hm. unfold split_model. rewrite Hm. reflexivity. Qed.

(** X4.  When [apply_marks] is absent or false-like, no run calls the split
    collaborator, whatever [split_params] holds; a run that gets past the
    export has made the export call only, and hands on the single exported
    file, the configured name joined under the work directory. *)
Theorem no_marks_no_split :
  forall (W : world) str_other args deploy_cfg,
    truthy (dict_get deploy_cfg "apply_marks" (PBool false)) = false ->
    calls_to extract_model
      (trace (snd (main W str_other args deploy_cfg initial_state))) = [] /\
    (forall work_dir ret_value onnx_files s1,
        front W str_other args deploy_cfg initial_state
          = (Ret (work_dir, ret_value, onnx_files), s1) ->
        onnx_files = [exported_file deploy_cfg work_dir] /\
        (exists name, onnx_save_file deploy_cfg = PStr name) /\
        calls_of (trace s1)
          = [export_call args deploy_cfg (level_value (a_log_level args))
               work_dir ret_value]).
Proof.
  intros W so args cfg Hm. split.
  - apply (main_no_calls_to W so args cfg (fun f => f <> extract_model)).
    + intros wd. unfold intermediate_files. apply sound_bind.
      * eapply sound_weaken; [| apply convert_onnx_sound].
        intros e. apply step_event_weaken. intros f ->. discriminate.
      * intros files. apply sound_stateless. intros s. exists (Ret files).
        split; [apply split_model_without_marks; exact Hm | exact I].
    + intros wd files. eapply sound_weaken; [| apply deploy_sound].
      intros e. apply step_event_weaken. intros f [-> | ->]; discriminate.
    + intros g Hg. exact Hg.
  - intros wd rv files s1 Hf.
    destruct (main_after_front _ _ _ _ _ _ _ _ Hf) as [_ [-> [H _]]].
    unfold intermediate_files in H. apply bind_Ret_inv in H.
    destruct H as [files0 [s0 [Hexp Hsplit]]].
    rewrite (split_model_without_marks _ _ _ _ _ _ _ Hm) in Hsplit.
    inversion Hsplit; subst; clear Hsplit.
    apply convert_onnx_Ret in Hexp. destruct Hexp as [Hname [Hfiles [_ Hc]]].
    split; [exact Hfiles |]. split; [exact Hname |]. exact Hc.
Qed.

Lemma no_marks_no_split_witness :
  calls_to extract_model
    (trace (snd (main Samples.quiet Samples.str_other Samples.args Samples.cfg_default
                   initial_state))) = [] /\
  ["work/end2end.onnx"] = [exported_file Samples.cfg_default "work"].
Proof.
  destruct (no_marks_no_split Samples.quiet Samples.str_other Samples.args
              Samples.cfg_default eq_refl) as [Hnone Hfront].
  split; [exact Hnone |].
  refine (proj1 (Hfront "work" 0%nat ["work/end2end.onnx"]
                   (snd (front Samples.quiet Samples.str_other Samples.args
                           Samples.cfg_default initial_state)) _)).
  vm_compute. reflexivity.
Defined.

(** The backend stage for [tensorrt] without a [tensorrt_params] section. *)
Lemma convert_backend_without_params W args deploy_cfg work_dir ret_value onnx_files s :
  eq_str (backend deploy_cfg) "tensorrt" = true ->
  has_key "tensorrt_params" deploy_cfg = false ->
  convert_backend W args deploy_cfg work_dir ret_value onnx_files s
    = (Raise AssertionError, s).
Proof. intros Hb Hk. unfold convert_backend. rewrite Hb, Hk. reflexivity. Qed.

(** X5.  With the [tensorrt] backend and no [tensorrt_params] section, no
    run calls the compile collaborator or the inference collaborator; a run
    that has produced its intermediate files ends with the assertion error
    in the state the split stage left. *)
Theorem tensorrt_without_params_fails :
  forall (W : world) str_other args deploy_cfg,
    eq_str (backend deploy_cfg) "tensorrt" = true ->
    has_key "tensorrt_params" deploy_cfg = false ->
    calls_to onnx2tensorrt
      (trace (snd (main W str_other args deploy_cfg initial_state))) = [] /\
    calls_to inference_model
      (trace (snd (main W str_other args deploy_cfg initial_state))) = [] /\
    (forall work_dir ret_value onnx_files s1,
        front W str_other args deploy_cfg initial_state
          = (Ret (work_dir, ret_value, onnx_files), s1) ->
        main W str_other args deploy_cfg initial_state = (Raise AssertionError, s1)).
Proof.
  intros W so args cfg Hb Hk.
  assert (Hsound : forall wd files,
            sound (level_value (a_log_level args))
              (step_event (level_value (a_log_level args))
                 (fun f => f = torch2onnx \/ f = extract_model))
              (deploy W so args cfg wd 0 files)).
  { intros wd files. apply sound_stateless. intros s. exists (Raise AssertionError).
    split; [| exact I]. unfold deploy.
    apply bind_Raise. apply convert_backend_without_params; assumption. }
  split; [| split].
  - apply (main_no_calls_to W so args cfg (fun f => f = torch2onnx \/ f = extract_model)).
    + intros wd. apply intermediate_files_sound.
    + exact Hsound.
    + intros g [-> | ->]; discriminate.
  - apply (main_no_calls_to W so args cfg (fun f => f = torch2onnx \/ f = extract_model)).
    + intros wd. apply intermediate_files_sound.
    + exact Hsound.
    + intros g [-> | ->]; discriminate.
  - intros wd rv files s1 Hf. rewrite main_via_front, Hf. unfold deploy.
    apply bind_Raise. apply convert_backend_without_params; assumption.
Qed.

Lemma tensorrt_without_params_fails_witness :
  main Samples.quiet Samples.str_other Samples.args Samples.cfg_tensorrt_without_params
    initial_state
  = (Raise AssertionError,
     snd (front Samples.quiet Samples.str_other Samples.args
            Samples.cfg_tensorrt_without_params initial_state)).
Proof.
  refine (proj2 (proj2
    (tensorrt_without_params_fails Samples.quiet Samples.str_other Samples.args
       Samples.cfg_tensorrt_without_params eq_refl eq_refl))
    "work" 0%nat ["work/end2end.onnx"] _ _).
  vm_compute. reflexivity.
Defined.

(** The visualization stage without a [codebase] entry. *)
Lemma visualize_without_codebase W str_other args deploy_cfg ret_value backend_files s :
  lookup "codebase" deploy_cfg = None ->
  visualize W str_other args deploy_cfg ret_value backend_files s
    = (Raise (KeyError "codebase"), s).
Proof.
  intros Hc. unfold visualize, bind, lift, subscript. rewrite Hc. reflexivity.
Qed.

(** X6.  [codebase] is only read after the conversion stages: without it
    no run ever calls the inference collaborator, and a run whose export,
    split and backend stages have all succeeded ends with [KeyError] on
    ['codebase'], the converted files being left behind. *)
Theorem missing_codebase_fails_late :
  forall (W : world) str_other args deploy_cfg,
    lookup "codebase" deploy_cfg = None ->
    calls_to inference_model
      (trace (snd (main W str_other args deploy_cfg initial_state))) = [] /\
    (forall work_dir ret_value onnx_files s1 backend_files s2,
        front W str_other args deploy_cfg initial_state
          = (Ret (work_dir, ret_value, onnx_files), s1) ->
        convert_backend W args deploy_cfg work_dir ret_value onnx_files s1
          = (Ret backend_files, s2) ->
        main W str_other args deploy_cfg initial_state
          = (Raise (KeyError "codebase"), s2)).
Proof.
  intros W so args cfg Hc. split.
  - apply (main_no_calls_to W so args cfg (fun f => f <> inference_model)).
    + intros wd. eapply sound_weaken; [| apply intermediate_files_sound].
      intros e. apply step_event_weaken. intros f [-> | ->]; discriminate.
    + intros wd files. unfold deploy. apply sound_bind.
      * eapply sound_weaken; [| apply convert_backend_sound].
        intros e. apply step_event_weaken. intros f ->. discriminate.
      * intros bfiles. apply sound_stateless. intros s.
        exists (Raise (KeyError "codebase")).
        split; [apply visualize_without_codebase; exact Hc | exact I].
    + intros g Hg. exact Hg.
  - intros wd rv files s1 bfiles s2 Hf Hb.
    rewrite main_via_front, Hf. unfold deploy. erewrite bind_Ret by exact Hb.
    apply visualize_without_codebase. exact Hc.
Qed.

Lemma missing_codebase_fails_late_witness :
  fst (main Samples.quiet Samples.str_other Samples.args Samples.cfg_without_codebase
         initial_state) = Raise (KeyError "codebase") /\
  calls_of (trace (snd (main Samples.quiet Samples.str_other Samples.args
                          Samples.cfg_without_codebase initial_state)))
    = [export_call Samples.args Samples.cfg_without_codebase 20 "work" 0].
Proof.
  split; [| vm_compute; reflexivity].
  rewrite (proj2 (missing_codebase_fails_late Samples.quiet Samples.str_other
                    Samples.args Samples.cfg_without_codebase eq_refl)
             "work" 0%nat ["work/end2end.onnx"]
             (snd (front Samples.quiet Samples.str_other Samples.args
                     Samples.cfg_without_codebase initial_state))
             ["work/end2end.onnx"]
             (snd (front Samples.quiet Samples.str_other Samples.args
                     Samples.cfg_without_codebase initial_state))).
  - reflexivity.
  - vm_compute. reflexivity.
  - vm_compute. reflexivity.
Defined.

(* ================================================================= *)
(** ** What the runner reads from the flag *)

Lemma nonzero_false_iff v : nonzero v = false <-> exists sign, v = S754_zero sign.
Proof.
  unfold nonzero, SFeqb, positive_zero. split.
  - destruct v as [sg | sg | | sg m e]; simpl; try discriminate.
    + intros _. exists sg. reflexivity.
    + destruct sg; discriminate.
    + destruct sg; discriminate.
  - intros [sg ->]. reflexivity.
Qed.

Lemma nth_error_write_cells w cs : forall i r,
  nth_error (write_cells w i cs) r
    = match nth_error cs r with
      | Some c => Some (match w (i + r)%nat with Some v => v | None => c end)
      | None => None
      end.
Proof.
  induction cs as [| c cs IH]; intros i r; destruct r as [| r]; simpl; try reflexivity.
  - rewrite Nat.add_0_r. reflexivity.
  - rewrite IH. replace (S i + r)%nat with (i + S r)%nat by lia. reflexivity.
Qed.

(** X7.  The outcome of a step is read from the flag alone, after the
    worker has exited: the step passes exactly when the flag is one of the
    two zeros (so [-0.0] passes, NaN and infinities fail).  A passing step
    returns after the line [<name> success.]; a failing one logs
    [<name> failed.] at error level and leaves through [exit()] with no
    code.  Nothing else is logged or run. *)
Theorem step_outcome_follows_flag :
  forall (W : world) name target args kwargs r s v,
    nth_error (cells_after W name target args kwargs s) r = Some v ->
    (nonzero v = false <-> exists sign, v = S754_zero sign) /\
    create_process W name target args kwargs (Some r) s
      = (if nonzero v then Raise (SystemExit None) else Ret tt,
         mkState (cells_after W name target args kwargs s) (root_level s)
           (trace s
              ++ [Log (level_value INFO) (name ++ " start.");
                  Run (mkCall (root_level s) target args kwargs) (cells s);
                  if nonzero v
                  then Log (level_value ERROR) (name ++ " failed.")
                  else Log (level_value INFO) (name ++ " success.")])).
Proof.
  intros W name target args kwargs r s v Hv.
  split; [apply nonzero_false_iff |].
  rewrite create_process_flag. unfold cells_after in *. rewrite Hv.
  destruct (nonzero v); rewrite <- !app_assoc; reflexivity.
Qed.

Lemma step_outcome_follows_flag_witness :
  fst (create_process Samples.writes_nan "torch2onnx" torch2onnx [] [] (Some 0%nat)
         (after_setup Samples.args "work")) = Raise (SystemExit None).
Proof.
  rewrite (proj2 (step_outcome_follows_flag Samples.writes_nan "torch2onnx" torch2onnx
                    [] [] 0%nat (after_setup Samples.args "work") S754_nan eq_refl)).
  reflexivity.
Defined.

(** X8.  A worker that exits without writing the flag (a crash before the
    collaborator reports, for instance) is taken for a success: if the flag
    compared equal to zero at launch and the worker left it alone, the step
    returns after its success line, with the flag unchanged. *)
Theorem untouched_flag_counts_as_success :
  forall (W : world) name target args kwargs r s v,
    nth_error (cells s) r = Some v ->
    nonzero v = false ->
    W (trace s ++ [Log (level_value INFO) (name ++ " start.")])
      (mkCall (root_level s) target args kwargs) (cells s) r = None ->
    fst (create_process W name target args kwargs (Some r) s) = Ret tt /\
    last (trace (snd (create_process W name target args kwargs (Some r) s))) (Mkdir "")
      = Log (level_value INFO) (name ++ " success.") /\
    nth_error (cells (snd (create_process W name target args kwargs (Some r) s))) r
      = Some v.
Proof.
  intros W name target args kwargs r s v Hc Hv Hw.
  assert (Hafter : nth_error (cells_after W name target args kwargs s) r = Some v).
  { unfold cells_after. rewrite nth_error_write_cells, Hc. cbn [Nat.add].
    rewrite Hw. reflexivity. }
  rewrite create_process_flag. fold (cells_after W name target args kwargs s).
  rewrite Hafter, Hv. cbn [fst snd trace cells].
  split; [reflexivity |]. split; [apply last_last | exact Hafter].
Qed.

Lemma untouched_flag_counts_as_success_witness :
  fst (create_process Samples.quiet "torch2onnx" torch2onnx [] [] (Some 0%nat)
         (after_setup Samples.args "work")) = Ret tt.
Proof.
  exact (proj1 (untouched_flag_counts_as_success Samples.quiet "torch2onnx" torch2onnx
                  [] [] 0%nat (after_setup Samples.args "work") positive_zero
                  eq_refl eq_refl eq_refl)).
Defined.

(** X9.  A run of [main] ends through [exit()] only right after a failed
    step: the exit code is [None] (exit status 0), the flag is non-zero, and
    the last two events of the run are the worker run and its error line,
    so no collaborator is called after the step that failed. *)
Theorem exit_only_after_failed_step :
  forall (W : world) str_other args deploy_cfg code,
    fst (main W str_other args deploy_cfg initial_state) = Raise (SystemExit code) ->
    code = None /\
    exit_status (fst (main W str_other args deploy_cfg initial_state)) = 0 /\
    (exists t c seen name,
        trace (snd (main W str_other args deploy_cfg initial_state))
          = t ++ [Run c seen; Log (level_value ERROR) (name ++ " failed.")]) /\
    (exists v,
        cells (snd (main W str_other args deploy_cfg initial_state)) = [v] /\
        nonzero v = true).
Proof.
  intros W so args cfg code H.
  destruct (main_exit_is_last_step W so args cfg code H) as [Hc [Hl Hv]].
  split; [exact Hc |]. split; [| split; [exact Hl | exact Hv]].
  rewrite H, Hc. reflexivity.
Qed.

Lemma exit_only_after_failed_step_witness :
  exists t c seen name,
    trace (snd (main Samples.failing Samples.str_other Samples.args Samples.cfg_split
                  initial_state))
      = t ++ [Run c seen; Log (level_value ERROR) (name ++ " failed.")].
Proof.
  refine (proj1 (proj2 (proj2
    (exit_only_after_failed_step Samples.failing Samples.str_other Samples.args
       Samples.cfg_split None _)))).
  vm_compute. reflexivity.
Defined.

(* ================================================================= *)
(** ** Runs that complete *)

Lemma visualize_obedient W str_other args deploy_cfg codebase backend_files L s :
  obedient W ->
  lookup "codebase" deploy_cfg = Some codebase ->
  flag_ok L s ->
  exists s1,
    visualize W str_other args deploy_cfg 0 backend_files s = (Ret tt, s1) /\
    calls_of (trace s1)
      = calls_of (trace s)
          ++ [backend_visualization str_other args deploy_cfg L 0 backend_files;
              reference_visualization args deploy_cfg L 0] /\
    last (trace s1) (Mkdir "") = success_line.
Proof.
  intros HW Hc Hs.
  assert (Hrun : exists s1,
            visualize W str_other args deploy_cfg 0 backend_files s = (Ret tt, s1)).
  { unfold visualize.
    erewrite bind_Ret by (unfold lift, subscript; rewrite Hc; reflexivity).
    match goal with
    | |- context [bind (create_process W ?n ?t ?a ?k (Some 0%nat)) _ s] =>
        destruct (create_process_obedient W HW L n t a k s Hs) as [s0 [Hr0 Hs0]]
    end.
    erewrite bind_Ret by exact Hr0.
    match goal with
    | |- context [bind (create_process W ?n ?t ?a ?k (Some 0%nat)) _ s0] =>
        destruct (create_process_obedient W HW L n t a k s0 Hs0) as [s1 [Hr1 _]]
    end.
    erewrite bind_Ret by exact Hr1.
    eexists. reflexivity. }
  destruct Hrun as [s1 Hrun]. exists s1. split; [exact Hrun |].
  destruct (visualize_Ret _ _ _ _ _ _ _ _ _ Hrun) as [_ [Hcalls Hlast]].
  destruct Hs as [Hl _]. rewrite Hl in Hcalls. split; assumption.
Qed.

(** X10.  The plain pipeline: with a work directory, a string export name,
    a [codebase], no [apply_marks] and a backend other than ['tensorrt'],
    a run in which no worker leaves a non-zero flag completes; it makes
    exactly three collaborator calls (the export, the backend visualization
    on the exported file, the reference visualization) and its last event
    is the line [All process success.]. *)
Theorem plain_pipeline_completes :
  forall (W : world) str_other args deploy_cfg work_dir pytorch2onnx name codebase,
    obedient W ->
    a_work_dir args = Some work_dir ->
    lookup "pytorch2onnx" deploy_cfg = Some pytorch2onnx ->
    subscript pytorch2onnx "save_file" = Ret (PStr name) ->
    lookup "codebase" deploy_cfg = Some codebase ->
    truthy (dict_get deploy_cfg "apply_marks" (PBool false)) = false ->
    eq_str (backend deploy_cfg) "tensorrt" = false ->
    fst (main W str_other args deploy_cfg initial_state) = Ret tt /\
    calls_of (trace (snd (main W str_other args deploy_cfg initial_state)))
      = [export_call args deploy_cfg (level_value (a_log_level args)) work_dir 0;
         backend_visualization str_other args deploy_cfg (level_value (a_log_level args))
           0 [osp.join work_dir name];
         reference_visualization args deploy_cfg (level_value (a_log_level args)) 0] /\
    last (trace (snd (main W str_other args deploy_cfg initial_state))) (Mkdir "")
      = success_line.
Proof.
  intros W so args cfg wd p name cb HW Hwd Hp Hn Hc Hm Hb.
  destruct (convert_onnx_obedient W args cfg wd p name (level_value (a_log_level args))
              _ HW Hp Hn (flag_ok_after_setup args wd)) as [s0 [Hexp Hs0]].
  destruct (visualize_obedient W so args cfg cb [osp.join wd name]
              (level_value (a_log_level args)) s0 HW Hc Hs0) as [s1 [Hv [Hcalls Hlast]]].
  assert (Hmain : main W so args cfg initial_state = (Ret tt, s1)).
  { rewrite (main_fresh W so args cfg wd Hwd). unfold intermediate_files.
    erewrite bind_Ret.
    2:{ erewrite bind_Ret by exact Hexp. apply split_model_without_marks. exact Hm. }
    unfold deploy. erewrite bind_Ret by (apply convert_backend_other; exact Hb).
    exact Hv. }
  rewrite Hmain. cbn [fst snd]. split; [reflexivity |]. split; [| exact Hlast].
  rewrite Hcalls.
  destruct (convert_onnx_Ret _ _ _ _ _ _ _ _ Hexp) as [_ [_ [_ Hc0]]].
  rewrite Hc0. reflexivity.
Qed.

Lemma plain_pipeline_completes_witness :
  fst (main Samples.quiet Samples.str_other Samples.args Samples.cfg_default
         initial_state) = Ret tt.
Proof.
  refine (proj1 (plain_pipeline_completes Samples.quiet Samples.str_other Samples.args
                   Samples.cfg_default "work"
                   (PDict [("save_file", PStr "end2end.onnx")]) "end2end.onnx"
                   (PStr "mmdet") _ eq_refl eq_refl eq_refl eq_refl eq_refl eq_refl)).
  intros history c cs r v H. discriminate H.
Defined.

(** X11.  The full pipeline: with [apply_marks], N readable split entries,
    the [tensorrt] backend and N readable model parameters, a run in which
    no worker leaves a non-zero flag completes after exactly [1 + N + N + 2]
    collaborator calls: the export, the N splits in declaration order, the
    N compilations paired by position with the split outputs, and the two
    visualizations, the first on the N compiled files. *)
Theorem full_pipeline_completes :
  forall (W : world) str_other args deploy_cfg work_dir pytorch2onnx name codebase
         entries tensorrt_params model_params,
    obedient W ->
    a_work_dir args = Some work_dir ->
    lookup "pytorch2onnx" deploy_cfg = Some pytorch2onnx ->
    subscript pytorch2onnx "save_file" = Ret (PStr name) ->
    lookup "codebase" deploy_cfg = Some codebase ->
    truthy (dict_get deploy_cfg "apply_marks" (PBool false)) = true ->
    lookup "split_params" deploy_cfg = Some (PList entries) ->
    Forall split_entry_ok entries ->
    eq_str (backend deploy_cfg) "tensorrt" = true ->
    lookup "tensorrt_params" deploy_cfg = Some (PDict tensorrt_params) ->
    dict_get tensorrt_params "model_params" (PList []) = PList model_params ->
    List.length model_params = List.length entries ->
    Forall compile_entry_ok (combine model_params (map (split_path work_dir) entries)) ->
    fst (main W str_other args deploy_cfg initial_state) = Ret tt /\
    calls_of (trace (snd (main W str_other args deploy_cfg initial_state)))
      = export_call args deploy_cfg (level_value (a_log_level args)) work_dir 0
        :: map (split_call (level_value (a_log_level args)) work_dir 0
                  (exported_file deploy_cfg work_dir)) entries
        ++ map (compile_call args (level_value (a_log_level args)) work_dir 0)
             (number_from 0 (combine model_params (map (split_path work_dir) entries)))
        ++ [backend_visualization str_other args deploy_cfg
              (level_value (a_log_level args)) 0
              (map (backend_path work_dir)
                 (combine model_params (map (split_path work_dir) entries)));
            reference_visualization args deploy_cfg (level_value (a_log_level args)) 0] /\
    List.length (calls_of (trace (snd (main W str_other args deploy_cfg initial_state))))
      = (1 + List.length entries + List.length entries + 2)%nat.
Proof.
  intros W so args cfg wd p name cb entries tp mps
    HW Hwd Hp Hn Hc Hm Hs Hok Hb Ht Hmp Hlen Hcok.
  set (L := level_value (a_log_level args)).
  set (files := map (split_path wd) entries) in *.
  destruct (front_obedient W so args cfg wd p name entries HW Hwd Hp Hn Hm Hs Hok)
    as [s1 Hf]. fold files in Hf.
  destruct (front_Ret _ _ _ _ _ _ _ _ Hf) as [Hs1 _].
  destruct (main_after_front _ _ _ _ _ _ _ _ Hf) as [_ [_ [Hi _]]].
  destruct (intermediate_files_split_Ret _ _ _ _ _ _ entries _ _ _ Hm Hs Hi)
    as [_ [_ [_ [_ Hc1]]]].
  cbn [after_setup trace calls_of flat_map app root_level] in Hc1.
  assert (Hlen' : List.length mps = List.length files)
    by (unfold files; rewrite length_map; exact Hlen).
  destruct (convert_backend_obedient W args cfg tp mps wd files L s1
              HW Hb Ht Hmp Hlen' Hcok Hs1) as [s2 Hcb].
  destruct (convert_backend_sound W args cfg wd L files s1 Hs1) as [t [_ [_ Hs2]]].
  rewrite Hcb in Hs2. cbn [fst snd] in Hs2.
  pose proof Hcb as Hloop.
  rewrite (convert_backend_tensorrt _ _ _ _ _ _ _ _ _ Hb Ht Hmp) in Hloop.
  apply Nat.eqb_eq in Hlen'. rewrite Hlen' in Hloop.
  apply tensorrt_loop_Ret in Hloop. destruct Hloop as [_ [_ [_ Hc2]]].
  destruct Hs1 as [Hl1 Hz1]. rewrite Hl1 in Hc2.
  destruct (visualize_obedient W so args cfg cb
              (map (backend_path wd) (combine mps files)) L s2 HW Hc Hs2)
    as [s3 [Hv [Hc3 _]]].
  assert (Hmain : main W so args cfg initial_state = (Ret tt, s3)).
  { rewrite main_via_front, Hf. unfold deploy. erewrite bind_Ret by exact Hcb.
    exact Hv. }
  rewrite Hmain. cbn [fst snd]. split; [reflexivity |].
  assert (Hcalls : calls_of (trace s3)
            = export_call args cfg L wd 0
              :: map (split_call L wd 0 (exported_file cfg wd)) entries
              ++ map (compile_call args L wd 0) (number_from 0 (combine mps files))
              ++ [backend_visualization so args cfg L 0
                    (map (backend_path wd) (combine mps files));
                  reference_visualization args cfg L 0]).
  { rewrite Hc3, Hc2, Hc1. rewrite <- !app_assoc. reflexivity. }
  split; [exact Hcalls |].
  rewrite Hcalls. cbn [List.length]. rewrite !length_app, !length_map.
  rewrite length_number_from, length_combine.
  apply Nat.eqb_eq in Hlen'. rewrite Hlen'. unfold files. rewrite length_map.
  cbn [List.length]. lia.
Qed.

Lemma full_pipeline_completes_witness :
  fst (main Samples.quiet Samples.str_other Samples.args Samples.cfg_full
         initial_state) = Ret tt /\
  List.length
    (calls_of (trace (snd (main Samples.quiet Samples.str_other Samples.args
                             Samples.cfg_full initial_state)))) = 7%nat.
Proof.
  assert (HW : obedient Samples.quiet) by (intros history c cs r v H; discriminate H).
  assert (Hok : Forall split_entry_ok Samples.split_entries).
  { repeat constructor; eexists _, _, _; repeat split; reflexivity. }
  assert (Hcok : Forall compile_entry_ok
                   (combine Samples.model_params
                      (map (split_path "work") Samples.split_entries))).
  { repeat constructor; eexists _, _; split; reflexivity. }
  destruct (full_pipeline_completes Samples.quiet Samples.str_other Samples.args
              Samples.cfg_full "work" (PDict [("save_file", PStr "end2end.onnx")])
              "end2end.onnx" (PStr "mmdet") Samples.split_entries
              [("model_params", PList Samples.model_params)] Samples.model_params
              HW eq_refl eq_refl eq_refl eq_refl eq_refl eq_refl Hok
              eq_refl eq_refl eq_refl eq_refl Hcok) as [Hret [_ Hlen]].
  split; [exact Hret | exact Hlen].
Defined.

(* ================================================================= *)
(** ** Counting and ordering the calls *)

Lemma adds_lift {A} (r : result A) : adds_at_most 0 (lift r).
Proof. intros s. exists []. simpl. rewrite app_nil_r. auto. Qed.

Lemma adds_osp_join a v : adds_at_most 0 (osp_join a v).
Proof. destruct v; simpl; exact (adds_lift _). Qed.

Lemma adds_assert b : adds_at_most 0 (py_assert b).
Proof. destruct b; exact (adds_lift _). Qed.

Lemma adds_log e : calls_of [e] = [] -> adds_at_most 0 (emit e).
Proof.
  intros H s. exists []. simpl. rewrite calls_of_app, H. auto.
Qed.

Lemma adds_create_process W name target args kwargs ret_value :
  adds_at_most 1 (create_process W name target args kwargs ret_value).
Proof.
  intros s. destruct (create_process_calls W name target args kwargs ret_value s)
    as [_ Hc].
  eexists. split; [exact Hc | apply le_n].
Qed.

Lemma adds_bind {A B} n k (m : M A) (f : A -> M B) :
  adds_at_most n m -> (forall a, adds_at_most k (f a)) ->
  adds_at_most (n + k) (bind m f).
Proof.
  intros Hm Hf s. destruct (Hm s) as [l1 [H1 Hn]]. unfold bind.
  destruct (m s) as [[a | e] s1]; cbn [snd] in *.
  - destruct (Hf a s1) as [l2 [H2 Hk]]. exists (l1 ++ l2).
    rewrite H2, H1, app_assoc, length_app. split; [reflexivity | lia].
  - exists l1. split; [exact H1 | lia].
Qed.

Lemma convert_onnx_adds W args deploy_cfg work_dir ret_value :
  adds_at_most 1 (convert_onnx W args deploy_cfg work_dir ret_value).
Proof.
  unfold convert_onnx.
  apply (adds_bind 0 1); [apply adds_lift | intros p].
  apply (adds_bind 0 1); [apply adds_lift | intros v].
  apply (adds_bind 1 0); [apply adds_create_process | intros _].
  apply (adds_bind 0 0); [apply adds_osp_join | intros f]. exact (adds_lift _).
Qed.

Lemma visualize_adds W str_other args deploy_cfg ret_value backend_files :
  adds_at_most 2 (visualize W str_other args deploy_cfg ret_value backend_files).
Proof.
  unfold visualize.
  apply (adds_bind 0 2); [apply adds_lift | intros cb].
  apply (adds_bind 1 1); [apply adds_create_process | intros _].
  apply (adds_bind 1 0); [apply adds_create_process | intros _].
  apply adds_log. reflexivity.
Qed.

(** The trace of a sound sequence splits into the part of each half. *)
Lemma sound_bind_split {A B} L P1 P2 (m : M A) (f : A -> M B) s :
  sound L P1 m -> (forall a, sound L P2 (f a)) -> flag_ok L s ->
  exists t1 t2,
    trace (snd (m s)) = trace s ++ t1 /\
    trace (snd (bind m f s)) = trace s ++ t1 ++ t2 /\
    Forall P1 t1 /\ Forall P2 t2.
Proof.
  intros Hm Hf Hs. destruct (Hm s Hs) as [t1 [H1 [HP1 Hr]]]. unfold bind.
  destruct (m s) as [[a | e] s1]; cbn [fst snd] in *.
  - destruct (Hf a s1 Hr) as [t2 [H2 [HP2 _]]]. exists t1, t2.
    rewrite H2, H1, app_assoc. auto.
  - exists t1, []. rewrite app_nil_r. auto.
Qed.

Lemma calls_count_of_segment {A} n (m : M A) s t :
  adds_at_most n m -> trace (snd (m s)) = trace s ++ t ->
  (List.length (calls_of t) <= n)%nat.
Proof.
  intros Hm Ht. destruct (Hm s) as [l [Hl Hn]].
  rewrite Ht, calls_of_app in Hl. apply app_inv_head in Hl. rewrite Hl. exact Hn.
Qed.

(** X12.  In every run the collaborator calls come in stage order: at most
    one export, then split calls only, then compile calls only, then at
    most two inference calls.  No stage is ever revisited. *)
Theorem calls_follow_stage_order :
  forall (W : world) str_other args deploy_cfg,
    exists exports splits compiles inferences,
      calls_of (trace (snd (main W str_other args deploy_cfg initial_state)))
        = exports ++ splits ++ compiles ++ inferences /\
      Forall (fun c => c_target c = torch2onnx) exports /\
      (List.length exports <= 1)%nat /\
      Forall (fun c => c_target c = extract_model) splits /\
      Forall (fun c => c_target c = onnx2tensorrt) compiles /\
      Forall (fun c => c_target c = inference_model) inferences /\
      (List.length inferences <= 2)%nat.
Proof.
  intros W so args cfg.
  destruct (a_work_dir args) as [wd |] eqn:Hwd.
  2:{ rewrite main_without_work_dir by exact Hwd.
      exists [], [], [], []. repeat split; auto. }
  set (L := level_value (a_log_level args)).
  pose proof (flag_ok_after_setup args wd) as H0. fold L in H0.
  destruct (sound_bind_split L _ _ _ _ _
              (convert_onnx_sound W args cfg wd L)
              (split_model_sound W so cfg wd L) H0)
    as [t1 [t2 [Ht1 [Ht12 [HP1 HP2]]]]].
  change (trace (snd (intermediate_files W so args cfg wd 0 (after_setup args wd)))
          = trace (after_setup args wd) ++ t1 ++ t2) in Ht12.
  pose proof (calls_count_of_segment 1 _ _ _
                (convert_onnx_adds W args cfg wd 0) Ht1) as Hn1.
  apply step_calls in HP1. apply step_calls in HP2.
  rewrite (main_fresh W so args cfg wd Hwd). unfold bind at 1.
  destruct (intermediate_files_sound W so args cfg wd L _ H0) as [t12 [_ [_ Hr1]]].
  destruct (intermediate_files W so args cfg wd 0 (after_setup args wd))
    as [[files | e] s1]; cbn [fst snd] in *.
  - destruct (sound_bind_split L _ _ _ _ _
                (convert_backend_sound W args cfg wd L files)
                (visualize_sound W so args cfg L) Hr1)
      as [t3 [t4 [Ht3 [Ht34 [HP3 HP4]]]]].
    change (trace (snd (deploy W so args cfg wd 0 files s1)) = trace s1 ++ t3 ++ t4)
      in Ht34.
    assert (Hn4 : (List.length (calls_of t4) <= 2)%nat).
    { unfold deploy, bind in Ht34.
      destruct (convert_backend W args cfg wd 0 files s1) as [[bfiles | e] s2];
        cbn [snd] in *.
      - rewrite app_assoc, <- Ht3 in Ht34.
        exact (calls_count_of_segment 2 _ _ _
                 (visualize_adds W so args cfg 0 bfiles) Ht34).
      - rewrite Ht3 in Ht34. rewrite <- (app_nil_r (trace s1 ++ t3)) in Ht34 at 1.
        rewrite <- app_assoc in Ht34. apply app_inv_head in Ht34.
        apply app_inv_head in Ht34. subst t4. simpl. lia. }
    apply step_calls in HP3. apply step_calls in HP4.
    exists (calls_of t1), (calls_of t2), (calls_of t3), (calls_of t4).
    split; [| repeat split; assumption].
    rewrite Ht34, Ht12, !calls_of_app. simpl. rewrite <- !app_assoc. reflexivity.
  - exists (calls_of t1), (calls_of t2), [], [].
    split; [| repeat split; auto].
    rewrite Ht12, !calls_of_app. simpl. rewrite app_nil_r. reflexivity.
Qed.

(* ================================================================= *)
(** ** Two runs of one configuration *)

Lemma agree_lift {A} (r : result A) : agree (lift r) (lift r).
Proof.
  intros s1 s2 a1 a2 s1' s2' Hl H1 H2. unfold lift in *.
  inversion H1; inversion H2; subst.
  split; [congruence |]. split; [exact Hl |].
  exists []. rewrite !app_nil_r. auto.
Qed.

Lemma agree_osp_join a v : agree (osp_join a v) (osp_join a v).
Proof. destruct v; simpl; exact (agree_lift _). Qed.

Lemma agree_assert b : agree (py_assert b) (py_assert b).
Proof. destruct b; exact (agree_lift _). Qed.

Lemma agree_log e : calls_of [e] = [] -> agree (emit e) (emit e).
Proof.
  intros He s1 s2 a1 a2 s1' s2' Hl H1 H2. unfold emit in *.
  inversion H1; inversion H2; subst. simpl.
  split; [reflexivity |]. split; [exact Hl |].
  exists []. rewrite !calls_of_app, He. auto.
Qed.

Lemma agree_create_process W1 W2 name target args kwargs r :
  agree (create_process W1 name target args kwargs (Some r))
        (create_process W2 name target args kwargs (Some r)).
Proof.
  intros s1 s2 a1 a2 s1' s2' Hl H1 H2.
  apply create_process_Ret_calls in H1. apply create_process_Ret_calls in H2.
  destruct H1 as [Hl1 Hc1]. destruct H2 as [Hl2 Hc2].
  split; [destruct a1, a2; reflexivity |]. split; [congruence |].
  exists [mkCall (root_level s1) target args kwargs].
  split; [exact Hc1 |]. rewrite Hc2, Hl. reflexivity.
Qed.

Lemma agree_bind {A B} (m1 m2 : M A) (f1 f2 : A -> M B) :
  agree m1 m2 -> (forall a, agree (f1 a) (f2 a)) -> agree (bind m1 f1) (bind m2 f2).
Proof.
  intros Hm Hf s1 s2 b1 b2 s1' s2' Hl H1 H2.
  apply bind_Ret_inv in H1. destruct H1 as [a1 [t1 [Hm1 Hf1]]].
  apply bind_Ret_inv in H2. destruct H2 as [a2 [t2 [Hm2 Hf2]]].
  destruct (Hm _ _ _ _ _ _ Hl Hm1 Hm2) as [Ha [Hl' [l [Hc1 Hc2]]]]. subst a2.
  destruct (Hf _ _ _ _ _ _ _ Hl' Hf1 Hf2) as [Hb [Hl'' [l' [Hd1 Hd2]]]].
  split; [exact Hb |]. split; [exact Hl'' |].
  exists (l ++ l'). rewrite Hd1, Hc1, Hd2, Hc2, !app_assoc. auto.
Qed.

Ltac agree_step :=
  first
    [ apply agree_lift
    | apply agree_assert
    | apply agree_osp_join
    | apply agree_create_process
    | apply agree_log; reflexivity
    | apply agree_bind; [| intros ?] ].

Section Agree.

Variables W1 W2 : world.
Variable str_other : pyval -> string.
Variable args : Args.
Variable deploy_cfg : list (string * pyval).
Variable work_dir : string.
Variable ret_value : nat.

Lemma agree_split_loop origin entries : forall acc,
  agree (split_loop W1 str_other work_dir ret_value origin entries acc)
        (split_loop W2 str_other work_dir ret_value origin entries acc).
Proof.
  induction entries as [| e entries IH]; intros acc; simpl.
  - exact (agree_lift (Ret acc)).
  - repeat agree_step. apply IH.
Qed.

Lemma agree_tensorrt_loop pairs : forall model_id acc,
  agree (tensorrt_loop W1 args work_dir ret_value model_id pairs acc)
        (tensorrt_loop W2 args work_dir ret_value model_id pairs acc).
Proof.
  induction pairs as [| [mp path] pairs IH]; intros model_id acc; simpl.
  - exact (agree_lift (Ret acc)).
  - repeat agree_step. apply IH.
Qed.

Lemma agree_intermediate_files :
  agree (intermediate_files W1 str_other args deploy_cfg work_dir ret_value)
        (intermediate_files W2 str_other args deploy_cfg work_dir ret_value).
Proof.
  unfold intermediate_files, convert_onnx. apply agree_bind.
  - repeat agree_step.
  - intros files. unfold split_model. destruct (truthy _).
    + repeat agree_step.
      * destruct files; exact (agree_lift _).
      * apply agree_split_loop.
    + exact (agree_lift (Ret files)).
Qed.

Lemma agree_deploy onnx_files :
  agree (deploy W1 str_other args deploy_cfg work_dir ret_value onnx_files)
        (deploy W2 str_other args deploy_cfg work_dir ret_value onnx_files).
Proof.
  unfold deploy, convert_backend, visualize. apply agree_bind.
  - destruct (eq_str _ _).
    + repeat agree_step. apply agree_tensorrt_loop.
    + exact (agree_lift (Ret onnx_files)).
  - intros files. repeat agree_step.
Qed.

End Agree.

(** X13.  Two runs on the same arguments and configuration that both
    complete have made the same collaborator calls, in the same order and
    with the same arguments, whatever their workers did: the workers decide
    only how far a run gets. *)
Theorem completed_runs_agree_on_calls :
  forall (W1 W2 : world) str_other args deploy_cfg s1 s2,
    main W1 str_other args deploy_cfg initial_state = (Ret tt, s1) ->
    main W2 str_other args deploy_cfg initial_state = (Ret tt, s2) ->
    calls_of (trace s1) = calls_of (trace s2).
Proof.
  intros W1 W2 so args cfg s1 s2 H1 H2.
  destruct (a_work_dir args) as [wd |] eqn:Hwd;
    [| rewrite main_without_work_dir in H1 by exact Hwd; discriminate H1].
  rewrite (main_fresh W1 so args cfg wd Hwd) in H1.
  rewrite (main_fresh W2 so args cfg wd Hwd) in H2.
  destruct (agree_bind _ _ _ _
              (agree_intermediate_files W1 W2 so args cfg wd 0)
              (agree_deploy W1 W2 so args cfg wd 0)
              _ _ _ _ _ _ eq_refl H1 H2) as [_ [_ [l [Hc1 Hc2]]]].
  rewrite Hc1, Hc2. reflexivity.
Qed.

Lemma completed_runs_agree_on_calls_witness :
  calls_of (trace (snd (main Samples.quiet Samples.str_other Samples.args
                          Samples.cfg_split initial_state)))
  = calls_of (trace (snd (main Samples.writes_negative_zero Samples.str_other
                            Samples.args Samples.cfg_split initial_state))).
Proof.
  refine (completed_runs_agree_on_calls Samples.quiet Samples.writes_negative_zero
            Samples.str_other Samples.args Samples.cfg_split _ _ _ _);
    vm_compute; reflexivity.
Defined.

(* ================================================================= *)
(** ** The success line *)

Lemma unfinished_lift {A} (r : result A) : unfinished (lift r).
Proof. intros s. exists []. simpl. rewrite app_nil_r. auto. Qed.

Lemma unfinished_osp_join a v : unfinished (osp_join a v).
Proof. destruct v; simpl; exact (unfinished_lift _). Qed.

Lemma unfinished_assert b : unfinished (py_assert b).
Proof. destruct b; exact (unfinished_lift _). Qed.

Lemma unfinished_bind {A B} (m : M A) (f : A -> M B) :
  unfinished m -> (forall a, unfinished (f a)) -> unfinished (bind m f).
Proof.
  intros Hm Hf s. destruct (Hm s) as [t1 [H1 HP1]]. unfold bind.
  destruct (m s) as [[a | e] s1]; cbn [snd] in *.
  - destruct (Hf a s1) as [t2 [H2 HP2]]. exists (t1 ++ t2).
    rewrite H2, H1, app_assoc. split; [reflexivity | apply Forall_app; auto].
  - exists t1. auto.
Qed.

(** A step whose name does not make one of its lines read like the
    success line. *)
Lemma unfinished_create_process W name target args kwargs ret_value :
  (forall suffix, (name ++ suffix)%string <> "All process success.") ->
  unfinished (create_process W name target args kwargs ret_value).
Proof.
  intros Hname s.
  assert (Hline : forall l suffix, Log l (name ++ suffix) <> success_line).
  { intros l suffix H. unfold success_line in H. injection H as _ Hmsg.
    exact (Hname _ Hmsg). }
  destruct ret_value as [r |].
  - rewrite create_process_flag.
    destruct (nth_error _ r) as [v |]; [destruct (nonzero v) |]; cbn [snd trace];
      eexists; (split; [rewrite <- ?app_assoc; reflexivity |]);
      repeat constructor; try apply Hline; discriminate.
  - rewrite create_process_no_flag. cbn [snd trace].
    eexists. split; [rewrite <- ?app_assoc; reflexivity |].
    repeat constructor; try apply Hline; discriminate.
Qed.

Lemma finishing_bind {A B} (m : M A) (f : A -> M B) :
  unfinished m -> (forall a, finishing (f a)) -> finishing (bind m f).
Proof.
  intros Hm Hf s. destruct (Hm s) as [t1 [H1 HP1]]. unfold bind.
  destruct (m s) as [[a | e] s1]; cbn [fst snd] in *.
  - destruct (Hf a s1) as [t2 [HP2 H2]]. exists (t1 ++ t2).
    split; [apply Forall_app; auto |].
    destruct (fst (f a s1)); rewrite H2, H1, <- ?app_assoc; reflexivity.
  - exists t1. auto.
Qed.

Lemma finishing_success_line : finishing (logging_info "All process success.").
Proof. intros s. exists []. split; [constructor | reflexivity]. Qed.

Ltac unfinished_step :=
  first
    [ apply unfinished_lift
    | apply unfinished_assert
    | apply unfinished_osp_join
    | apply unfinished_create_process; intros suffix; simpl; discriminate
    | apply unfinished_bind; [| intros ?] ].

Section Success_line.

Variable W : world.
Variable str_other : pyval -> string.
Variable args : Args.
Variable deploy_cfg : list (string * pyval).
Variable work_dir : string.
Variable ret_value : nat.

Lemma unfinished_split_loop origin entries : forall acc,
  unfinished (split_loop W str_other work_dir ret_value origin entries acc).
Proof.
  induction entries as [| e entries IH]; intros acc; simpl.
  - exact (unfinished_lift (Ret acc)).
  - repeat unfinished_step. apply IH.
Qed.

Lemma unfinished_tensorrt_loop pairs : forall model_id acc,
  unfinished (tensorrt_loop W args work_dir ret_value model_id pairs acc).
Proof.
  induction pairs as [| [mp path] pairs IH]; intros model_id acc; simpl.
  - exact (unfinished_lift (Ret acc)).
  - repeat unfinished_step. apply IH.
Qed.

Lemma unfinished_intermediate_files :
  unfinished (intermediate_files W str_other args deploy_cfg work_dir ret_value).
Proof.
  unfold intermediate_files, convert_onnx. apply unfinished_bind.
  - repeat unfinished_step.
  - intros files. unfold split_model. destruct (truthy _).
    + repeat unfinished_step.
      * destruct files; exact (unfinished_lift _).
      * apply unfinished_split_loop.
    + exact (unfinished_lift (Ret files)).
Qed.

Lemma unfinished_convert_backend onnx_files :
  unfinished (convert_backend W args deploy_cfg work_dir ret_value onnx_files).
Proof.
  unfold convert_backend. destruct (eq_str _ _).
  - repeat unfinished_step. apply unfinished_tensorrt_loop.
  - exact (unfinished_lift (Ret onnx_files)).
Qed.

Lemma finishing_deploy onnx_files :
  finishing (deploy W str_other args deploy_cfg work_dir ret_value onnx_files).
Proof.
  unfold deploy, visualize.
  apply finishing_bind; [apply unfinished_convert_backend | intros files].
  apply finishing_bind; [apply unfinished_lift | intros codebase].
  apply finishing_bind; [unfinished_step | intros _].
  apply finishing_bind; [unfinished_step | intros _].
  apply finishing_success_line.
Qed.

End Success_line.

(** X14.  The line [All process success.] is logged exactly when the run
    completes: a completed run ends with it and holds it nowhere else, and
    a run that raises or exits never logs it; no step name can produce a
    line that reads the same. *)
Theorem success_line_iff_completed :
  forall (W : world) str_other args deploy_cfg,
    (In success_line (trace (snd (main W str_other args deploy_cfg initial_state)))
     <-> fst (main W str_other args deploy_cfg initial_state) = Ret tt) /\
    (fst (main W str_other args deploy_cfg initial_state) = Ret tt ->
     exists t,
       trace (snd (main W str_other args deploy_cfg initial_state)) = t ++ [success_line]
       /\ ~ In success_line t).
Proof.
  intros W so args cfg.
  destruct (a_work_dir args) as [wd |] eqn:Hwd.
  2:{ rewrite main_without_work_dir by exact Hwd. cbn [fst snd trace].
      split; [split; [intros [] | discriminate] | discriminate]. }
  rewrite (main_fresh W so args cfg wd Hwd).
  destruct (finishing_bind _ _ (unfinished_intermediate_files W so args cfg wd 0)
              (finishing_deploy W so args cfg wd 0) (after_setup args wd))
    as [t [HP Ht]].
  assert (Hnot : ~ In success_line ([Mkdir wd; NewValue 0] ++ t)).
  { intros H. apply in_app_or in H. destruct H as [[H | [H | []]] | H];
      try discriminate H.
    rewrite Forall_forall in HP. exact (HP _ H eq_refl). }
  destruct (fst _) as [[] | e] eqn:E.
  - cbn [after_setup trace] in Ht. split.
    + split; [reflexivity |]. intros _. rewrite Ht, app_assoc.
      apply in_or_app. right. left. reflexivity.
    + intros _. exists ([Mkdir wd; NewValue 0] ++ t).
      split; [rewrite Ht, app_assoc; reflexivity | exact Hnot].
  - cbn [after_setup trace] in Ht. rewrite Ht. split.
    + split; [intros H; contradiction | discriminate].
    + discriminate.
Qed.

(* ================================================================= *)
(** ** Entries are read one at a time *)

Lemma split_loop_stops_at_unreadable W str_other work_dir origin L good bad rest x :
  obedient W ->
  Forall split_entry_ok good ->
  split_entry_error bad = Some x ->
  forall acc s,
    flag_ok L s ->
    exists s1,
      split_loop W str_other work_dir 0 origin (good ++ bad :: rest) acc s
        = (Raise x, s1) /\
      calls_of (trace s1)
        = calls_of (trace s) ++ map (split_call L work_dir 0 origin) good.
Proof.
  intros HW Hok Hbad. induction Hok as [| e good He Hok IH]; intros acc s Hs.
  - exists s. cbn [app map split_loop]. rewrite app_nil_r. split; [| reflexivity].
    unfold split_entry_error in Hbad. unfold bind at 1. unfold lift.
    destruct (subscript bad "save_file") as [v |]; [| congruence].
    unfold bind at 1.
    destruct v; try (cbn [osp_join raise]; congruence).
    cbn [osp_join ret]. unfold bind at 1.
    destruct (subscript bad "start"); [| congruence].
    unfold bind at 1.
    destruct (subscript bad "end"); [discriminate Hbad | congruence].
  - destruct He as [save_file [start [end_ [H1 [H2 H3]]]]].
    cbn [app split_loop].
    erewrite bind_Ret by (unfold lift; rewrite H1; reflexivity).
    erewrite bind_Ret by reflexivity.
    erewrite bind_Ret by (unfold lift; rewrite H2; reflexivity).
    erewrite bind_Ret by (unfold lift; rewrite H3; reflexivity).
    match goal with
    | |- context [create_process W ?n ?t ?a ?k (Some 0%nat)] =>
        destruct (create_process_obedient W HW L n t a k s Hs) as [s0 [Hrun Hs0]]
    end.
    erewrite bind_Ret by exact Hrun.
    destruct (IH (acc ++ [osp.join work_dir save_file]) s0 Hs0) as [s1 [Hloop Hc]].
    exists s1. split; [exact Hloop |].
    apply create_process_Ret_calls in Hrun. destruct Hrun as [_ Hc0].
    destruct Hs as [Hl _]. rewrite Hc, Hc0, Hl, <- app_assoc. cbn [map app].
    assert (Hcall : split_call L work_dir 0 origin e
                    = mkCall L extract_model
                        [Obj (PStr origin); Obj start; Obj end_]
                        [("save_file", Obj (PStr (osp.join work_dir save_file)));
                         ("ret_value", Shared 0)]).
    { unfold split_call, split_path.
      rewrite (subscript_field _ _ _ H1), (subscript_field _ _ _ H2),
        (subscript_field _ _ _ H3). reflexivity. }
    rewrite Hcall. reflexivity.
Qed.

(** X15.  Split entries are read one at a time, each just before its own
    step: when the entries before an unreadable one are readable and no
    worker leaves a non-zero flag, the export and the split steps of those
    earlier entries have all run by the time the run ends with the
    exception raised on the unreadable entry; no later entry is looked
    at. *)
Theorem unreadable_split_entry_stops_late :
  forall (W : world) str_other args deploy_cfg work_dir pytorch2onnx name good bad rest x,
    obedient W ->
    a_work_dir args = Some work_dir ->
    lookup "pytorch2onnx" deploy_cfg = Some pytorch2onnx ->
    subscript pytorch2onnx "save_file" = Ret (PStr name) ->
    truthy (dict_get deploy_cfg "apply_marks" (PBool false)) = true ->
    lookup "split_params" deploy_cfg = Some (PList (good ++ bad :: rest)) ->
    Forall split_entry_ok good ->
    split_entry_error bad = Some x ->
    fst (main W str_other args deploy_cfg initial_state) = Raise x /\
    calls_of (trace (snd (main W str_other args deploy_cfg initial_state)))
      = export_call args deploy_cfg (level_value (a_log_level args)) work_dir 0
        :: map (split_call (level_value (a_log_level args)) work_dir 0
                  (osp.join work_dir name)) good.
Proof.
  intros W so args cfg wd p name good bad rest x HW Hwd Hp Hn Hm Hs Hok Hbad.
  destruct (convert_onnx_obedient W args cfg wd p name (level_value (a_log_level args))
              _ HW Hp Hn (flag_ok_after_setup args wd)) as [s0 [Hexp Hs0]].
  destruct (split_loop_stops_at_unreadable W so wd (osp.join wd name)
              (level_value (a_log_level args)) good bad rest x HW Hok Hbad [] s0 Hs0)
    as [s1 [Hloop Hc]].
  assert (Hmain : main W so args cfg initial_state = (Raise x, s1)).
  { rewrite (main_fresh W so args cfg wd Hwd). apply bind_Raise.
    unfold intermediate_files. erewrite bind_Ret by exact Hexp.
    unfold split_model. rewrite Hm. unfold has_key, dict_get. rewrite Hs.
    unfold py_assert, bind, ret, lift, py_iter. exact Hloop. }
  rewrite Hmain. cbn [fst snd]. split; [reflexivity |].
  rewrite Hc. destruct (convert_onnx_Ret _ _ _ _ _ _ _ _ Hexp) as [_ [_ [_ Hc0]]].
  rewrite Hc0. reflexivity.
Qed.

Lemma unreadable_split_entry_stops_late_witness :
  fst (main Samples.quiet Samples.str_other Samples.args Samples.cfg_split_unreadable
         initial_state) = Raise (KeyError "start") /\
  calls_of (trace (snd (main Samples.quiet Samples.str_other Samples.args
                          Samples.cfg_split_unreadable initial_state)))
    = export_call Samples.args Samples.cfg_split_unreadable
        (level_value (a_log_level Samples.args)) "work" 0
      :: map (split_call (level_value (a_log_level Samples.args)) "work" 0
                (osp.join "work" "end2end.onnx")) [Samples.first_part].
Proof.
  refine (unreadable_split_entry_stops_late Samples.quiet Samples.str_other Samples.args
            Samples.cfg_split_unreadable "work"
            (PDict [("save_file", PStr "end2end.onnx")]) "end2end.onnx"
            [Samples.first_part] Samples.part_without_start [Samples.last_part]
            (KeyError "start") _ eq_refl eq_refl eq_refl eq_refl eq_refl _ eq_refl).
  - intros history c cs r v H. discriminate H.
  - constructor; [| constructor].
    exists "part0.onnx", (PStr "a:input"), (PStr "b:output").
    split; [reflexivity | split; reflexivity].
Defined.

(* ================================================================= *)
(** ** Every worker is handed the flag *)

Ltac flag_step :=
  first
    [ apply sound_ret
    | apply sound_assert
    | apply sound_osp_join
    | apply sound_lift; solve [auto with deploy]
    | apply sound_raise; exact I
    | apply sound_create_process; [intros ? ?; exact I | intros v Hv; reflexivity]
    | apply sound_bind; [| intros ?] ].

Section Flag_passed.

Variable W : world.
Variable str_other : pyval -> string.
Variable args : Args.
Variable deploy_cfg : list (string * pyval).
Variable work_dir : string.
Variable L : Z.

Lemma split_loop_passes_flag origin entries acc :
  sound L (passes_flag 0) (split_loop W str_other work_dir 0 origin entries acc).
Proof.
  revert acc. induction entries as [| e entries IH]; intros acc; simpl.
  - apply sound_ret.
  - repeat flag_step. apply IH.
Qed.

Lemma tensorrt_loop_passes_flag model_id pairs acc :
  sound L (passes_flag 0) (tensorrt_loop W args work_dir 0 model_id pairs acc).
Proof.
  revert model_id acc.
  induction pairs as [| [model_param onnx_path] pairs IH]; intros model_id acc; simpl.
  - apply sound_ret.
  - repeat flag_step. apply IH.
Qed.

Lemma intermediate_files_passes_flag :
  sound L (passes_flag 0) (intermediate_files W str_other args deploy_cfg work_dir 0).
Proof.
  unfold intermediate_files. apply sound_bind.
  - unfold convert_onnx. repeat flag_step.
  - intros files. unfold split_model. destruct (truthy _); [| apply sound_ret].
    repeat flag_step.
    + destruct files; flag_step.
    + apply split_loop_passes_flag.
Qed.

Lemma deploy_passes_flag onnx_files :
  sound L (passes_flag 0) (deploy W str_other args deploy_cfg work_dir 0 onnx_files).
Proof.
  unfold deploy. apply sound_bind.
  - unfold convert_backend. destruct (eq_str _ _); [| apply sound_ret].
    repeat flag_step. apply tensorrt_loop_passes_flag.
  - intros files. unfold visualize. repeat flag_step.
    intros s Hs. exists [Log (level_value INFO) "All process success."].
    simpl. repeat split; try apply Hs. repeat constructor.
Qed.

End Flag_passed.

(** X16.  Whatever the configuration and whatever the workers do, every
    worker [main] launches is handed, under the keyword [ret_value], the
    one shared flag that the driver reads after the step. *)
Theorem every_worker_is_handed_the_flag :
  forall (W : world) str_other args deploy_cfg,
    Forall (passes_flag 0)
      (trace (snd (main W str_other args deploy_cfg initial_state))).
Proof.
  intros W so args cfg. destruct (a_work_dir args) as [wd |] eqn:Hwd.
  - rewrite (main_fresh W so args cfg wd Hwd).
    destruct (sound_bind (level_value (a_log_level args)) (passes_flag 0) _ _
                (intermediate_files_passes_flag W so args cfg wd _)
                (deploy_passes_flag W so args cfg wd _)
                _ (flag_ok_after_setup args wd)) as [t [Ht [HP _]]].
    rewrite Ht. apply Forall_app. split; [| exact HP].
    repeat constructor.
  - rewrite main_without_work_dir by exact Hwd. constructor.
Qed.
